(** * Verification of the native epoll binding [org_jetlang_epoll_EPoll.cpp]

    A shallow embedding of the JNI functions of the binding over an
    explicit model of the process state they act on: the C heap
    ([malloc]/[free]), the descriptor table, epoll interest lists, eventfd
    counters and datagram sockets.  Every function of the source file is a
    computation in a small state monad whose results are a normal return,
    a memory fault (undefined behaviour of the C program) or a call that
    never returns (a blocking system call in a sequential execution). *)

From stdpp Require Import gmap list.

Local Open Scope Z_scope.

(** ** Machine integers *)

Definition to_u32 (z : Z) : Z := z mod 2 ^ 32.
Definition to_u64 (z : Z) : Z := z mod 2 ^ 64.
(** [size_t] is 64 bits wide; a negative [int] operand converts by wrap-around. *)
Definition to_size_t (z : Z) : Z := z mod 2 ^ 64.
Definition PTRDIFF_MAX : Z := 2 ^ 63 - 1.

(** ** Constants of the Linux ABI (x86-64) *)

Definition EPOLLIN : Z := 1.
Definition EPOLLOUT : Z := 4.
Definition EPOLLERR : Z := 8.
Definition EPOLLHUP : Z := 16.

Definition EPOLL_CTL_ADD : Z := 1.
Definition EPOLL_CTL_DEL : Z := 2.
Definition EPOLL_CTL_MOD : Z := 3.

Definition EFD_NONBLOCK : Z := 2048.
Definition MSG_TRUNC : Z := 32.

Definition EPERM : Z := 1.
Definition ENOENT : Z := 2.
Definition EBADF : Z := 9.
Definition EAGAIN : Z := 11.
Definition ENOMEM : Z := 12.
Definition EFAULT : Z := 14.
Definition EEXIST : Z := 17.
Definition EINVAL : Z := 22.
Definition EMFILE : Z := 24.
Definition ELOOP : Z := 40.
Definition ENOTSOCK : Z := 88.

Definition sizeof_epoll_event : Z := 12.
Definition sizeof_iovec : Z := 16.
Definition sizeof_mmsghdr : Z := 64.
Definition sizeof_epoll_state : Z := 48.
Definition sizeof_uint64_t : Z := 8.

(** ** Data model: the structs of the source *)

(** [struct epoll_event]; of the [data] union the program only uses [u32]. *)
Record epoll_event := mk_epoll_event {
  ev_events : Z;
  ev_data_u32 : Z
}.

Record iovec := mk_iovec {
  iov_base : Z;
  iov_len : Z
}.

Record msghdr := mk_msghdr {
  msg_name : Z;
  msg_namelen : Z;
  msg_iov : Z;
  msg_iovlen : Z;
  msg_control : Z;
  msg_controllen : Z;
  msg_flags : Z
}.

Record mmsghdr := mk_mmsghdr {
  msg_hdr : msghdr;
  msg_len : Z
}.

(** [struct epoll_state]; the fields carry the source names behind [st_]. *)
Record epoll_state := mk_epoll_state {
  st_fd : Z;
  st_efd : Z;
  st_events : Z;
  st_max_events : Z;
  st_efd_event : epoll_event;
  st_udp_rcv_len : Z;
  st_udp_rcv : Z
}.

Definition epoll_event_zero : epoll_event := mk_epoll_event 0 0.
Definition msghdr_zero : msghdr := mk_msghdr 0 0 0 0 0 0 0.
Definition mmsghdr_zero : mmsghdr := mk_mmsghdr msghdr_zero 0.

Definition set_fd (v : Z) (s : epoll_state) : epoll_state :=
  mk_epoll_state v (st_efd s) (st_events s) (st_max_events s) (st_efd_event s)
                 (st_udp_rcv_len s) (st_udp_rcv s).
Definition set_efd (v : Z) (s : epoll_state) : epoll_state :=
  mk_epoll_state (st_fd s) v (st_events s) (st_max_events s) (st_efd_event s)
                 (st_udp_rcv_len s) (st_udp_rcv s).
Definition set_events (v : Z) (s : epoll_state) : epoll_state :=
  mk_epoll_state (st_fd s) (st_efd s) v (st_max_events s) (st_efd_event s)
                 (st_udp_rcv_len s) (st_udp_rcv s).
Definition set_max_events (v : Z) (s : epoll_state) : epoll_state :=
  mk_epoll_state (st_fd s) (st_efd s) (st_events s) v (st_efd_event s)
                 (st_udp_rcv_len s) (st_udp_rcv s).
Definition set_efd_event_events (v : Z) (s : epoll_state) : epoll_state :=
  mk_epoll_state (st_fd s) (st_efd s) (st_events s) (st_max_events s)
                 (mk_epoll_event v (ev_data_u32 (st_efd_event s)))
                 (st_udp_rcv_len s) (st_udp_rcv s).
Definition set_efd_event_data_u32 (v : Z) (s : epoll_state) : epoll_state :=
  mk_epoll_state (st_fd s) (st_efd s) (st_events s) (st_max_events s)
                 (mk_epoll_event (ev_events (st_efd_event s)) v)
                 (st_udp_rcv_len s) (st_udp_rcv s).
Definition set_udp_rcv_len (v : Z) (s : epoll_state) : epoll_state :=
  mk_epoll_state (st_fd s) (st_efd s) (st_events s) (st_max_events s) (st_efd_event s)
                 v (st_udp_rcv s).
Definition set_udp_rcv (v : Z) (s : epoll_state) : epoll_state :=
  mk_epoll_state (st_fd s) (st_efd s) (st_events s) (st_max_events s) (st_efd_event s)
                 (st_udp_rcv_len s) v.

Definition set_msg_iov (v : Z) (m : mmsghdr) : mmsghdr :=
  let h := msg_hdr m in
  mk_mmsghdr (mk_msghdr (msg_name h) (msg_namelen h) v (msg_iovlen h)
                        (msg_control h) (msg_controllen h) (msg_flags h))
             (msg_len m).
Definition set_msg_iovlen (v : Z) (m : mmsghdr) : mmsghdr :=
  let h := msg_hdr m in
  mk_mmsghdr (mk_msghdr (msg_name h) (msg_namelen h) (msg_iov h) v
                        (msg_control h) (msg_controllen h) (msg_flags h))
             (msg_len m).

(** ** The process state *)

(** One live allocation of the C heap, seen at the type the program casts it
    to.  Cells of the event array and of a receive buffer are [None] while
    their content is indeterminate (fresh from [malloc]).  A freshly
    allocated struct is shown with zero fields: the program writes every
    field of a struct before anything reads it. *)
Inductive block :=
| BState (s : epoll_state)
| BEvents (cells : list (option epoll_event))
| BEvent (e : epoll_event)
| BMsgVec (v : list mmsghdr)
| BIovec (io : iovec)
| BBytes (cells : list (option Z)).

Definition block_size (b : block) : Z :=
  match b with
  | BState _ => sizeof_epoll_state
  | BEvents cells => sizeof_epoll_event * Z.of_nat (length cells)
  | BEvent _ => sizeof_epoll_event
  | BMsgVec v => sizeof_mmsghdr * Z.of_nat (length v)
  | BIovec _ => sizeof_iovec
  | BBytes cells => Z.of_nat (length cells)
  end.

(** An open file description.  [KEpoll] holds the interest list in
    registration order, [KEventfd] the 64-bit counter, [KUdp] the pending
    socket error and the queue of unread datagrams; [KFile] stands for any
    descriptor that is neither (a regular file, a terminal). *)
Inductive kobj :=
| KEpoll (interest : list (Z * epoll_event))
| KEventfd (counter : Z) (nonblock : bool)
| KUdp (nonblock : bool) (so_error : option Z) (rcvq : list (list Z))
| KFile.

(** Lines the program prints on standard output. *)
Inductive out_line :=
| OutEpollFd (epoll_fd : Z)
| OutResult (result err sockfd : Z).

Record OS := mkOS {
  heap : gmap Z block;
  brk : Z;
  mem_avail : Z;
  fds : gmap Z kobj;
  fd_limit : nat;
  errno : Z;
  stdout : list out_line
}.

Definition set_heap (h : gmap Z block) (os : OS) : OS :=
  mkOS h (brk os) (mem_avail os) (fds os) (fd_limit os) (errno os) (stdout os).
Definition set_fds (t : gmap Z kobj) (os : OS) : OS :=
  mkOS (heap os) (brk os) (mem_avail os) t (fd_limit os) (errno os) (stdout os).
Definition set_errno (e : Z) (os : OS) : OS :=
  mkOS (heap os) (brk os) (mem_avail os) (fds os) (fd_limit os) e (stdout os).

(** ** Outcomes and the state monad *)

Inductive fault := NullDeref | BadPointer | OutOfBounds | BadFree.

Inductive outcome (A : Type) : Type :=
| Ret (a : A) (os : OS)
| Fault (f : fault)
| Blocks.
Arguments Ret {A} a os.
Arguments Fault {A} f.
Arguments Blocks {A}.

Definition M (A : Type) : Type := OS -> outcome A.

Definition ret {A} (a : A) : M A := fun os => Ret a os.

Definition bind {A B} (m : M A) (k : A -> M B) : M B :=
  fun os =>
    match m os with
    | Ret a os' => k a os'
    | Fault f => Fault f
    | Blocks => Blocks
    end.

Notation "x <- m ;; k" := (bind m (fun x => k))
  (at level 100, m at next level, right associativity).
Notation "m ;;; k" := (bind m (fun _ => k))
  (at level 100, right associativity).

Definition crash {A} (f : fault) : M A := fun _ => Fault f.

(** A system call that fails: [errno] is set and the call returns -1. *)
Definition fail (e : Z) : M Z := fun os => Ret (-1) (set_errno e os).

(** Monadic iteration over a list, left to right. *)
Fixpoint for_each {A} (l : list A) (body : A -> M unit) : M unit :=
  match l with
  | [] => ret tt
  | x :: l' => body x ;;; for_each l' body
  end.

(** ** The C library *)

Module Libc.

(** Typed views of freshly allocated memory of [size] bytes. *)
Definition fresh_state (size : Z) : block :=
  BState (mk_epoll_state 0 0 0 0 epoll_event_zero 0 0).
Definition fresh_events (size : Z) : block :=
  BEvents (replicate (Z.to_nat (size / sizeof_epoll_event)) None).
Definition fresh_event (size : Z) : block := BEvent epoll_event_zero.
Definition fresh_msgvec (size : Z) : block :=
  BMsgVec (replicate (Z.to_nat (size / sizeof_mmsghdr)) mmsghdr_zero).
Definition fresh_iovec (size : Z) : block := BIovec (mk_iovec 0 0).
Definition fresh_bytes (size : Z) : block :=
  BBytes (replicate (Z.to_nat size) None).

(** [malloc(size)], the result seen through [view].  A request above
    [PTRDIFF_MAX] or above what the allocator can still hand out yields
    [NULL]; [malloc(0)] yields a unique pointer to an empty block.
    Addresses are handed out in increasing order and never reused. *)
Definition malloc (size : Z) (view : Z -> block) : M Z := fun os =>
  if (size <=? PTRDIFF_MAX) && (size <=? mem_avail os) then
    Ret (brk os)
        (mkOS (<[brk os := view size]> (heap os)) (brk os + Z.max 1 size)
              (mem_avail os - size) (fds os) (fd_limit os) (errno os) (stdout os))
  else Ret 0 (set_errno ENOMEM os).

(** [free(p)]: [free(NULL)] does nothing; freeing an address that is not
    a live allocation is undefined behaviour. *)
Definition free (p : Z) : M unit := fun os =>
  if p =? 0 then Ret tt os
  else match heap os !! p with
       | Some b =>
           Ret tt (mkOS (delete p (heap os)) (brk os)
                        (mem_avail os + block_size b) (fds os) (fd_limit os)
                        (errno os) (stdout os))
       | None => Fault BadFree
       end.

(** [memset(p, 0, len)] on a vector of [struct mmsghdr]. *)
Definition memset_zero (p len : Z) : M unit := fun os =>
  if len =? 0 then Ret tt os
  else match heap os !! p with
       | Some (BMsgVec v) =>
           if len <=? block_size (BMsgVec v) then
             let n := Z.to_nat (len / sizeof_mmsghdr) in
             Ret tt (set_heap (<[p := BMsgVec (replicate n mmsghdr_zero ++ drop n v)]>
                                 (heap os)) os)
           else Fault OutOfBounds
       | Some _ => Fault BadPointer
       | None => Fault (if p =? 0 then NullDeref else BadPointer)
       end.

Definition printf (l : out_line) : M unit := fun os =>
  Ret tt (mkOS (heap os) (brk os) (mem_avail os) (fds os) (fd_limit os)
               (errno os) (stdout os ++ [l])).

End Libc.

(** ** Memory accesses of the program *)

(** Reading through a pointer: a null or dangling pointer is a fault. *)
Definition deref (p : Z) : M block := fun os =>
  match heap os !! p with
  | Some b => Ret b os
  | None => Fault (if p =? 0 then NullDeref else BadPointer)
  end.

Definition poke (p : Z) (b : block) : M unit := fun os =>
  Ret tt (set_heap (<[p := b]> (heap os)) os).

Definition load_state (p : Z) : M epoll_state :=
  b <- deref p ;;
  match b with BState s => ret s | _ => crash BadPointer end.

Definition store_state (p : Z) (f : epoll_state -> epoll_state) : M unit :=
  s <- load_state p ;; poke p (BState (f s)).

Definition load_iovec (p : Z) : M iovec :=
  b <- deref p ;;
  match b with BIovec io => ret io | _ => crash BadPointer end.

Definition store_iovec (p : Z) (f : iovec -> iovec) : M unit :=
  io <- load_iovec p ;; poke p (BIovec (f io)).

Definition load_event (p : Z) : M epoll_event :=
  b <- deref p ;;
  match b with BEvent e => ret e | _ => crash BadPointer end.

Definition store_event (p : Z) (f : epoll_event -> epoll_event) : M unit :=
  e <- load_event p ;; poke p (BEvent (f e)).

(** [p[idx]] for [p] a [struct mmsghdr *]: no bounds check in the program,
    so an index outside the allocation is a fault. *)
Definition load_mmsghdr (p idx : Z) : M mmsghdr :=
  b <- deref p ;;
  match b with
  | BMsgVec v =>
      if idx <? 0 then crash OutOfBounds
      else match v !! Z.to_nat idx with
           | Some m => ret m
           | None => crash OutOfBounds
           end
  | _ => crash BadPointer
  end.

Definition store_mmsghdr (p idx : Z) (f : mmsghdr -> mmsghdr) : M unit :=
  b <- deref p ;;
  match b with
  | BMsgVec v =>
      if idx <? 0 then crash OutOfBounds
      else match v !! Z.to_nat idx with
           | Some m => poke p (BMsgVec (<[Z.to_nat idx := f m]> v))
           | None => crash OutOfBounds
           end
  | _ => crash BadPointer
  end.

(** ** The kernel interface

    The system calls the program makes, after their manual pages.  The
    model is sequential: nothing else runs while a call is in progress, so
    a call that would sleep with nothing to wake it is [Blocks].
    Registrations are level-triggered; nesting one epoll instance in another
    is left out of the model (such an [epoll_ctl] is refused).  Of flags
    and descriptor kinds the model knows those the program uses: creation
    flags other than the ones it passes are refused, and [read] and [write]
    are those of an eventfd. *)

Module Sys.

Definition ULLONG_MAX : Z := 2 ^ 64 - 1.

(** [INT_MAX / sizeof(struct epoll_event)], the most events one
    [epoll_wait] may be asked for. *)
Definition EP_MAX_EVENTS : Z := (2 ^ 31 - 1) / sizeof_epoll_event.

(** The lowest descriptor number not in use, below the limit. *)
Fixpoint first_free (t : gmap Z kobj) (n : nat) (k : Z) : option Z :=
  match n with
  | O => None
  | S n' => match t !! k with
            | None => Some k
            | Some _ => first_free t n' (k + 1)
            end
  end.

Definition alloc_fd (o : kobj) : M Z := fun os =>
  match first_free (fds os) (fd_limit os) 0 with
  | Some k => Ret k (set_fds (<[k := o]> (fds os)) os)
  | None => fail EMFILE os
  end.

Definition epoll_create1 (flags : Z) : M Z :=
  if flags =? 0 then alloc_fd (KEpoll []) else fail EINVAL.

Definition eventfd (initval flags : Z) : M Z :=
  if (flags =? 0) || (flags =? EFD_NONBLOCK)
  then alloc_fd (KEventfd (to_u32 initval) (flags =? EFD_NONBLOCK))
  else fail EINVAL.

Definition registered (fd : Z) (l : list (Z * epoll_event)) : bool :=
  existsb (fun p => fst p =? fd) l.

(** The kernel always watches for error and hang-up. *)
Definition stored_event (ev : epoll_event) : epoll_event :=
  mk_epoll_event (Z.lor (to_u32 (ev_events ev)) (Z.lor EPOLLERR EPOLLHUP))
                 (ev_data_u32 ev).

Definition apply_ctl (op fd : Z) (ev : epoll_event) (l : list (Z * epoll_event))
  : Z + list (Z * epoll_event) :=
  if op =? EPOLL_CTL_ADD then
    if registered fd l then inl EEXIST else inr (l ++ [(fd, stored_event ev)])
  else if op =? EPOLL_CTL_MOD then
    if registered fd l
    then inr (map (fun p => if fst p =? fd then (fd, stored_event ev) else p) l)
    else inl ENOENT
  else if op =? EPOLL_CTL_DEL then
    if registered fd l
    then inr (List.filter (fun p => negb (fst p =? fd)) l)
    else inl ENOENT
  else inl EINVAL.

(** [epoll_ctl(epfd, op, fd, &ev)], the event structure already copied in. *)
Definition epoll_ctl (epfd op fd : Z) (ev : epoll_event) : M Z := fun os =>
  match fds os !! epfd, fds os !! fd with
  | None, _ | _, None => fail EBADF os
  | Some e, Some target =>
      match target with
      | KFile => fail EPERM os
      | KEpoll _ =>
          fail (match e with
                | KEpoll _ => if epfd =? fd then EINVAL else ELOOP
                | _ => EINVAL
                end) os
      | _ =>
          match e with
          | KEpoll l =>
              match apply_ctl op fd ev l with
              | inl err => fail err os
              | inr l' => Ret 0 (set_fds (<[epfd := KEpoll l']> (fds os)) os)
              end
          | _ => fail EINVAL os
          end
      end
  end.

(** What a descriptor is ready for. *)
Definition ready_mask (o : kobj) : Z :=
  match o with
  | KEventfd c _ =>
      Z.lor (if 0 <? c then EPOLLIN else 0)
            (if c <? ULLONG_MAX - 1 then EPOLLOUT else 0)
  | KUdp _ err q =>
      Z.lor (Z.lor (match q with [] => 0 | _ => EPOLLIN end) EPOLLOUT)
            (match err with Some _ => EPOLLERR | None => 0 end)
  | _ => 0
  end.

Definition report (t : gmap Z kobj) (p : Z * epoll_event) : option epoll_event :=
  match t !! fst p with
  | Some o =>
      let r := Z.land (ev_events (snd p)) (ready_mask o) in
      if r =? 0 then None else Some (mk_epoll_event r (ev_data_u32 (snd p)))
  | None => None
  end.

Definition ready_events (t : gmap Z kobj) (l : list (Z * epoll_event))
  : list epoll_event := omap (report t) l.

(** [epoll_wait(epfd, events, maxevents, timeout)]: the ready events, at
    most [maxevents] of them, are written from the start of the array. *)
Definition epoll_wait (epfd evp maxevents timeout : Z) : M Z := fun os =>
  if (maxevents <=? 0) || (EP_MAX_EVENTS <? maxevents) then fail EINVAL os
  else match fds os !! epfd with
       | None => fail EBADF os
       | Some (KEpoll l) =>
           let rdy := take (Z.to_nat maxevents) (ready_events (fds os) l) in
           match rdy with
           | [] => if timeout <? 0 then Blocks else Ret 0 os
           | _ =>
               match heap os !! evp with
               | Some (BEvents cells) =>
                   if (length rdy <=? length cells)%nat then
                     Ret (Z.of_nat (length rdy))
                         (set_heap (<[evp := BEvents ((Some <$> rdy)
                                                        ++ drop (length rdy) cells)]>
                                      (heap os)) os)
                   else fail EFAULT os
               | _ => fail EFAULT os
               end
           end
       | Some _ => fail EINVAL os
       end.

(** [write(fd, &d, count)] on an eventfd: [d] is added to the counter. *)
Definition write (fd d count : Z) : M Z := fun os =>
  match fds os !! fd with
  | None => fail EBADF os
  | Some (KEventfd c nb) =>
      if count <? sizeof_uint64_t then fail EINVAL os
      else if d =? ULLONG_MAX then fail EINVAL os
      else if d <? ULLONG_MAX - c then
        Ret sizeof_uint64_t (set_fds (<[fd := KEventfd (c + d) nb]> (fds os)) os)
      else if nb then fail EAGAIN os else Blocks
  | Some _ => fail EINVAL os
  end.

(** [read(fd, &d, count)] on an eventfd: the counter is handed over and
    reset.  The value lands in a local the program never looks at. *)
Definition read (fd count : Z) : M Z := fun os =>
  match fds os !! fd with
  | None => fail EBADF os
  | Some (KEventfd c nb) =>
      if count <? sizeof_uint64_t then fail EINVAL os
      else if c =? 0 then (if nb then fail EAGAIN os else Blocks)
      else Ret sizeof_uint64_t (set_fds (<[fd := KEventfd 0 nb]> (fds os)) os)
  | Some _ => fail EINVAL os
  end.

(** Closing a descriptor also drops it from every interest list. *)
Definition forget (fd : Z) (o : kobj) : kobj :=
  match o with
  | KEpoll l => KEpoll (List.filter (fun p => negb (fst p =? fd)) l)
  | _ => o
  end.

Definition close (fd : Z) : M Z := fun os =>
  match fds os !! fd with
  | None => fail EBADF os
  | Some _ => Ret 0 (set_fds (forget fd <$> delete fd (fds os)) os)
  end.

(** *** Batched datagram receive *)

(** The header after one datagram was received through it. *)
Definition received (m : mmsghdr) (n : Z) (truncated : bool) : mmsghdr :=
  let h := msg_hdr m in
  mk_mmsghdr (mk_msghdr (msg_name h) (msg_namelen h) (msg_iov h) (msg_iovlen h)
                        (msg_control h) 0 (if truncated then MSG_TRUNC else 0))
             n.

(** One [recvmsg]: the datagram is copied into the buffer of the header's
    single-element vector, cut to its capacity.  [None] is [EFAULT]. *)
Definition deliver (h : gmap Z block) (m : mmsghdr) (dg : list Z)
  : option (gmap Z block * mmsghdr) :=
  let len := Z.of_nat (length dg) in
  if msg_iovlen (msg_hdr m) =? 0 then Some (h, received m 0 (0 <? len))
  else if msg_iovlen (msg_hdr m) =? 1 then
    match h !! msg_iov (msg_hdr m) with
    | Some (BIovec io) =>
        let n := Z.min len (iov_len io) in
        if n =? 0 then Some (h, received m 0 (0 <? len))
        else match h !! iov_base io with
             | Some (BBytes cells) =>
                 if n <=? Z.of_nat (length cells) then
                   Some (<[iov_base io :=
                             BBytes ((Some <$> take (Z.to_nat n) dg)
                                       ++ drop (Z.to_nat n) cells)]> h,
                         received m n (n <? len))
                 else None
             | _ => None
             end
    | _ => None
    end
  else None.

Inductive recv_result :=
| RStop (datagrams : Z) (err : option Z) (q : list (list Z)) (h : gmap Z block)
| RBlock.

(** The receive loop of [recvmmsg] with no flags and no timeout: entries
    are filled in order until [vlen] are done or the queue runs dry; a dry
    queue stops a non-blocking socket with [EAGAIN] and puts a blocking
    one to sleep. *)
Fixpoint recv_loop (nonblock : bool) (vecp vlen i : Z)
         (q : list (list Z)) (h : gmap Z block) : recv_result :=
  if vlen <=? i then RStop i None q h
  else match h !! vecp with
       | Some (BMsgVec v) =>
           match v !! Z.to_nat i with
           | Some m =>
               match q with
               | [] => if nonblock then RStop i (Some EAGAIN) q h else RBlock
               | dg :: q' =>
                   match deliver h m dg with
                   | Some (h', m') =>
                       recv_loop nonblock vecp vlen (i + 1) q'
                                 (<[vecp := BMsgVec (<[Z.to_nat i := m']> v)]> h')
                   | None => RStop i (Some EFAULT) q' h
                   end
               end
           | None => RStop i (Some EFAULT) q h
           end
       | _ => RStop i (Some EFAULT) q h
       end.

(** [recvmmsg(sockfd, vec, vlen, 0, NULL)]. *)
Definition recvmmsg (sockfd vecp vlen : Z) : M Z := fun os =>
  match fds os !! sockfd with
  | None => fail EBADF os
  | Some (KUdp nb (Some e) q) =>
      fail e (set_fds (<[sockfd := KUdp nb None q]> (fds os)) os)
  | Some (KUdp nb None q) =>
      match recv_loop nb vecp (to_u32 vlen) 0 q (heap os) with
      | RBlock => Blocks
      | RStop n None q' h' =>
          Ret n (set_heap h' (set_fds (<[sockfd := KUdp nb None q']> (fds os)) os))
      | RStop n (Some e) q' h' =>
          if n =? 0 then
            fail e (set_heap h' (set_fds (<[sockfd := KUdp nb None q']> (fds os)) os))
          else
            Ret n (set_heap h'
                     (set_fds (<[sockfd := KUdp nb (if e =? EAGAIN then None else Some e) q']>
                                 (fds os)) os))
      end
  | Some _ => fail ENOTSOCK os
  end.

End Sys.

(** ** The program: the JNI functions of [org_jetlang_epoll_EPoll.cpp] *)

Definition get_errno : M Z := fun os => Ret (errno os) os.

Definition Java_org_jetlang_epoll_EPoll_select (ptrAddress timeout : Z) : M Z :=
  state <- load_state ptrAddress ;;
  result <- Sys.epoll_wait (st_fd state) (st_events state) (st_max_events state) timeout ;;
  ret result.

Definition Java_org_jetlang_epoll_EPoll_getEventArrayAddress (ptrAddress : Z) : M Z :=
  state <- load_state ptrAddress ;;
  ret (st_events state).

Definition Java_org_jetlang_epoll_EPoll_getReadBufferAddress (ptrAddress idx : Z) : M Z :=
  state <- load_state ptrAddress ;;
  m <- load_mmsghdr (st_udp_rcv state) idx ;;
  io <- load_iovec (msg_iov (msg_hdr m)) ;;
  ret (iov_base io).

Definition Java_org_jetlang_epoll_EPoll_getEpollEventSize : Z := sizeof_epoll_event.

(** The body of the [for] loop of [init], for slot [i]. *)
Definition init_slot (state readBufferBytes i : Z) : M unit :=
  buffer <- Libc.malloc (to_size_t readBufferBytes) Libc.fresh_bytes ;;
  io <- Libc.malloc sizeof_iovec Libc.fresh_iovec ;;
  store_iovec io (fun x => mk_iovec buffer (iov_len x)) ;;;
  store_iovec io (fun x => mk_iovec (iov_base x) (to_size_t readBufferBytes)) ;;;
  s <- load_state state ;;
  store_mmsghdr (st_udp_rcv s) i (set_msg_iov io) ;;;
  s <- load_state state ;;
  store_mmsghdr (st_udp_rcv s) i (set_msg_iovlen 1).

Definition Java_org_jetlang_epoll_EPoll_init
           (maxSelectedEvents maxDatagramsPerRead readBufferBytes : Z) : M Z :=
  epoll_fd <- Sys.epoll_create1 0 ;;
  Libc.printf (OutEpollFd epoll_fd) ;;;
  state <- Libc.malloc sizeof_epoll_state Libc.fresh_state ;;
  store_state state (set_fd epoll_fd) ;;;
  events <- Libc.malloc (to_size_t (maxSelectedEvents * sizeof_epoll_event))
                        Libc.fresh_events ;;
  store_state state (set_events events) ;;;
  store_state state (set_max_events maxSelectedEvents) ;;;
  efd <- Sys.eventfd 0 EFD_NONBLOCK ;;
  store_state state (set_efd efd) ;;;
  store_state state (set_efd_event_events (Z.lor (Z.lor EPOLLHUP EPOLLERR) EPOLLIN)) ;;;
  store_state state (set_efd_event_data_u32 0) ;;;
  s <- load_state state ;;
  Sys.epoll_ctl epoll_fd EPOLL_CTL_ADD (st_efd s) (st_efd_event s) ;;;
  store_state state (set_udp_rcv_len maxDatagramsPerRead) ;;;
  udp_rcv <- Libc.malloc (to_size_t (maxDatagramsPerRead * sizeof_mmsghdr))
                         Libc.fresh_msgvec ;;
  store_state state (set_udp_rcv udp_rcv) ;;;
  s <- load_state state ;;
  Libc.memset_zero (st_udp_rcv s) (to_size_t (maxDatagramsPerRead * sizeof_mmsghdr)) ;;;
  for_each (Z.of_nat <$> seq 0 (Z.to_nat maxDatagramsPerRead))
           (init_slot state readBufferBytes) ;;;
  ret state.

Definition Java_org_jetlang_epoll_EPoll_recvmmsg (ptrAddress fd : Z) : M Z :=
  state <- load_state ptrAddress ;;
  result <- Sys.recvmmsg fd (st_udp_rcv state) (st_udp_rcv_len state) ;;
  (if result =? 1 then ret tt
   else e <- get_errno ;; Libc.printf (OutResult result e fd)) ;;;
  ret result.

Definition Java_org_jetlang_epoll_EPoll_freeNativeMemory (ptrAddress : Z) : M unit :=
  state <- load_state ptrAddress ;;
  Sys.close (st_fd state) ;;;
  state <- load_state ptrAddress ;;
  Sys.close (st_efd state) ;;;
  state <- load_state ptrAddress ;;
  Libc.free (st_events state) ;;;
  state <- load_state ptrAddress ;;
  m <- load_mmsghdr (st_udp_rcv state) 0 ;;
  io <- load_iovec (msg_iov (msg_hdr m)) ;;
  Libc.free (iov_base io) ;;;
  state <- load_state ptrAddress ;;
  m <- load_mmsghdr (st_udp_rcv state) 0 ;;
  Libc.free (msg_iov (msg_hdr m)) ;;;
  state <- load_state ptrAddress ;;
  Libc.free (st_udp_rcv state) ;;;
  Libc.free ptrAddress.

(** [d] is the content of the uninitialised local [uint64_t d] that the
    call hands to [write]: whatever the stack holds at that moment. *)
Definition Java_org_jetlang_epoll_EPoll_interrupt (ptrAddress d : Z) : M unit :=
  state <- load_state ptrAddress ;;
  Sys.write (st_efd state) (to_u64 d) sizeof_uint64_t ;;;
  ret tt.

Definition Java_org_jetlang_epoll_EPoll_clearInterrupt (ptrAddress : Z) : M unit :=
  state <- load_state ptrAddress ;;
  Sys.read (st_efd state) sizeof_uint64_t ;;;
  ret tt.

Definition Java_org_jetlang_epoll_EPoll_ctl (ptrAddress op eventTypes fd idx : Z) : M Z :=
  event <- Libc.malloc sizeof_epoll_event Libc.fresh_event ;;
  store_event event (fun e => mk_epoll_event (to_u32 eventTypes) (ev_data_u32 e)) ;;;
  store_event event (fun e => mk_epoll_event (ev_events e) (to_u32 idx)) ;;;
  state <- load_state ptrAddress ;;
  ev <- load_event event ;;
  result <- Sys.epoll_ctl (st_fd state) op fd ev ;;
  ret event.

Abbreviation select := Java_org_jetlang_epoll_EPoll_select.
Abbreviation getEventArrayAddress := Java_org_jetlang_epoll_EPoll_getEventArrayAddress.
Abbreviation getReadBufferAddress := Java_org_jetlang_epoll_EPoll_getReadBufferAddress.
Abbreviation init := Java_org_jetlang_epoll_EPoll_init.
Abbreviation recvmmsg := Java_org_jetlang_epoll_EPoll_recvmmsg.
Abbreviation freeNativeMemory := Java_org_jetlang_epoll_EPoll_freeNativeMemory.
Abbreviation interrupt := Java_org_jetlang_epoll_EPoll_interrupt.
Abbreviation clearInterrupt := Java_org_jetlang_epoll_EPoll_clearInterrupt.
Abbreviation ctl := Java_org_jetlang_epoll_EPoll_ctl.

(** Standard input, output and error open; an empty heap; room for 1024
    descriptors and one megabyte of allocations. *)
Definition os0 : OS :=
  mkOS ∅ 4096 (2 ^ 20) (<[2 := KFile]> (<[1 := KFile]> (<[0 := KFile]> ∅)))
       1024 0 [].

(** ** Sessions: what a caller does with a state handle *)

(** One call on a live handle (everything but [init] and
    [freeNativeMemory]). *)
Inductive call :=
| Select (timeout : Z)
| GetEventArrayAddress
| GetReadBufferAddress (idx : Z)
| Recvmmsg (fd : Z)
| Interrupt (d : Z)
| ClearInterrupt
| Ctl (op eventTypes fd idx : Z).

Definition exec (h : Z) (c : call) : M unit :=
  match c with
  | Select timeout => select h timeout ;;; ret tt
  | GetEventArrayAddress => getEventArrayAddress h ;;; ret tt
  | GetReadBufferAddress idx => getReadBufferAddress h idx ;;; ret tt
  | Recvmmsg fd => recvmmsg h fd ;;; ret tt
  | Interrupt d => interrupt h d
  | ClearInterrupt => clearInterrupt h
  | Ctl op eventTypes fd idx => ctl h op eventTypes fd idx ;;; ret tt
  end.

Definition session (h : Z) (cs : list call) : M unit := for_each cs (exec h).

(** The life of a handle short of its destruction: [init], then the calls
    [cs] in order; the handle is returned. *)
Definition lifetime (a b c : Z) (cs : list call) : M Z :=
  h <- init a b c ;; session h cs ;;; ret h.

(** ** Well-formed process states and the layout [init] produces *)

(** The allocator hands out addresses strictly between 0 and [brk], so
    nothing else is live, and descriptor numbers are not negative. *)
Record os_wf (os : OS) : Prop := {
  wf_brk : 0 < brk os;
  wf_fresh : forall a, a <= 0 \/ brk os <= a -> heap os !! a = None;
  wf_fds : forall k, k < 0 -> fds os !! k = None
}.

(** How far one allocation moves [brk]. *)
Definition chunk (size : Z) : Z := Z.max 1 size.

(** Addresses of the blocks [init a b c] allocates, when [brk] is [B] on
    entry: the state block is at [B] itself. *)
Definition events_addr (B : Z) : Z := B + sizeof_epoll_state.
Definition vec_addr (B a : Z) : Z := events_addr B + chunk (a * sizeof_epoll_event).
Definition pool_base (B a b : Z) : Z := vec_addr B a + chunk (b * sizeof_mmsghdr).
Definition stride (c : Z) : Z := chunk c + sizeof_iovec.
Definition buf_addr (B a b c i : Z) : Z := pool_base B a b + i * stride c.
Definition io_addr (B a b c i : Z) : Z := buf_addr B a b c i + chunk c.

(** Bytes [init a b c] asks the allocator for. *)
Definition init_bytes (a b c : Z) : Z :=
  sizeof_epoll_state + a * sizeof_epoll_event + b * sizeof_mmsghdr
  + b * (c + sizeof_iovec).

(** The event the wake channel is registered with. *)
Definition wake_event : epoll_event :=
  mk_epoll_event (Z.lor (Z.lor EPOLLHUP EPOLLERR) EPOLLIN) 0.

(** What the three descriptor calls of [init] leave behind: the interest
    descriptor, the wake descriptor (-1 for a failed creation) and the
    descriptor table. *)
Definition init_fds (t : gmap Z kobj) (limit : nat) : Z * Z * gmap Z kobj :=
  match Sys.first_free t limit 0 with
  | None => (-1, -1, t)
  | Some e =>
      let t1 := <[e := KEpoll []]> t in
      match Sys.first_free t1 limit 0 with
      | None => (e, -1, t1)
      | Some w =>
          (e, w, <[e := KEpoll [(w, wake_event)]]> (<[w := KEventfd 0 true]> t1))
      end
  end.

(** What one turn of the loop of [init] does to a header. *)
Definition fill_slot (io : Z) (m : mmsghdr) : mmsghdr :=
  set_msg_iovlen 1 (set_msg_iov io m).

(** The header of slot [i] as [init] leaves it. *)
Definition slot_header (B a b c : Z) (i : nat) : mmsghdr :=
  fill_slot (io_addr B a b c (Z.of_nat i)) mmsghdr_zero.

(** The parts of a block no call on a live handle changes: lengths and
    pointers stay, received bytes, counts, flags and events come and go. *)
Definition header_shape (m : mmsghdr) : mmsghdr :=
  let h := msg_hdr m in
  mk_mmsghdr (mk_msghdr (msg_name h) (msg_namelen h) (msg_iov h) (msg_iovlen h)
                        (msg_control h) 0 0) 0.

Definition block_shape (b : block) : block :=
  match b with
  | BEvents cells => BEvents (replicate (length cells) None)
  | BBytes cells => BBytes (replicate (length cells) None)
  | BMsgVec v => BMsgVec (header_shape <$> v)
  | BEvent _ => BEvent epoll_event_zero
  | BState _ | BIovec _ => b
  end.

Definition shape (hp : gmap Z block) : gmap Z block := block_shape <$> hp.

(** [os'] is reachable from [os] by calls that neither free nor reshape a
    block. *)
Definition steps_to (os os' : OS) : Prop :=
  os_wf os ->
  os_wf os' /\ shape (heap os) ⊆ shape (heap os') /\ fd_limit os' = fd_limit os.

(** Interest lists are touched by [epoll_ctl] only. *)
Definition keeps_epoll (os os' : OS) : Prop :=
  forall k l, fds os !! k = Some (KEpoll l) -> fds os' !! k = Some (KEpoll l).

(** A handle [h] with state block [st] whose receive pool has the layout
    of [init a b c] run at [brk = B]. *)
Record pool_at (hp : gmap Z block) (B a b c : Z) : Prop := {
  pa_vec : exists v, hp !! vec_addr B a = Some (BMsgVec v) /\
                     header_shape <$> v = slot_header B a b c <$> seq 0 (Z.to_nat b);
  pa_io : forall i, 0 <= i < b ->
            hp !! io_addr B a b c i = Some (BIovec (mk_iovec (buf_addr B a b c i) c));
  pa_buf : forall i, 0 <= i < b ->
            exists cells, hp !! buf_addr B a b c i = Some (BBytes cells) /\
                          Z.of_nat (length cells) = c
}.

(** A buffer after a datagram was received into it: the first [n] cells
    hold the datagram's first [n] bytes, the others what they held. *)
Definition overwrite (n : Z) (dg : list Z) (cells : list (option Z)) : list (option Z) :=
  (Some <$> take (Z.to_nat n) dg) ++ drop (Z.to_nat n) cells.

(** ** The reserved tag *)

(** The entries of an interest list that watch descriptor [w]. *)
Definition entries_of (w : Z) (l : list (Z * epoll_event)) : list (Z * epoll_event) :=
  List.filter (fun p => fst p =? w) l.

(** The wake descriptor [w] is registered exactly once, with the reserved
    tag 0 and the mask [init] gave it. *)
Definition wake_once (w : Z) (l : list (Z * epoll_event)) : Prop :=
  entries_of w l = [(w, wake_event)].




(** ** The claims of the specification that the code does not meet,
       in the specification's words *)

(** Failed creation: when the interest descriptor cannot be created,
    [create] reports the failure, so what it returns is not a live state
    handle, and it has released all it acquired, so heap and descriptor
    table are as before the call. *)
Definition create_unwinds (os : OS) (a b c : Z) : Prop :=
  forall os1 r os',
    Sys.epoll_create1 0 os = Ret (-1) os1 ->
    init a b c os = Ret r os' ->
    heap os' !! r = None /\ heap os' = heap os /\ fds os' = fds os.

(** Failed registration: the interest-set update that [ctl] asks for fails,
    or succeeds, in state [os]. *)
Definition update_result (os : OS) (h op eventTypes fd idx : Z) : option Z :=
  match heap os !! h with
  | Some (BState st) =>
      match Sys.epoll_ctl (st_fd st) op fd
                          (mk_epoll_event (to_u32 eventTypes) (to_u32 idx)) os with
      | Ret r _ => Some r
      | _ => None
      end
  | _ => None
  end.

(** A failed update is reported: what [ctl] returns for it differs from
    what it returns, from the same state, for an update that succeeds. *)
Definition ctl_reports_failure (os : OS) (h : Z) : Prop :=
  forall op ev fd idx op' ev' fd' idx' r r' os1 os2,
    update_result os h op ev fd idx = Some (-1) ->
    update_result os h op' ev' fd' idx' = Some 0 ->
    ctl h op ev fd idx os = Ret r os1 ->
    ctl h op' ev' fd' idx' os = Ret r' os2 ->
    r <> r'.




(** ** Concrete processes to run the program in *)

(** [os0] with a non-blocking datagram socket open as descriptor 5, two
    datagrams of three and two bytes waiting in it. *)
Definition os_udp : OS :=
  mkOS ∅ 4096 (2 ^ 20)
       (<[5 := KUdp true None [[10; 11; 12]; [20; 21]]]>
          (<[2 := KFile]> (<[1 := KFile]> (<[0 := KFile]> ∅))))
       1024 0 [].

(** A session touching every kind of call. *)
Definition demo_calls : list call :=
  [Ctl EPOLL_CTL_ADD EPOLLIN 5 7; Select 0; Recvmmsg 5; Interrupt 1;
   GetEventArrayAddress; ClearInterrupt; GetReadBufferAddress 0].

Definition demo_end : OS :=
  Eval vm_compute in
    match lifetime 4 2 16 demo_calls os_udp with
    | Ret _ o => o
    | _ => os_udp
    end.

(** [os0] with the descriptor limit reached: no descriptor can be created. *)
Definition os_full : OS :=
  mkOS ∅ 4096 (2 ^ 20) (<[2 := KFile]> (<[1 := KFile]> (<[0 := KFile]> ∅)))
       3 0 [].

(** A handle just created, next to the socket. *)
Definition fresh_end : OS :=
  Eval vm_compute in
    match lifetime 4 2 16 [] os_udp with
    | Ret _ o => o
    | _ => os_udp
    end.



(** A handle created with room for no event at all. *)
Definition narrow_end : OS :=
  Eval vm_compute in
    match lifetime 0 1 16 [] os0 with
    | Ret _ o => o
    | _ => os0
    end.

(** The wake channel signalled three times, with 5, 0 and 7 on the stack. *)
Definition signalled_end : OS :=
  Eval vm_compute in
    match lifetime 4 2 16 [Interrupt 5; Interrupt 0; Interrupt 7] os0 with
    | Ret _ o => o
    | _ => os0
    end.

(** [os0] with a blocking datagram socket as descriptor 5, one datagram
    waiting in it. *)
Definition os_blocking : OS :=
  mkOS ∅ 4096 (2 ^ 20)
       (<[5 := KUdp false None [[10; 11; 12]]]>
          (<[2 := KFile]> (<[1 := KFile]> (<[0 := KFile]> ∅))))
       1024 0 [].

(** A handle with two slots just created, next to the blocking socket. *)
Definition blocking_end : OS :=
  Eval vm_compute in
    match lifetime 4 2 16 [] os_blocking with
    | Ret _ o => o
    | _ => os_blocking
    end.



(** * Further definitions *)

(** ** Releasing memory *)

(** The heap after [free(p)]: [free(NULL)] leaves it as it is. *)
Definition release (p : Z) (hp : gmap Z block) : gmap Z block :=
  if p =? 0 then hp else delete p hp.

(** The handle of [fresh_end] destroyed. *)
Definition destroyed_end : OS :=
  Eval vm_compute in
    match freeNativeMemory 4096 fresh_end with
    | Ret _ o => o
    | _ => fresh_end
    end.

(** ** Registration *)

(** The process as [ctl] makes its system call: the event record of the
    call allocated and filled in. *)
Definition ctl_mid (eventTypes idx : Z) (os : OS) : OS :=
  mkOS (<[brk os := BEvent (mk_epoll_event (to_u32 eventTypes) (to_u32 idx))]> (heap os))
       (brk os + sizeof_epoll_event) (mem_avail os - sizeof_epoll_event)
       (fds os) (fd_limit os) (errno os) (stdout os).

(** [os0] with eight bytes left to allocate. *)
Definition os_tight : OS :=
  mkOS ∅ 4096 8 (<[2 := KFile]> (<[1 := KFile]> (<[0 := KFile]> ∅))) 1024 0 [].

(** ** Invariants of a run *)

(** The state block at [S] is live in a well-formed process. *)
Definition state_live (S : Z) (os : OS) : Prop :=
  os_wf os /\ exists s, heap os !! S = Some (BState s).

(** A handle without slots, used a little. *)
Definition slotless_end : OS :=
  Eval vm_compute in
    match lifetime 4 0 16 [Select 0; Interrupt 1] os0 with
    | Ret _ o => o
    | _ => os0
    end.

(** One slot of two bytes, next to the socket of [os_udp]. *)
Definition narrow_udp_end : OS :=
  Eval vm_compute in
    match lifetime 0 1 2 [] os_udp with
    | Ret _ o => o
    | _ => os_udp
    end.

(** * Properties *)

(** ** Running the monad *)

Lemma bind_ret {A B} (m : M A) (k : A -> M B) os a os' :
  m os = Ret a os' -> bind m k os = k a os'.
Proof. unfold bind. intros ->. reflexivity. Qed.

Lemma bind_fault {A B} (m : M A) (k : A -> M B) os f :
  m os = Fault f -> bind m k os = Fault f.
Proof. unfold bind. intros ->. reflexivity. Qed.

Lemma bind_blocks {A B} (m : M A) (k : A -> M B) os :
  m os = Blocks -> bind m k os = Blocks.
Proof. unfold bind. intros ->. reflexivity. Qed.

Lemma bind_inv {A B} (m : M A) (k : A -> M B) os b os' :
  bind m k os = Ret b os' ->
  exists a os1, m os = Ret a os1 /\ k a os1 = Ret b os'.
Proof.
  unfold bind. destruct (m os) as [a os1| |]; try discriminate.
  intros H. exists a, os1. split; [reflexivity | exact H].
Qed.

Ltac os_simpl :=
  cbn [heap brk mem_avail fds fd_limit errno stdout set_heap set_fds set_errno] in *.

(** ** Machine integers *)

Lemma to_size_t_small z : 0 <= z < 2 ^ 64 -> to_size_t z = z.
Proof. intros H. unfold to_size_t. apply Z.mod_small. exact H. Qed.

Lemma to_u32_small z : 0 <= z < 2 ^ 32 -> to_u32 z = z.
Proof. intros H. unfold to_u32. apply Z.mod_small. exact H. Qed.

Lemma to_u64_range z : 0 <= to_u64 z < 2 ^ 64.
Proof. unfold to_u64. apply Z.mod_pos_bound. lia. Qed.

(** ** The allocator *)

Lemma malloc_ret size view os :
  size <= PTRDIFF_MAX -> size <= mem_avail os ->
  Libc.malloc size view os =
  Ret (brk os)
      (mkOS (<[brk os := view size]> (heap os)) (brk os + chunk size)
            (mem_avail os - size) (fds os) (fd_limit os) (errno os) (stdout os)).
Proof.
  intros H1 H2. unfold Libc.malloc.
  apply Z.leb_le in H1, H2. rewrite H1, H2. reflexivity.
Qed.

Lemma malloc_null size view os :
  mem_avail os < size ->
  Libc.malloc size view os = Ret 0 (set_errno ENOMEM os).
Proof.
  intros H. unfold Libc.malloc.
  apply Z.leb_gt in H. rewrite H, andb_false_r. reflexivity.
Qed.

Lemma malloc_wf size view os :
  os_wf os ->
  os_wf (mkOS (<[brk os := view size]> (heap os)) (brk os + chunk size)
              (mem_avail os - size) (fds os) (fd_limit os) (errno os) (stdout os)).
Proof.
  intros [Hb Hf Hd]. unfold chunk. constructor; os_simpl.
  - lia.
  - intros a Ha. rewrite lookup_insert_ne by lia. apply Hf. lia.
  - exact Hd.
Qed.

Lemma wf_below os a b : os_wf os -> heap os !! a = Some b -> 0 < a < brk os.
Proof.
  intros [_ Hf _] Ha.
  destruct (decide (0 < a < brk os)) as [|Hn]; [assumption|].
  rewrite (Hf a) in Ha by lia. discriminate.
Qed.

(** ** Loads and stores *)

Lemma deref_ret p b os : heap os !! p = Some b -> deref p os = Ret b os.
Proof. unfold deref. intros ->. reflexivity. Qed.

Lemma load_state_ret p s os :
  heap os !! p = Some (BState s) -> load_state p os = Ret s os.
Proof. intros H. unfold load_state. rewrite (bind_ret _ _ _ _ _ (deref_ret _ _ _ H)). reflexivity. Qed.

Lemma store_state_ret p f s os :
  heap os !! p = Some (BState s) ->
  store_state p f os = Ret tt (set_heap (<[p := BState (f s)]> (heap os)) os).
Proof.
  intros H. unfold store_state.
  rewrite (bind_ret _ _ _ _ _ (load_state_ret _ _ _ H)). reflexivity.
Qed.

Lemma load_iovec_ret p io os :
  heap os !! p = Some (BIovec io) -> load_iovec p os = Ret io os.
Proof. intros H. unfold load_iovec. rewrite (bind_ret _ _ _ _ _ (deref_ret _ _ _ H)). reflexivity. Qed.

Lemma store_iovec_ret p f io os :
  heap os !! p = Some (BIovec io) ->
  store_iovec p f os = Ret tt (set_heap (<[p := BIovec (f io)]> (heap os)) os).
Proof.
  intros H. unfold store_iovec.
  rewrite (bind_ret _ _ _ _ _ (load_iovec_ret _ _ _ H)). reflexivity.
Qed.

Lemma load_event_ret p e os :
  heap os !! p = Some (BEvent e) -> load_event p os = Ret e os.
Proof. intros H. unfold load_event. rewrite (bind_ret _ _ _ _ _ (deref_ret _ _ _ H)). reflexivity. Qed.

Lemma store_event_ret p f e os :
  heap os !! p = Some (BEvent e) ->
  store_event p f os = Ret tt (set_heap (<[p := BEvent (f e)]> (heap os)) os).
Proof.
  intros H. unfold store_event.
  rewrite (bind_ret _ _ _ _ _ (load_event_ret _ _ _ H)). reflexivity.
Qed.

Lemma load_mmsghdr_ret p idx v m os :
  heap os !! p = Some (BMsgVec v) -> 0 <= idx -> v !! Z.to_nat idx = Some m ->
  load_mmsghdr p idx os = Ret m os.
Proof.
  intros H Hi Hm. unfold load_mmsghdr.
  rewrite (bind_ret _ _ _ _ _ (deref_ret _ _ _ H)).
  apply Z.ltb_ge in Hi. rewrite Hi, Hm. reflexivity.
Qed.

Lemma load_mmsghdr_oob p idx v os :
  heap os !! p = Some (BMsgVec v) -> ~ (0 <= idx < Z.of_nat (length v)) ->
  load_mmsghdr p idx os = Fault OutOfBounds.
Proof.
  intros H Hi. unfold load_mmsghdr.
  rewrite (bind_ret _ _ _ _ _ (deref_ret _ _ _ H)).
  destruct (idx <? 0) eqn:E; [reflexivity|].
  apply Z.ltb_ge in E.
  rewrite (proj2 (lookup_ge_None v (Z.to_nat idx))) by lia. reflexivity.
Qed.

Lemma store_mmsghdr_ret p idx f v m os :
  heap os !! p = Some (BMsgVec v) -> 0 <= idx -> v !! Z.to_nat idx = Some m ->
  store_mmsghdr p idx f os =
  Ret tt (set_heap (<[p := BMsgVec (<[Z.to_nat idx := f m]> v)]> (heap os)) os).
Proof.
  intros H Hi Hm. unfold store_mmsghdr.
  rewrite (bind_ret _ _ _ _ _ (deref_ret _ _ _ H)).
  apply Z.ltb_ge in Hi. rewrite Hi, Hm. reflexivity.
Qed.

(** ** [init]: one turn of the slot loop *)

Lemma init_slot_spec S c st k os v m0 :
  0 <= c < 2 ^ 31 -> os_wf os ->
  heap os !! S = Some (BState st) ->
  heap os !! st_udp_rcv st = Some (BMsgVec v) ->
  v !! k = Some m0 ->
  c + sizeof_iovec <= mem_avail os ->
  init_slot S c (Z.of_nat k) os =
  Ret tt
    (mkOS (<[st_udp_rcv st :=
               BMsgVec (<[k := set_msg_iovlen 1 (set_msg_iov (brk os + chunk c) m0)]> v)]>
             (<[brk os + chunk c := BIovec (mk_iovec (brk os) c)]>
                (<[brk os := BBytes (replicate (Z.to_nat c) None)]> (heap os))))
          (brk os + chunk c + sizeof_iovec) (mem_avail os - c - sizeof_iovec)
          (fds os) (fd_limit os) (errno os) (stdout os)).
Proof.
  intros Hc Hwf HS HV Hk Hmem.
  pose proof (wf_below _ _ _ Hwf HS) as HSlt.
  pose proof (wf_below _ _ _ Hwf HV) as HVlt.
  assert (Hsz : to_size_t c = c) by (apply to_size_t_small; lia).
  unfold sizeof_iovec, chunk in *.
  unfold init_slot. rewrite Hsz.
  rewrite (bind_ret _ _ _ _ _ (malloc_ret c Libc.fresh_bytes os ltac:(unfold PTRDIFF_MAX; lia) ltac:(lia))).
  cbv beta.
  erewrite bind_ret; cycle 1.
  { apply malloc_ret; os_simpl; unfold sizeof_iovec, PTRDIFF_MAX; lia. }
  os_simpl. cbv beta.
  erewrite bind_ret; cycle 1.
  { apply store_iovec_ret. os_simpl. unfold chunk. apply lookup_insert_eq. }
  os_simpl. cbv beta.
  erewrite bind_ret; cycle 1.
  { apply store_iovec_ret. os_simpl. apply lookup_insert_eq. }
  os_simpl. cbv beta.
  assert (HS' : forall b1 b2 b3 b4,
             (<[brk os + Z.max 1 c := b1]> (<[brk os + Z.max 1 c := b2]>
                (<[brk os + Z.max 1 c := b3]> (<[brk os := b4]> (heap os))))) !! S
             = Some (BState st)).
  { intros. rewrite !lookup_insert_ne by lia. exact HS. }
  erewrite bind_ret; cycle 1.
  { apply load_state_ret. os_simpl. unfold chunk. apply HS'. }
  cbv beta.
  erewrite bind_ret; cycle 1.
  { eapply store_mmsghdr_ret; os_simpl.
    - unfold chunk. rewrite !lookup_insert_ne by lia. exact HV.
    - lia.
    - rewrite Nat2Z.id. exact Hk. }
  os_simpl. cbv beta.
  erewrite bind_ret; cycle 1.
  { apply load_state_ret. os_simpl. unfold chunk.
    rewrite lookup_insert_ne; [apply HS'|].
    intros E. rewrite <- E in HS. rewrite HV in HS. discriminate. }
  cbv beta.
  erewrite store_mmsghdr_ret; cycle 1.
  { os_simpl. apply lookup_insert_eq. }
  { lia. }
  { rewrite Nat2Z.id. apply list_lookup_insert_eq. eapply lookup_lt_Some, Hk. }
  os_simpl. unfold set_heap. os_simpl.
  f_equal. f_equal.
  rewrite Nat2Z.id, list_insert_insert_eq.
  rewrite insert_insert_eq. f_equal.
  unfold Libc.fresh_iovec, Libc.fresh_bytes, chunk. cbn [iov_base iov_len].
  rewrite !insert_insert_eq. reflexivity.
Qed.

(** ** [init]: the slot loop *)

Lemma init_slots_spec S c st P :
  0 <= c < 2 ^ 31 ->
  forall m k os v,
    os_wf os ->
    heap os !! S = Some (BState st) ->
    heap os !! st_udp_rcv st = Some (BMsgVec v) ->
    (k + m <= length v)%nat ->
    brk os = P + Z.of_nat k * stride c ->
    Z.of_nat m * (c + sizeof_iovec) <= mem_avail os ->
    exists os' v',
      for_each (Z.of_nat <$> seq k m) (init_slot S c) os = Ret tt os' /\
      os_wf os' /\
      brk os' = P + Z.of_nat (k + m) * stride c /\
      mem_avail os' = mem_avail os - Z.of_nat m * (c + sizeof_iovec) /\
      fds os' = fds os /\ fd_limit os' = fd_limit os /\
      errno os' = errno os /\ stdout os' = stdout os /\
      heap os' !! st_udp_rcv st = Some (BMsgVec v') /\
      length v' = length v /\
      (forall i, (k <= i < k + m)%nat ->
         v' !! i = fill_slot (P + Z.of_nat i * stride c + chunk c) <$> v !! i) /\
      (forall i, ~ (k <= i < k + m)%nat -> v' !! i = v !! i) /\
      (forall i, (k <= i < k + m)%nat ->
         heap os' !! (P + Z.of_nat i * stride c + chunk c)
           = Some (BIovec (mk_iovec (P + Z.of_nat i * stride c) c)) /\
         heap os' !! (P + Z.of_nat i * stride c)
           = Some (BBytes (replicate (Z.to_nat c) None))) /\
      (forall x, x < brk os -> x <> st_udp_rcv st -> heap os' !! x = heap os !! x).
Proof.
  intros Hc. induction m as [|m IH]; intros k os v Hwf HS HV Hlen Hbrk Hmem.
  - exists os, v. cbn [seq fmap list_fmap for_each]. unfold ret.
    rewrite Nat.add_0_r.
    split; [reflexivity|]. split; [assumption|]. split; [lia|]. split; [lia|].
    do 4 (split; [reflexivity|]). split; [assumption|]. split; [reflexivity|].
    split; [intros; lia|]. split; [reflexivity|]. split; [intros; lia|reflexivity].
  - destruct (lookup_lt_is_Some_2 v k ltac:(lia)) as [m0 Hk].
    pose proof (wf_below _ _ _ Hwf HS) as HSlt.
    pose proof (wf_below _ _ _ Hwf HV) as HVlt.
    assert (HSV : S <> st_udp_rcv st).
    { intros E. rewrite <- E in HV. rewrite HS in HV. discriminate. }
    assert (Hmem1 : c + sizeof_iovec <= mem_avail os) by (unfold sizeof_iovec in *; lia).
    pose proof (init_slot_spec S c st k os v m0 Hc Hwf HS HV Hk Hmem1) as E1.
    set (os1 := mkOS _ _ _ _ _ _ _) in E1.
    assert (Hwf1 : os_wf os1).
    { destruct Hwf as [Hb Hf Hd]. constructor; subst os1; os_simpl.
      - unfold chunk, sizeof_iovec. lia.
      - intros a Ha. unfold chunk, sizeof_iovec in Ha.
        rewrite !lookup_insert_ne by (unfold chunk; lia). apply Hf. lia.
      - exact Hd. }
    assert (HS1 : heap os1 !! S = Some (BState st)).
    { subst os1; os_simpl. rewrite !lookup_insert_ne by (unfold chunk; lia). exact HS. }
    assert (HV1 : heap os1 !! st_udp_rcv st
                  = Some (BMsgVec (<[k := fill_slot (brk os + chunk c) m0]> v))).
    { subst os1; os_simpl. apply lookup_insert_eq. }
    destruct (IH (Datatypes.S k) os1 _ Hwf1 HS1 HV1) as
      (os' & v' & Erun & Hwf' & Hbrk' & Hmem' & Hfds & Hlim & Herr & Hout & HV' & Hlen'
       & Hin & Hout_ & Hblocks & Hframe).
    { rewrite length_insert. lia. }
    { subst os1; os_simpl. rewrite Hbrk, Nat2Z.inj_succ, Z.mul_succ_l. unfold stride. lia. }
    { subst os1; os_simpl. unfold sizeof_iovec in *. lia. }
    exists os', v'.
    cbn [seq fmap list_fmap for_each].
    change (list_fmap nat Z Z.of_nat (seq (Datatypes.S k) m))
      with (Z.of_nat <$> seq (Datatypes.S k) m).
    rewrite (bind_ret _ _ _ _ _ E1). rewrite Erun.
    split; [reflexivity|]. split; [exact Hwf'|].
    split; [rewrite Hbrk'; lia|].
    split; [rewrite Hmem'; subst os1; os_simpl; unfold sizeof_iovec; lia|].
    split; [exact Hfds|]. split; [exact Hlim|]. split; [exact Herr|].
    split; [exact Hout|]. split; [exact HV'|].
    split; [rewrite Hlen', length_insert; reflexivity|].
    split; [|split; [|split]].
    + intros i Hi. destruct (decide (i = k)) as [->|Hne].
      * rewrite Hout_ by lia. rewrite list_lookup_insert_eq by (eapply lookup_lt_Some, Hk).
        rewrite Hk. cbn. rewrite Hbrk. reflexivity.
      * rewrite Hin by lia. rewrite list_lookup_insert_ne by lia. reflexivity.
    + intros i Hi. rewrite Hout_ by lia. rewrite list_lookup_insert_ne by lia. reflexivity.
    + intros i Hi. destruct (decide (i = k)) as [->|Hne].
      * rewrite !Hframe; subst os1; os_simpl; unfold chunk, sizeof_iovec; try lia.
        rewrite <- Hbrk. unfold chunk.
        rewrite lookup_insert_ne by lia. rewrite lookup_insert_eq.
        rewrite !lookup_insert_ne by lia. rewrite lookup_insert_eq. split; reflexivity.
      * apply Hblocks. lia.
    + intros x Hx Hne. rewrite Hframe; subst os1; os_simpl.
      * rewrite !lookup_insert_ne by (unfold chunk; lia). reflexivity.
      * unfold chunk, sizeof_iovec. lia.
      * exact Hne.
Qed.

(** ** Descriptor allocation *)

Lemma first_free_spec t n k r :
  Sys.first_free t n k = Some r -> t !! r = None /\ k <= r.
Proof.
  revert k. induction n as [|n IH]; intros k; cbn [Sys.first_free]; [discriminate|].
  destruct (t !! k) eqn:E.
  - intros H. destruct (IH _ H) as [H1 H2]. split; [exact H1 | lia].
  - intros [= <-]. split; [exact E | lia].
Qed.

Lemma alloc_fd_some o os k :
  Sys.first_free (fds os) (fd_limit os) 0 = Some k ->
  Sys.alloc_fd o os = Ret k (set_fds (<[k := o]> (fds os)) os).
Proof. intros H. unfold Sys.alloc_fd. rewrite H. reflexivity. Qed.

Lemma alloc_fd_none o os :
  Sys.first_free (fds os) (fd_limit os) 0 = None ->
  Sys.alloc_fd o os = Ret (-1) (set_errno EMFILE os).
Proof. intros H. unfold Sys.alloc_fd. rewrite H. reflexivity. Qed.

Lemma epoll_ctl_badf epfd op fd ev os :
  fds os !! fd = None ->
  Sys.epoll_ctl epfd op fd ev os = Ret (-1) (set_errno EBADF os).
Proof.
  intros H. unfold Sys.epoll_ctl. rewrite H.
  destruct (fds os !! epfd); reflexivity.
Qed.

Lemma epoll_ctl_add_first epfd fd c nb ev os :
  fds os !! epfd = Some (KEpoll []) ->
  fds os !! fd = Some (KEventfd c nb) ->
  Sys.epoll_ctl epfd EPOLL_CTL_ADD fd ev os =
  Ret 0 (set_fds (<[epfd := KEpoll [(fd, Sys.stored_event ev)]]> (fds os)) os).
Proof. intros H1 H2. unfold Sys.epoll_ctl. rewrite H1, H2. reflexivity. Qed.

Lemma memset_zero_fresh p b os :
  0 <= b ->
  heap os !! p = Some (BMsgVec (replicate (Z.to_nat b) mmsghdr_zero)) ->
  Libc.memset_zero p (b * sizeof_mmsghdr) os =
  Ret tt (set_heap (<[p := BMsgVec (replicate (Z.to_nat b) mmsghdr_zero)]> (heap os)) os).
Proof.
  intros Hb Hp. unfold Libc.memset_zero.
  destruct (b * sizeof_mmsghdr =? 0) eqn:E.
  - rewrite insert_id by exact Hp. destruct os; reflexivity.
  - rewrite Hp. cbn [block_size]. rewrite length_replicate, Z2Nat.id by lia.
    rewrite (Z.mul_comm b), Z.leb_refl.
    rewrite (Z.mul_comm sizeof_mmsghdr), Z.div_mul by (unfold sizeof_mmsghdr; lia).
    rewrite drop_ge by (rewrite length_replicate; lia).
    rewrite app_nil_r. reflexivity.
Qed.

(** ** [init] as a whole *)

Ltac addr_lia :=
  unfold io_addr, buf_addr, pool_base, vec_addr, events_addr, stride, init_bytes, chunk,
    sizeof_epoll_state, sizeof_epoll_event, sizeof_mmsghdr, sizeof_iovec, PTRDIFF_MAX in *;
  lia.

Ltac lookup_solve :=
  os_simpl;
  repeat first [ rewrite lookup_insert_eq | rewrite lookup_insert_ne by addr_lia ];
  first [ reflexivity | eassumption ].

Ltac step_with lem :=
  erewrite bind_ret; [ | apply lem; lookup_solve ]; cbv beta; os_simpl.

Ltac step_malloc :=
  erewrite bind_ret; [ | apply malloc_ret; os_simpl; addr_lia ]; cbv beta; os_simpl.

Ltac step_alloc_fd :=
  erewrite bind_ret;
  [ | first [ apply alloc_fd_some; os_simpl; eassumption
            | apply alloc_fd_none; os_simpl; eassumption ] ];
  cbv beta; os_simpl.

Lemma epoll_create1_0 : Sys.epoll_create1 0 = Sys.alloc_fd (KEpoll []).
Proof. reflexivity. Qed.

Lemma eventfd_nonblock : Sys.eventfd 0 EFD_NONBLOCK = Sys.alloc_fd (KEventfd 0 true).
Proof. reflexivity. Qed.

Lemma printf_ret l os :
  Libc.printf l os =
  Ret tt (mkOS (heap os) (brk os) (mem_avail os) (fds os) (fd_limit os)
               (errno os) (stdout os ++ [l])).
Proof. reflexivity. Qed.

Ltac state_simpl :=
  cbn [set_fd set_efd set_events set_max_events set_efd_event_events
       set_efd_event_data_u32 set_udp_rcv_len set_udp_rcv Libc.fresh_state
       st_fd st_efd st_events st_max_events st_efd_event st_udp_rcv_len st_udp_rcv
       ev_events ev_data_u32 epoll_event_zero].

Ltac step_epoll_ctl Hneg :=
  erewrite bind_ret;
  [ | first [ eapply epoll_ctl_add_first; os_simpl;
              [ rewrite lookup_insert_ne by congruence; apply lookup_insert_eq
              | apply lookup_insert_eq ]
            | apply epoll_ctl_badf; os_simpl;
              rewrite ?lookup_insert_ne by lia; apply Hneg; lia ] ];
  cbv beta; os_simpl.

(** The straight-line part of [init], up to the slot loop. *)
Ltac init_prefix Hneg :=
  step_alloc_fd;
  rewrite (bind_ret _ _ _ _ _ (printf_ret _ _)); cbv beta; os_simpl;
  step_malloc;
  step_with store_state_ret;
  step_malloc;
  step_with store_state_ret;
  step_with store_state_ret;
  step_alloc_fd;
  step_with store_state_ret;
  step_with store_state_ret;
  step_with store_state_ret;
  step_with load_state_ret;
  state_simpl;
  step_epoll_ctl Hneg;
  step_with store_state_ret;
  step_malloc;
  step_with store_state_ret;
  step_with load_state_ret;
  state_simpl;
  (erewrite bind_ret;
   [ | apply memset_zero_fresh; [lia|]; os_simpl;
       rewrite lookup_insert_ne by addr_lia; rewrite lookup_insert_eq;
       unfold Libc.fresh_msgvec; rewrite Z.div_mul by (unfold sizeof_mmsghdr; lia);
       reflexivity ]);
  cbv beta; os_simpl.

Lemma init_spec a b c os :
  os_wf os ->
  0 <= a < 2 ^ 31 -> 0 <= b < 2 ^ 31 -> 0 <= c < 2 ^ 31 ->
  init_bytes a b c <= mem_avail os ->
  exists os',
    init a b c os = Ret (brk os) os' /\
    os_wf os' /\
    fd_limit os' = fd_limit os /\
    brk os' = pool_base (brk os) a b + b * stride c /\
    mem_avail os' = mem_avail os - init_bytes a b c /\
    (forall x, x < brk os -> heap os' !! x = heap os !! x) /\
    heap os' !! events_addr (brk os) = Some (BEvents (replicate (Z.to_nat a) None)) /\
    heap os' !! vec_addr (brk os) a
      = Some (BMsgVec (slot_header (brk os) a b c <$> seq 0 (Z.to_nat b))) /\
    (forall i, 0 <= i < b ->
       heap os' !! io_addr (brk os) a b c i
         = Some (BIovec (mk_iovec (buf_addr (brk os) a b c i) c)) /\
       heap os' !! buf_addr (brk os) a b c i
         = Some (BBytes (replicate (Z.to_nat c) None))) /\
    let '(e, w, t) := init_fds (fds os) (fd_limit os) in
    fds os' = t /\
    stdout os' = stdout os ++ [OutEpollFd e] /\
    heap os' !! brk os
      = Some (BState (mk_epoll_state e w (events_addr (brk os)) a wake_event b
                                     (vec_addr (brk os) a))).
Proof.
  intros Hwf Ha Hb Hc Hmem.
  pose proof (wf_brk _ Hwf) as Hbrk.
  pose proof (wf_fds _ Hwf) as Hneg.
  pose proof (wf_fresh _ Hwf) as Hfr.
  unfold Java_org_jetlang_epoll_EPoll_init, init_fds.
  rewrite !to_size_t_small by (unfold sizeof_epoll_event, sizeof_mmsghdr; lia).
  rewrite epoll_create1_0, eventfd_nonblock.
  destruct (Sys.first_free (fds os) (fd_limit os) 0) as [e|] eqn:He;
    [ destruct (first_free_spec _ _ _ _ He) as [He1 He2];
      destruct (Sys.first_free (<[e := KEpoll []]> (fds os)) (fd_limit os) 0) as [w|] eqn:Hw;
      [ destruct (first_free_spec _ _ _ _ Hw) as [Hw1 Hw2];
        assert (Hwe : w <> e) by (intros ->; rewrite lookup_insert_eq in Hw1; discriminate)
      | ]
    | ];
    init_prefix Hneg.
  all: match goal with
       | |- exists os', bind _ _ ?o = _ /\ _ => set (os_pre := o)
       end.
  all: assert (Hwf_pre : os_wf os_pre)
         by (constructor; subst os_pre; os_simpl;
             [ addr_lia
             | intros x Hx; rewrite !lookup_insert_ne by addr_lia; apply Hfr; addr_lia
             | intros k Hk; rewrite ?lookup_insert_ne by lia; apply Hneg; lia ]).
  all: assert (HS_pre : exists st, heap os_pre !! brk os = Some (BState st) /\
                                   st_udp_rcv st = vec_addr (brk os) a)
         by (eexists; split; [subst os_pre; lookup_solve | reflexivity]).
  all: destruct HS_pre as (st & HS_pre & Hst).
  all: assert (HV_pre : heap os_pre !! st_udp_rcv st
                        = Some (BMsgVec (replicate (Z.to_nat b) mmsghdr_zero)))
         by (rewrite Hst; subst os_pre; unfold vec_addr, events_addr; lookup_solve).
  all: destruct (init_slots_spec (brk os) c st (pool_base (brk os) a b) Hc
                   (Z.to_nat b) 0%nat os_pre _ Hwf_pre HS_pre HV_pre)
         as (os' & v' & Erun & Hwf' & Hbrk' & Hmem' & Hfds & Hlim & Herr & Hout & HV'
             & Hlen' & Hin & Hout_ & Hblocks & Hframe);
       [ rewrite length_replicate; lia
       | subst os_pre; os_simpl; change (Z.of_nat 0) with 0; rewrite Z.mul_0_l; addr_lia
       | subst os_pre; os_simpl; rewrite Z2Nat.id by lia; addr_lia
       | ].
  all: exists os'.
  all: rewrite (bind_ret _ _ _ _ _ Erun); unfold ret.
  all: split; [reflexivity|]. 
  all: split; [exact Hwf'|].
  all: split; [rewrite Hlim; subst os_pre; reflexivity|].
  all: split; [rewrite Hbrk', Nat.add_0_l, Z2Nat.id by lia; reflexivity|].
  all: split; [rewrite Hmem', Z2Nat.id by lia; subst os_pre; os_simpl; addr_lia|].
  all: assert (Hold : forall x, x < brk os_pre -> x <> vec_addr (brk os) a ->
                        heap os' !! x = heap os_pre !! x)
         by (intros x Hx Hne; apply Hframe; [exact Hx | rewrite Hst; exact Hne]).
  all: split;
       [ intros x Hx; rewrite Hold by (subst os_pre; os_simpl; addr_lia);
         subst os_pre; os_simpl; rewrite !lookup_insert_ne by addr_lia; reflexivity | ].
  all: split;
       [ rewrite Hold by (subst os_pre; os_simpl; addr_lia);
         subst os_pre; os_simpl; unfold events_addr;
         rewrite !lookup_insert_ne by addr_lia; rewrite lookup_insert_eq;
         unfold Libc.fresh_events; rewrite Z.div_mul by (unfold sizeof_epoll_event; lia);
         reflexivity | ].
  all: split;
       [ rewrite <- Hst, HV'; do 2 f_equal; apply list_eq; intros i;
         destruct (decide (i < Z.to_nat b)%nat) as [Hi|Hi];
         [ rewrite Hin by lia; rewrite lookup_replicate_2 by lia;
           rewrite list_lookup_fmap, lookup_seq_lt by lia; reflexivity
         | rewrite Hout_ by lia;
           rewrite !(proj2 (lookup_ge_None _ _))
             by (rewrite ?length_fmap, ?length_seq, ?length_replicate; lia);
           reflexivity ] | ].
  all: split;
       [ intros i Hi;
         destruct (Hblocks (Z.to_nat i) ltac:(lia)) as [H1 H2];
         rewrite Z2Nat.id in H1, H2 by lia; split; [exact H1 | exact H2] | ].
  all: split; [rewrite Hfds; subst os_pre; reflexivity|].
  all: split; [rewrite Hout; subst os_pre; reflexivity|].
  all: rewrite Hold by (subst os_pre; os_simpl; addr_lia).
  all: subst os_pre; os_simpl; rewrite lookup_insert_ne by addr_lia;
       rewrite lookup_insert_eq; reflexivity.
Qed.

(** ** Frame properties: what a call on a live handle leaves alone *)

Lemma steps_refl os : steps_to os os.
Proof. intros H. split; [exact H|]. split; reflexivity. Qed.

Lemma steps_trans os1 os2 os3 : steps_to os1 os2 -> steps_to os2 os3 -> steps_to os1 os3.
Proof.
  intros H1 H2 Hwf. destruct (H1 Hwf) as (W1 & S1 & L1).
  destruct (H2 W1) as (W2 & S2 & L2).
  split; [exact W2|]. split; [etransitivity; eassumption | congruence].
Qed.

Lemma shape_lookup hp x s :
  shape hp !! x = Some s <-> exists b, hp !! x = Some b /\ block_shape b = s.
Proof.
  unfold shape. rewrite lookup_fmap. destruct (hp !! x) as [b|]; cbn.
  - split; [intros [= <-]; eauto | intros (b' & [= <-] & <-); reflexivity].
  - split; [discriminate | intros (b' & [=] & _)].
Qed.

Lemma shape_insert_same hp x b b' :
  hp !! x = Some b -> block_shape b' = block_shape b ->
  shape (<[x := b']> hp) = shape hp.
Proof.
  intros H E. unfold shape. rewrite fmap_insert, E.
  apply insert_id. rewrite lookup_fmap, H. reflexivity.
Qed.

Lemma steps_set_errno e os : steps_to os (set_errno e os).
Proof.
  intros [Hb Hf Hd]. split; [constructor; assumption|]. split; reflexivity.
Qed.

Lemma steps_set_heap x b b' os :
  heap os !! x = Some b -> block_shape b' = block_shape b ->
  steps_to os (set_heap (<[x := b']> (heap os)) os).
Proof.
  intros H E [Hb Hf Hd]. split; [|split]; os_simpl.
  - constructor; os_simpl; [assumption | | assumption].
    intros a Ha. rewrite lookup_insert_ne; [apply Hf, Ha|].
    intros ->. rewrite (Hf _ Ha) in H. discriminate.
  - rewrite (shape_insert_same _ _ _ _ H E). reflexivity.
  - reflexivity.
Qed.

Lemma steps_set_fds k o o' os :
  fds os !! k = Some o -> steps_to os (set_fds (<[k := o']> (fds os)) os).
Proof.
  intros H [Hb Hf Hd]. split; [|split; reflexivity].
  constructor; os_simpl; [assumption | assumption |].
  intros j Hj. rewrite lookup_insert_ne; [apply Hd, Hj|].
  intros ->. rewrite (Hd _ Hj) in H. discriminate.
Qed.

Lemma steps_malloc size view os r os' :
  Libc.malloc size view os = Ret r os' -> steps_to os os'.
Proof.
  unfold Libc.malloc.
  destruct ((size <=? PTRDIFF_MAX) && (size <=? mem_avail os)).
  - intros [= <- <-] Hwf. split; [apply malloc_wf, Hwf|]. split; [|reflexivity].
    os_simpl. unfold shape. rewrite fmap_insert.
    apply insert_subseteq. rewrite lookup_fmap, (wf_fresh _ Hwf) by lia. reflexivity.
  - intros [= <- <-]. apply steps_set_errno.
Qed.

Lemma steps_printf l os : steps_to os (mkOS (heap os) (brk os) (mem_avail os) (fds os)
                                            (fd_limit os) (errno os) (stdout os ++ [l])).
Proof.
  intros [Hb Hf Hd]. split; [constructor; assumption|]. split; reflexivity.
Qed.

(** Loads return the state they were given. *)
Lemma deref_inv p b os os' : deref p os = Ret b os' -> os' = os /\ heap os !! p = Some b.
Proof.
  unfold deref. destruct (heap os !! p); [|discriminate].
  intros [= <- <-]. split; reflexivity.
Qed.

Lemma load_state_inv p s os os' :
  load_state p os = Ret s os' -> os' = os /\ heap os !! p = Some (BState s).
Proof.
  unfold load_state. intros H. apply bind_inv in H as (b & os1 & H1 & H2).
  apply deref_inv in H1 as [-> H1].
  destruct b; try discriminate. injection H2 as <- <-. split; [reflexivity | exact H1].
Qed.

Lemma load_event_inv p e os os' :
  load_event p os = Ret e os' -> os' = os /\ heap os !! p = Some (BEvent e).
Proof.
  unfold load_event. intros H. apply bind_inv in H as (b & os1 & H1 & H2).
  apply deref_inv in H1 as [-> H1].
  destruct b; try discriminate. injection H2 as <- <-. split; [reflexivity | exact H1].
Qed.

Lemma load_iovec_inv p io os os' :
  load_iovec p os = Ret io os' -> os' = os /\ heap os !! p = Some (BIovec io).
Proof.
  unfold load_iovec. intros H. apply bind_inv in H as (b & os1 & H1 & H2).
  apply deref_inv in H1 as [-> H1].
  destruct b; try discriminate. injection H2 as <- <-. split; [reflexivity | exact H1].
Qed.

Lemma load_mmsghdr_inv p idx m os os' :
  load_mmsghdr p idx os = Ret m os' ->
  os' = os /\ exists v, heap os !! p = Some (BMsgVec v) /\ 0 <= idx /\
                        v !! Z.to_nat idx = Some m.
Proof.
  unfold load_mmsghdr. intros H. apply bind_inv in H as (b & os1 & H1 & H2).
  apply deref_inv in H1 as [-> H1].
  destruct b as [| | |v| |]; try discriminate.
  destruct (idx <? 0) eqn:E; [discriminate|]. apply Z.ltb_ge in E.
  destruct (v !! Z.to_nat idx) as [m'|] eqn:Em; [|discriminate].
  injection H2 as <- <-. split; [reflexivity|]. exists v. auto.
Qed.

Lemma store_event_inv p f os os' :
  store_event p f os = Ret tt os' ->
  exists e, heap os !! p = Some (BEvent e) /\
            os' = set_heap (<[p := BEvent (f e)]> (heap os)) os.
Proof.
  unfold store_event. intros H. apply bind_inv in H as (e & os1 & H1 & H2).
  apply load_event_inv in H1 as [-> H1]. exists e. split; [exact H1|].
  unfold poke in H2. injection H2 as <-. reflexivity.
Qed.

(** *** System calls *)


Lemma keeps_epoll_errno e os : keeps_epoll os (set_errno e os).
Proof. intros k l H. exact H. Qed.

Lemma keeps_epoll_trans os1 os2 os3 :
  keeps_epoll os1 os2 -> keeps_epoll os2 os3 -> keeps_epoll os1 os3.
Proof. intros H1 H2 k l H. apply H2, H1, H. Qed.

Lemma keeps_epoll_insert k o o' os :
  fds os !! k = Some o -> (forall l, o <> KEpoll l) ->
  keeps_epoll os (set_fds (<[k := o']> (fds os)) os).
Proof.
  intros H Hk j l Hj. os_simpl. rewrite lookup_insert_ne; [exact Hj|].
  intros ->. rewrite H in Hj. injection Hj as ->. eapply Hk. reflexivity.
Qed.

Lemma length_overwrite {A} n (new old : list A) :
  length new = n -> (n <= length old)%nat ->
  length (new ++ drop n old) = length old.
Proof. intros <- H. rewrite length_app, length_drop. lia. Qed.

Lemma epoll_wait_frame epfd evp n t os r os' :
  Sys.epoll_wait epfd evp n t os = Ret r os' ->
  steps_to os os' /\ fds os' = fds os.
Proof.
  unfold Sys.epoll_wait, fail.
  destruct ((n <=? 0) || (Sys.EP_MAX_EVENTS <? n));
    [intros [= <- <-]; split; [apply steps_set_errno | reflexivity]|].
  destruct (fds os !! epfd) as [[l| | |]|];
    try (intros [= <- <-]; split; [apply steps_set_errno | reflexivity]).
  destruct (take (Z.to_nat n) (Sys.ready_events (fds os) l)) as [|ev rdy] eqn:E.
  - destruct (t <? 0); [discriminate|]. intros [= <- <-]. split; [apply steps_refl | reflexivity].
  - destruct (heap os !! evp) as [[|cells| | | |]|] eqn:Hp;
      try (intros [= <- <-]; split; [apply steps_set_errno | reflexivity]).
    destruct (length (ev :: rdy) <=? length cells)%nat eqn:Hl;
      [|intros [= <- <-]; split; [apply steps_set_errno | reflexivity]].
    intros [= <- <-]. split; [|reflexivity].
    eapply steps_set_heap; [exact Hp|].
    cbn [block_shape]. f_equal. f_equal.
    apply Nat.leb_le in Hl.
    change (length ((Some <$> (ev :: rdy)) ++ drop (length (ev :: rdy)) cells)
            = length cells).
    apply length_overwrite; [apply length_fmap | exact Hl].
Qed.

Lemma write_frame fd d n os r os' :
  Sys.write fd d n os = Ret r os' -> steps_to os os' /\ keeps_epoll os os'.
Proof.
  unfold Sys.write, fail.
  destruct (fds os !! fd) as [[l|c nb| |]|] eqn:E;
    try (intros [= <- <-]; split; [apply steps_set_errno | apply keeps_epoll_errno]).
  destruct (n <? sizeof_uint64_t);
    [intros [= <- <-]; split; [apply steps_set_errno | apply keeps_epoll_errno]|].
  destruct (d =? Sys.ULLONG_MAX);
    [intros [= <- <-]; split; [apply steps_set_errno | apply keeps_epoll_errno]|].
  destruct (d <? Sys.ULLONG_MAX - c).
  - intros [= <- <-]. split; [eapply steps_set_fds, E|].
    eapply keeps_epoll_insert; [exact E | discriminate].
  - destruct nb; [|discriminate].
    intros [= <- <-]; split; [apply steps_set_errno | apply keeps_epoll_errno].
Qed.

Lemma read_frame fd n os r os' :
  Sys.read fd n os = Ret r os' -> steps_to os os' /\ keeps_epoll os os'.
Proof.
  unfold Sys.read, fail.
  destruct (fds os !! fd) as [[l|c nb| |]|] eqn:E;
    try (intros [= <- <-]; split; [apply steps_set_errno | apply keeps_epoll_errno]).
  destruct (n <? sizeof_uint64_t);
    [intros [= <- <-]; split; [apply steps_set_errno | apply keeps_epoll_errno]|].
  destruct (c =? 0).
  - destruct nb; [|discriminate].
    intros [= <- <-]; split; [apply steps_set_errno | apply keeps_epoll_errno].
  - intros [= <- <-]. split; [eapply steps_set_fds, E|].
    eapply keeps_epoll_insert; [exact E | discriminate].
Qed.

(** What [epoll_ctl] does to the descriptor table, if anything. *)
Lemma epoll_ctl_inv epfd op fd ev os r os' :
  Sys.epoll_ctl epfd op fd ev os = Ret r os' ->
  (r = -1 /\ exists e, os' = set_errno e os) \/
  (r = 0 /\ exists l l', fds os !! epfd = Some (KEpoll l) /\
                        Sys.apply_ctl op fd ev l = inr l' /\
                        os' = set_fds (<[epfd := KEpoll l']> (fds os)) os).
Proof.
  unfold Sys.epoll_ctl, fail.
  destruct (fds os !! epfd) as [e|] eqn:E;
    [| intros [= <- <-]; left; split; [reflexivity | eexists; reflexivity]].
  destruct (fds os !! fd) as [target|];
    [| intros [= <- <-]; left; split; [reflexivity | eexists; reflexivity]].
  destruct target; try (intros [= <- <-]; left; split; [reflexivity | eexists; reflexivity]).
  - destruct e as [l| | |];
      try (intros [= <- <-]; left; split; [reflexivity | eexists; reflexivity]).
    destruct (Sys.apply_ctl op fd ev l) as [err|l'] eqn:Ea.
    + intros [= <- <-]; left; split; [reflexivity | eexists; reflexivity].
    + intros [= <- <-]. right. split; [reflexivity|]. exists l, l'. auto.
  - destruct e as [l| | |];
      try (intros [= <- <-]; left; split; [reflexivity | eexists; reflexivity]).
    destruct (Sys.apply_ctl op fd ev l) as [err|l'] eqn:Ea.
    + intros [= <- <-]; left; split; [reflexivity | eexists; reflexivity].
    + intros [= <- <-]. right. split; [reflexivity|]. exists l, l'. auto.
Qed.

Lemma epoll_ctl_frame epfd op fd ev os r os' :
  Sys.epoll_ctl epfd op fd ev os = Ret r os' -> steps_to os os'.
Proof.
  intros H. apply epoll_ctl_inv in H as [(_ & e & ->)|(_ & l & l' & Hl & _ & ->)].
  - apply steps_set_errno.
  - eapply steps_set_fds, Hl.
Qed.

(** *** The batched receive *)

Lemma steps_heap_shape hp os :
  shape hp = shape (heap os) -> steps_to os (set_heap hp os).
Proof.
  intros E [Hb Hf Hd]. split; [|split]; os_simpl.
  - constructor; os_simpl; [assumption | | assumption].
    intros a Ha. specialize (Hf a Ha).
    assert (H : shape hp !! a = None).
    { rewrite E. unfold shape. rewrite lookup_fmap, Hf. reflexivity. }
    unfold shape in H. rewrite lookup_fmap in H.
    destruct (hp !! a); [discriminate | reflexivity].
  - rewrite E. reflexivity.
  - reflexivity.
Qed.

Lemma header_shape_received m n t : header_shape (Sys.received m n t) = header_shape m.
Proof. reflexivity. Qed.

Lemma deliver_shape h m dg h' m' :
  Sys.deliver h m dg = Some (h', m') ->
  shape h' = shape h /\ header_shape m' = header_shape m /\
  (forall x v, h !! x = Some (BMsgVec v) -> h' !! x = Some (BMsgVec v)).
Proof.
  unfold Sys.deliver.
  destruct (msg_iovlen (msg_hdr m) =? 0).
  { intros [= <- <-]. auto using header_shape_received. }
  destruct (msg_iovlen (msg_hdr m) =? 1); [|discriminate].
  destruct (h !! msg_iov (msg_hdr m)) as [[| | | |io|]|] eqn:Hio; try discriminate.
  destruct (Z.min (Z.of_nat (length dg)) (iov_len io) =? 0).
  { intros [= <- <-]. auto using header_shape_received. }
  destruct (h !! iov_base io) as [[| | | | |cells]|] eqn:Hb; try discriminate.
  destruct (Z.min (Z.of_nat (length dg)) (iov_len io) <=? Z.of_nat (length cells)) eqn:Hl;
    [|discriminate].
  apply Z.leb_le in Hl.
  intros [= <- <-]. split; [|split; [apply header_shape_received|]].
  - eapply shape_insert_same; [exact Hb|].
    cbn [block_shape]. f_equal. f_equal.
    apply length_overwrite; [|lia].
    rewrite length_fmap, length_take. lia.
  - intros x v Hx. rewrite lookup_insert_ne; [exact Hx|].
    intros <-. rewrite Hb in Hx. discriminate.
Qed.

Lemma recv_loop_shape nb vecp vlen q :
  forall i h n err q' h',
    Sys.recv_loop nb vecp vlen i q h = Sys.RStop n err q' h' ->
    shape h' = shape h.
Proof.
  induction q as [|dg q IH]; intros i h n err q' h'; cbn [Sys.recv_loop].
  - destruct (vlen <=? i); [intros [= <- <- <- <-]; reflexivity|].
    destruct (h !! vecp) as [[| | |v| |]|]; try (intros [= <- <- <- <-]; reflexivity).
    destruct (v !! Z.to_nat i); [|intros [= <- <- <- <-]; reflexivity].
    destruct nb; [intros [= <- <- <- <-]; reflexivity | discriminate].
  - destruct (vlen <=? i); [intros [= <- <- <- <-]; reflexivity|].
    destruct (h !! vecp) as [[| | |v| |]|] eqn:Hv; try (intros [= <- <- <- <-]; reflexivity).
    destruct (v !! Z.to_nat i) as [m|] eqn:Hm; [|intros [= <- <- <- <-]; reflexivity].
    destruct (Sys.deliver h m dg) as [[h1 m1]|] eqn:Hd;
      [|intros [= <- <- <- <-]; reflexivity].
    destruct (deliver_shape _ _ _ _ _ Hd) as (S1 & S2 & S3).
    intros H. apply IH in H. rewrite H, <- S1.
    eapply shape_insert_same; [apply S3, Hv|].
    cbn [block_shape]. f_equal.
    rewrite list_fmap_insert, S2. apply list_insert_id.
    rewrite list_lookup_fmap, Hm. reflexivity.
Qed.

Lemma recvmmsg_sys_frame sockfd vecp vlen os r os' :
  Sys.recvmmsg sockfd vecp vlen os = Ret r os' ->
  steps_to os os' /\ keeps_epoll os os'.
Proof.
  unfold Sys.recvmmsg, fail.
  destruct (fds os !! sockfd) as [[l|c nb|nb err q|]|] eqn:E;
    try (intros [= <- <-]; split; [apply steps_set_errno | apply keeps_epoll_errno]).
  assert (Hfd : forall o', steps_to os (set_fds (<[sockfd := o']> (fds os)) os) /\
                           keeps_epoll os (set_fds (<[sockfd := o']> (fds os)) os)).
  { intros o'. split; [eapply steps_set_fds, E|].
    eapply keeps_epoll_insert; [exact E | discriminate]. }
  destruct err as [e|].
  { intros [= <- <-]. destruct (Hfd (KUdp nb None q)) as [H1 H2]. split.
    - eapply steps_trans; [exact H1 | apply steps_set_errno].
    - exact H2. }
  destruct (Sys.recv_loop nb vecp (to_u32 vlen) 0 q (heap os)) as [n err q' h'|] eqn:Hl;
    [|discriminate].
  apply recv_loop_shape in Hl.
  assert (Hh : forall o', steps_to os (set_heap h' (set_fds (<[sockfd := o']> (fds os)) os)) /\
                          keeps_epoll os (set_heap h' (set_fds (<[sockfd := o']> (fds os)) os))).
  { intros o'. destruct (Hfd o') as [H1 H2]. split.
    - eapply steps_trans; [exact H1|]. apply steps_heap_shape. exact Hl.
    - exact H2. }
  destruct err as [e|].
  - destruct (n =? 0).
    + intros [= <- <-]. destruct (Hh (KUdp nb None q')) as [H1 H2]. split.
      * eapply steps_trans; [exact H1 | apply steps_set_errno].
      * exact H2.
    + intros [= <- <-]. apply Hh.
  - intros [= <- <-]. apply Hh.
Qed.

(** *** The functions of the binding *)

Lemma select_frame h t os r os' :
  select h t os = Ret r os' -> steps_to os os' /\ fds os' = fds os.
Proof.
  unfold Java_org_jetlang_epoll_EPoll_select. intros H.
  apply bind_inv in H as (st & os1 & H1 & H).
  apply load_state_inv in H1 as [-> H1].
  apply bind_inv in H as (res & os2 & H2 & H).
  injection H as <- <-. eapply epoll_wait_frame, H2.
Qed.

Lemma getEventArrayAddress_inv h os r os' :
  getEventArrayAddress h os = Ret r os' ->
  os' = os /\ exists st, heap os !! h = Some (BState st) /\ r = st_events st.
Proof.
  unfold Java_org_jetlang_epoll_EPoll_getEventArrayAddress. intros H.
  apply bind_inv in H as (st & os1 & H1 & H).
  apply load_state_inv in H1 as [-> H1].
  injection H as <- <-. eauto.
Qed.

Lemma getReadBufferAddress_inv h idx os r os' :
  getReadBufferAddress h idx os = Ret r os' -> os' = os.
Proof.
  unfold Java_org_jetlang_epoll_EPoll_getReadBufferAddress. intros H.
  apply bind_inv in H as (st & os1 & H1 & H).
  apply load_state_inv in H1 as [-> H1].
  apply bind_inv in H as (m & os2 & H2 & H).
  apply load_mmsghdr_inv in H2 as [-> _].
  apply bind_inv in H as (io & os3 & H3 & H).
  apply load_iovec_inv in H3 as [-> _].
  injection H as _ <-. reflexivity.
Qed.

Lemma recvmmsg_frame h fd os r os' :
  recvmmsg h fd os = Ret r os' -> steps_to os os' /\ keeps_epoll os os'.
Proof.
  unfold Java_org_jetlang_epoll_EPoll_recvmmsg. intros H.
  apply bind_inv in H as (st & os1 & H1 & H).
  apply load_state_inv in H1 as [-> H1].
  apply bind_inv in H as (res & os2 & H2 & H).
  apply recvmmsg_sys_frame in H2 as [S2 K2].
  apply bind_inv in H as ([] & os3 & H3 & H).
  injection H as _ <-.
  destruct (res =? 1).
  - injection H3 as <-. auto.
  - unfold bind, get_errno in H3. rewrite printf_ret in H3. injection H3 as <-.
    split.
    + eapply steps_trans; [exact S2 | apply steps_printf].
    + intros k l Hk. apply K2 in Hk. exact Hk.
Qed.

Lemma interrupt_frame h d os os' :
  interrupt h d os = Ret tt os' -> steps_to os os' /\ keeps_epoll os os'.
Proof.
  unfold Java_org_jetlang_epoll_EPoll_interrupt. intros H.
  apply bind_inv in H as (st & os1 & H1 & H).
  apply load_state_inv in H1 as [-> H1].
  apply bind_inv in H as (res & os2 & H2 & H).
  injection H as <-. eapply write_frame, H2.
Qed.

Lemma clearInterrupt_frame h os os' :
  clearInterrupt h os = Ret tt os' -> steps_to os os' /\ keeps_epoll os os'.
Proof.
  unfold Java_org_jetlang_epoll_EPoll_clearInterrupt. intros H.
  apply bind_inv in H as (st & os1 & H1 & H).
  apply load_state_inv in H1 as [-> H1].
  apply bind_inv in H as (res & os2 & H2 & H).
  injection H as <-. eapply read_frame, H2.
Qed.

(** [ctl] returns only if its allocation succeeded; the update itself then
    either changed the interest list of the handle's epoll instance or
    changed nothing but [errno]. *)
Lemma ctl_inv h op eventTypes fd idx os r os' :
  os_wf os ->
  ctl h op eventTypes fd idx os = Ret r os' ->
  exists st,
    heap os !! h = Some (BState st) /\ r = brk os /\
    heap os' = <[brk os := BEvent (mk_epoll_event (to_u32 eventTypes) (to_u32 idx))]> (heap os) /\
    brk os' = brk os + sizeof_epoll_event /\
    fd_limit os' = fd_limit os /\
    (fds os' = fds os \/
     exists l l', fds os !! st_fd st = Some (KEpoll l) /\
                  Sys.apply_ctl op fd (mk_epoll_event (to_u32 eventTypes) (to_u32 idx)) l
                    = inr l' /\
                  fds os' = <[st_fd st := KEpoll l']> (fds os)).
Proof.
  intros Hwf. unfold Java_org_jetlang_epoll_EPoll_ctl. intros H.
  apply bind_inv in H as (event & os1 & Hm & H).
  unfold Libc.malloc in Hm.
  destruct ((sizeof_epoll_event <=? PTRDIFF_MAX) && (sizeof_epoll_event <=? mem_avail os)).
  2:{ injection Hm as <- <-.
      apply bind_inv in H as ([] & os2 & H2 & _).
      apply store_event_inv in H2 as (e & H2 & _). os_simpl.
      rewrite (wf_fresh _ Hwf) in H2 by lia. discriminate. }
  injection Hm as <- <-.
  apply bind_inv in H as ([] & os2 & H2 & H).
  apply store_event_inv in H2 as (e2 & L2 & ->). os_simpl.
  rewrite lookup_insert_eq in L2. injection L2 as <-.
  apply bind_inv in H as ([] & os3 & H3 & H).
  apply store_event_inv in H3 as (e3 & L3 & ->). os_simpl.
  rewrite lookup_insert_eq in L3. injection L3 as <-.
  apply bind_inv in H as (st & os4 & H4 & H).
  apply load_state_inv in H4 as [-> L4]. os_simpl.
  apply bind_inv in H as (ev & os5 & H5 & H).
  apply load_event_inv in H5 as [-> L5]. os_simpl.
  rewrite lookup_insert_eq in L5. injection L5 as <-.
  apply bind_inv in H as (res & os6 & H6 & H).
  injection H as <- <-.
  assert (Hh : h <> brk os).
  { intros ->. rewrite !lookup_insert_eq in L4. discriminate. }
  rewrite !lookup_insert_ne in L4 by congruence.
  exists st. split; [exact L4|]. split; [reflexivity|].
  rewrite !insert_insert_eq in H6.
  cbn [ev_events ev_data_u32 epoll_event_zero Libc.fresh_event] in H6.
  apply epoll_ctl_inv in H6 as [(_ & e & ->)|(_ & l & l' & Hl & Ha & ->)]; os_simpl.
  - repeat (split; [reflexivity|]). left. reflexivity.
  - repeat (split; [reflexivity|]). right. exists l, l'. auto.
Qed.

Lemma ctl_frame h op eventTypes fd idx os r os' :
  ctl h op eventTypes fd idx os = Ret r os' -> steps_to os os'.
Proof.
  intros H Hwf.
  destruct (ctl_inv _ _ _ _ _ _ _ _ Hwf H) as (st & Hst & -> & Hheap & Hbrk & Hlim & Hfds).
  pose proof (wf_below _ _ _ Hwf Hst) as Hh.
  destruct Hwf as [Hb Hf Hd].
  split; [|split].
  - constructor.
    + rewrite Hbrk. unfold sizeof_epoll_event. lia.
    + intros a Ha. rewrite Hheap, lookup_insert_ne by (unfold sizeof_epoll_event in *; lia).
      apply Hf. rewrite Hbrk in Ha. unfold sizeof_epoll_event in *. lia.
    + intros k Hk. destruct Hfds as [->|(l & l' & Hl & _ & ->)]; [apply Hd, Hk|].
      rewrite lookup_insert_ne; [apply Hd, Hk|].
      intros E. rewrite E, (Hd _ Hk) in Hl. discriminate.
  - rewrite Hheap. unfold shape. rewrite fmap_insert.
    apply insert_subseteq. rewrite lookup_fmap, Hf by lia. reflexivity.
  - exact Hlim.
Qed.

Lemma exec_frame h c os os' : exec h c os = Ret tt os' -> steps_to os os'.
Proof.
  destruct c; cbn [exec]; intros H.
  - apply bind_inv in H as (r & os1 & H1 & H). injection H as <-.
    eapply select_frame, H1.
  - apply bind_inv in H as (r & os1 & H1 & H). injection H as <-.
    apply getEventArrayAddress_inv in H1 as [-> _]. apply steps_refl.
  - apply bind_inv in H as (r & os1 & H1 & H). injection H as <-.
    apply getReadBufferAddress_inv in H1 as ->. apply steps_refl.
  - apply bind_inv in H as (r & os1 & H1 & H). injection H as <-.
    eapply recvmmsg_frame, H1.
  - eapply interrupt_frame, H.
  - eapply clearInterrupt_frame, H.
  - apply bind_inv in H as (r & os1 & H1 & H). injection H as <-.
    eapply ctl_frame, H1.
Qed.

Lemma session_frame h cs : forall os os', session h cs os = Ret tt os' -> steps_to os os'.
Proof.
  induction cs as [|c cs IH]; intros os os' H; cbn [session for_each] in H.
  - injection H as <-. apply steps_refl.
  - apply bind_inv in H as ([] & os1 & H1 & H).
    eapply steps_trans; [eapply exec_frame, H1 | apply IH, H].
Qed.

(** ** The receive pool stays where [init] put it *)

Lemma shape_mono (hp hp' : gmap Z block) x b :
  shape hp ⊆ shape hp' -> hp !! x = Some b ->
  exists b', hp' !! x = Some b' /\ block_shape b' = block_shape b.
Proof.
  intros Hs Hx. apply shape_lookup.
  eapply lookup_weaken; [|exact Hs]. apply shape_lookup. eauto.
Qed.

Lemma state_mono (hp hp' : gmap Z block) h st :
  shape hp ⊆ shape hp' -> hp !! h = Some (BState st) -> hp' !! h = Some (BState st).
Proof.
  intros Hs Hx. destruct (shape_mono _ _ _ _ Hs Hx) as (b' & Hb & E).
  destruct b'; cbn in E; try discriminate. rewrite Hb, E. reflexivity.
Qed.

Lemma pool_at_mono (hp hp' : gmap Z block) B a b c :
  shape hp ⊆ shape hp' -> pool_at hp B a b c -> pool_at hp' B a b c.
Proof.
  intros Hs [(v & Hv & Ev) Hio Hbuf]. constructor.
  - destruct (shape_mono _ _ _ _ Hs Hv) as (b' & Hb & E).
    destruct b' as [| | |v'| |]; cbn in E; try discriminate.
    exists v'. split; [exact Hb|]. injection E as E. rewrite E. exact Ev.
  - intros i Hi. destruct (shape_mono _ _ _ _ Hs (Hio i Hi)) as (b' & Hb & E).
    destruct b'; cbn in E; try discriminate. rewrite Hb, E. reflexivity.
  - intros i Hi. destruct (Hbuf i Hi) as (cells & Hc & Hl).
    destruct (shape_mono _ _ _ _ Hs Hc) as (b' & Hb & E).
    destruct b' as [| | | | |cells']; cbn in E; try discriminate.
    exists cells'. split; [exact Hb|]. injection E as E.
    apply (f_equal length) in E. rewrite !length_replicate in E. lia.
Qed.

Lemma pool_at_header B a b c v i m :
  header_shape <$> v = slot_header B a b c <$> seq 0 (Z.to_nat b) ->
  v !! i = Some m ->
  (i < Z.to_nat b)%nat /\ msg_iov (msg_hdr m) = io_addr B a b c (Z.of_nat i) /\
  msg_iovlen (msg_hdr m) = 1.
Proof.
  intros Ev Hm.
  assert (Hl : length v = Z.to_nat b).
  { apply (f_equal length) in Ev. rewrite !length_fmap, length_seq in Ev. exact Ev. }
  pose proof (lookup_lt_Some _ _ _ Hm) as Hi. rewrite Hl in Hi.
  apply (f_equal (fun l => l !! i)) in Ev.
  rewrite !list_lookup_fmap, Hm, lookup_seq_lt in Ev by exact Hi.
  cbn [fmap option_fmap option_map] in Ev.
  assert (E : header_shape m = slot_header B a b c (0 + i)) by congruence.
  split; [exact Hi|]. split.
  - apply (f_equal (fun x => msg_iov (msg_hdr x))) in E. exact E.
  - apply (f_equal (fun x => msg_iovlen (msg_hdr x))) in E. exact E.
Qed.

Lemma pool_at_length B a b c v :
  header_shape <$> v = slot_header B a b c <$> seq 0 (Z.to_nat b) ->
  length v = Z.to_nat b.
Proof.
  intros Ev. apply (f_equal length) in Ev.
  rewrite !length_fmap, length_seq in Ev. exact Ev.
Qed.

Lemma getReadBufferAddress_spec os h st B a b c :
  heap os !! h = Some (BState st) ->
  st_udp_rcv st = vec_addr B a ->
  pool_at (heap os) B a b c ->
  forall idx,
    (0 <= idx < b -> getReadBufferAddress h idx os = Ret (buf_addr B a b c idx) os) /\
    (~ (0 <= idx < b) -> getReadBufferAddress h idx os = Fault OutOfBounds).
Proof.
  intros Hst Hvec [(v & Hv & Ev) Hio Hbuf] idx.
  pose proof (pool_at_length _ _ _ _ _ Ev) as Hl.
  unfold Java_org_jetlang_epoll_EPoll_getReadBufferAddress.
  rewrite (bind_ret _ _ _ _ _ (load_state_ret _ _ _ Hst)). rewrite Hvec.
  split; intros Hi.
  - assert (Hlt : (Z.to_nat idx < length v)%nat) by lia.
    destruct (lookup_lt_is_Some_2 v (Z.to_nat idx) Hlt) as [m Hm].
    destruct (pool_at_header _ _ _ _ _ _ _ Ev Hm) as (_ & Hiov & _).
    rewrite Z2Nat.id in Hiov by lia.
    rewrite (bind_ret _ _ _ _ _ (load_mmsghdr_ret _ _ _ _ _ Hv (proj1 Hi) Hm)).
    rewrite Hiov.
    rewrite (bind_ret _ _ _ _ _ (load_iovec_ret _ _ _ (Hio idx Hi))).
    reflexivity.
  - apply bind_fault. apply (load_mmsghdr_oob _ _ _ _ Hv). lia.
Qed.

Lemma init_pool a b c os os' :
  (forall i, 0 <= i < b ->
     heap os' !! io_addr (brk os) a b c i
       = Some (BIovec (mk_iovec (buf_addr (brk os) a b c i) c)) /\
     heap os' !! buf_addr (brk os) a b c i = Some (BBytes (replicate (Z.to_nat c) None))) ->
  heap os' !! vec_addr (brk os) a
    = Some (BMsgVec (slot_header (brk os) a b c <$> seq 0 (Z.to_nat b))) ->
  0 <= c ->
  pool_at (heap os') (brk os) a b c.
Proof.
  intros Hslots Hvec Hc. constructor.
  - eexists. split; [exact Hvec|].
    rewrite <- list_fmap_compose. apply list_fmap_ext. intros i x _. reflexivity.
  - intros i Hi. apply Hslots, Hi.
  - intros i Hi. eexists. split; [apply Hslots, Hi|].
    rewrite length_replicate. lia.
Qed.

(** ** Creating a handle and using it *)

Lemma lifetime_inv a b c cs os h os' :
  lifetime a b c cs os = Ret h os' ->
  exists os1, init a b c os = Ret h os1 /\ session h cs os1 = Ret tt os'.
Proof.
  unfold lifetime. intros H.
  apply bind_inv in H as (h0 & os1 & H1 & H).
  apply bind_inv in H as ([] & os2 & H2 & H).
  injection H as <- <-. eauto.
Qed.

(** After [init] and any calls that returned, the handle's state block is
    as [init] wrote it and the pool is where [init] put it. *)
Lemma lifetime_pool a b c cs os h os' :
  os_wf os ->
  0 <= a < 2 ^ 31 -> 0 <= b < 2 ^ 31 -> 0 <= c < 2 ^ 31 ->
  init_bytes a b c <= mem_avail os ->
  lifetime a b c cs os = Ret h os' ->
  h = brk os /\ os_wf os' /\
  pool_at (heap os') (brk os) a b c /\
  (exists cells, heap os' !! events_addr (brk os) = Some (BEvents cells) /\
                 Z.of_nat (length cells) = a) /\
  heap os' !! h
    = Some (BState (mk_epoll_state (init_fds (fds os) (fd_limit os)).1.1
                                   (init_fds (fds os) (fd_limit os)).1.2
                                   (events_addr (brk os)) a wake_event b
                                   (vec_addr (brk os) a))).
Proof.
  intros Hwf Ha Hb Hc Hmem H.
  apply lifetime_inv in H as (os1 & Hi & Hs).
  destruct (init_spec a b c os Hwf Ha Hb Hc Hmem)
    as (os1' & Ei & Hwf1 & _ & _ & _ & _ & Hev & Hvec & Hslots & Hrest).
  rewrite Ei in Hi. injection Hi as <- <-.
  destruct (session_frame _ _ _ _ Hs Hwf1) as (Hwf' & Hshape & _).
  split; [reflexivity|]. split; [exact Hwf'|]. split; [|split].
  - eapply pool_at_mono; [exact Hshape|].
    apply init_pool; [exact Hslots | exact Hvec | lia].
  - destruct (shape_mono _ _ _ _ Hshape Hev) as (b' & Hb' & E).
    destruct b' as [|cells| | | |]; cbn in E; try discriminate.
    exists cells. split; [exact Hb'|]. injection E as E.
    apply (f_equal length) in E. rewrite !length_replicate in E. lia.
  - eapply state_mono; [exact Hshape|].
    destruct (init_fds (fds os) (fd_limit os)) as [[e w] t].
    destruct Hrest as (_ & _ & Hst). exact Hst.
Qed.

(** C10: [getReadBufferAddress] does not check its index.  On a handle
    made by [init a b c] and used in any way since, an index [0 <= idx < b]
    yields the address of that slot's buffer, the one [init] allocated for
    it (a live block of [c] bytes); any other index reads outside the
    vector of headers, which is a fault. *)
Theorem C10_read_buffer_address a b c cs os h os' :
  os_wf os ->
  0 <= a < 2 ^ 31 -> 0 <= b < 2 ^ 31 -> 0 <= c < 2 ^ 31 ->
  init_bytes a b c <= mem_avail os ->
  lifetime a b c cs os = Ret h os' ->
  forall idx,
    (0 <= idx < b ->
       getReadBufferAddress h idx os' = Ret (buf_addr (brk os) a b c idx) os' /\
       exists cells, heap os' !! buf_addr (brk os) a b c idx = Some (BBytes cells) /\
                     Z.of_nat (length cells) = c) /\
    (~ (0 <= idx < b) -> getReadBufferAddress h idx os' = Fault OutOfBounds).
Proof.
  intros Hwf Ha Hb Hc Hmem H idx.
  destruct (lifetime_pool _ _ _ _ _ _ _ Hwf Ha Hb Hc Hmem H)
    as (-> & _ & Hpool & _ & Hst).
  destruct (getReadBufferAddress_spec _ _ _ _ _ _ _ Hst eq_refl Hpool idx) as [H1 H2].
  split; [|exact H2].
  intros Hi. split; [apply H1, Hi | apply (pa_buf _ _ _ _ _ Hpool), Hi].
Qed.

Lemma os_udp_wf : os_wf os_udp.
Proof.
  constructor; cbn [os_udp heap brk fds].
  - lia.
  - intros a _. apply lookup_empty.
  - intros k Hk. rewrite !lookup_insert_ne by lia. apply lookup_empty.
Qed.

Lemma demo_lifetime : lifetime 4 2 16 demo_calls os_udp = Ret 4096 demo_end.
Proof. vm_compute. reflexivity. Qed.

Lemma C10_read_buffer_address_witness :
  getReadBufferAddress 4096 1 demo_end = Ret 4352 demo_end /\
  getReadBufferAddress 4096 2 demo_end = Fault OutOfBounds.
Proof.
  assert (H : forall idx,
             (0 <= idx < 2 ->
                getReadBufferAddress 4096 idx demo_end
                  = Ret (buf_addr (brk os_udp) 4 2 16 idx) demo_end /\
                exists cells, heap demo_end !! buf_addr (brk os_udp) 4 2 16 idx
                                = Some (BBytes cells) /\
                              Z.of_nat (length cells) = 16) /\
             (~ (0 <= idx < 2) ->
                getReadBufferAddress 4096 idx demo_end = Fault OutOfBounds)).
  { apply (C10_read_buffer_address 4 2 16 demo_calls os_udp 4096 demo_end).
    - exact os_udp_wf.
    - lia.
    - lia.
    - lia.
    - vm_compute. discriminate.
    - exact demo_lifetime. }
  split.
  - apply (proj1 (H 1)). lia.
  - apply (proj2 (H 2)). lia.
Defined.

(** ** The wake channel's registration *)










(** ** Destruction *)

Lemma free_ret p b os :
  heap os !! p = Some b -> p <> 0 ->
  Libc.free p os =
  Ret tt (mkOS (delete p (heap os)) (brk os) (mem_avail os + block_size b)
               (fds os) (fd_limit os) (errno os) (stdout os)).
Proof.
  intros H Hp. unfold Libc.free.
  apply Z.eqb_neq in Hp. rewrite Hp, H. reflexivity.
Qed.

Lemma close_total fd os :
  exists r os', Sys.close fd os = Ret r os' /\ heap os' = heap os.
Proof.
  unfold Sys.close, fail. destruct (fds os !! fd); eexists _, _; split; reflexivity.
Qed.

Lemma layout_order B a b c :
  B < events_addr B /\ events_addr B < vec_addr B a /\
  vec_addr B a < buf_addr B a b c 0 /\
  buf_addr B a b c 0 < io_addr B a b c 0 /\
  forall i, 1 <= i ->
    io_addr B a b c 0 < buf_addr B a b c i /\ buf_addr B a b c i < io_addr B a b c i.
Proof.
  unfold io_addr, buf_addr, pool_base, vec_addr, events_addr, stride, chunk,
    sizeof_epoll_state, sizeof_iovec.
  repeat (split; [lia|]).
  intros i Hi.
  assert (0 <= (i - 1) * (Z.max 1 c + 16)) by (apply Z.mul_nonneg_nonneg; lia).
  lia.
Qed.

(** What [freeNativeMemory] leaves of the blocks of [init a b c]: slot 0 is
    freed with the event array, the vector and the state block; the buffer
    and the descriptor of every other slot stay allocated. *)
Lemma destroy_leaks a b c os :
  os_wf os ->
  0 <= a < 2 ^ 31 -> 1 <= b < 2 ^ 31 -> 0 <= c < 2 ^ 31 ->
  init_bytes a b c <= mem_avail os ->
  exists os1 os',
    init a b c os = Ret (brk os) os1 /\
    freeNativeMemory (brk os) os1 = Ret tt os' /\
    heap os' = delete (brk os)
                 (delete (vec_addr (brk os) a)
                    (delete (io_addr (brk os) a b c 0)
                       (delete (buf_addr (brk os) a b c 0)
                          (delete (events_addr (brk os)) (heap os1))))) /\
    (forall i, 1 <= i < b ->
       heap os' !! buf_addr (brk os) a b c i = Some (BBytes (replicate (Z.to_nat c) None)) /\
       heap os' !! io_addr (brk os) a b c i
         = Some (BIovec (mk_iovec (buf_addr (brk os) a b c i) c))).
Proof.
  intros Hwf Ha Hb Hc Hmem.
  destruct (init_spec a b c os Hwf Ha ltac:(lia) Hc Hmem)
    as (os1 & Ei & _ & _ & _ & _ & _ & Hev & Hvec & Hslots & Hrest).
  destruct (init_fds (fds os) (fd_limit os)) as [[e w] t].
  destruct Hrest as (_ & _ & Hst).
  pose proof (wf_brk _ Hwf) as Hbrk.
  destruct (Hslots 0 ltac:(lia)) as [Hio0 Hbuf0].
  assert (Hv0 : (slot_header (brk os) a b c <$> seq 0 (Z.to_nat b)) !! Z.to_nat 0
                = Some (slot_header (brk os) a b c 0)).
  { rewrite list_lookup_fmap, lookup_seq_lt by lia. reflexivity. }
  destruct (layout_order (brk os) a b c) as (O1 & O2 & O3 & O4 & O5).
  clear Hwf Hmem Ha Hc.
  exists os1.
  unfold Java_org_jetlang_epoll_EPoll_freeNativeMemory.
  (* the two descriptors *)
  rewrite (bind_ret _ _ _ _ _ (load_state_ret _ _ _ Hst)). cbn [st_fd].
  destruct (close_total e os1) as (r1 & os2 & E2 & Hh2). rewrite (bind_ret _ _ _ _ _ E2).
  erewrite bind_ret; [|apply load_state_ret; rewrite Hh2; exact Hst]. cbn [st_efd].
  destruct (close_total w os2) as (r2 & os3 & E3 & Hh3). rewrite (bind_ret _ _ _ _ _ E3).
  rewrite Hh2 in Hh3.
  (* the event array *)
  erewrite bind_ret; [|apply load_state_ret; rewrite Hh3; exact Hst]. cbn [st_events].
  erewrite bind_ret; [|apply free_ret; [rewrite Hh3; exact Hev | lia]].
  (* slot 0 *)
  erewrite bind_ret;
    [|apply load_state_ret; os_simpl; rewrite Hh3, lookup_delete_ne by lia; exact Hst].
  cbn [st_udp_rcv].
  erewrite bind_ret;
    [|eapply load_mmsghdr_ret;
      [os_simpl; rewrite Hh3, lookup_delete_ne by lia; exact Hvec | lia | exact Hv0]].
  cbn [slot_header fill_slot set_msg_iovlen set_msg_iov msg_hdr msg_iov].
  change (Z.of_nat 0) with 0.
  erewrite bind_ret;
    [|apply load_iovec_ret; os_simpl; rewrite Hh3, lookup_delete_ne by lia; exact Hio0].
  cbn [iov_base].
  erewrite bind_ret;
    [|apply free_ret; os_simpl; [rewrite Hh3, lookup_delete_ne by lia; exact Hbuf0 | lia]].
  erewrite bind_ret;
    [|apply load_state_ret; os_simpl; rewrite Hh3, !lookup_delete_ne by lia; exact Hst].
  cbn [st_udp_rcv].
  erewrite bind_ret;
    [|eapply load_mmsghdr_ret;
      [os_simpl; rewrite Hh3, !lookup_delete_ne by lia; exact Hvec | lia | exact Hv0]].
  cbn [slot_header fill_slot set_msg_iovlen set_msg_iov msg_hdr msg_iov].
  change (Z.of_nat 0) with 0.
  erewrite bind_ret;
    [|apply free_ret; os_simpl; [rewrite Hh3, !lookup_delete_ne by lia; exact Hio0 | lia]].
  (* the vector and the state block *)
  erewrite bind_ret;
    [|apply load_state_ret; os_simpl; rewrite Hh3, !lookup_delete_ne by lia; exact Hst].
  cbn [st_udp_rcv].
  erewrite bind_ret;
    [|apply free_ret; os_simpl; [rewrite Hh3, !lookup_delete_ne by lia; exact Hvec | lia]].
  erewrite free_ret;
    [|os_simpl; rewrite Hh3, !lookup_delete_ne by lia; exact Hst | lia].
  eexists. split; [exact Ei|]. split; [reflexivity|]. os_simpl.
  split; [rewrite Hh3; reflexivity|].
  intros i Hi. destruct (Hslots i ltac:(lia)) as [Hio Hbuf].
  destruct (O5 i ltac:(lia)) as [O6 O7].
  rewrite Hh3. rewrite !lookup_delete_ne by lia. split; assumption.
Qed.

(** C1 fails on the code: [freeNativeMemory] frees the buffer and the
    descriptor of slot 0 only.  After [init 4 2 16] on an empty heap and
    [freeNativeMemory], the buffer and the scatter/gather descriptor of
    slot 1 are the two blocks still allocated. *)
Theorem C1_destroy_leaks_slots :
  exists os',
    (h <- init 4 2 16 ;; freeNativeMemory h) os0 = Ret tt os' /\
    heap os0 = ∅ /\
    heap os' = <[buf_addr 4096 4 2 16 1 := BBytes (replicate 16 None)]>
                 (<[io_addr 4096 4 2 16 1 := BIovec (mk_iovec (buf_addr 4096 4 2 16 1) 16)]> ∅) /\
    fds os' = fds os0.
Proof.
  eexists. split; [vm_compute; reflexivity|].
  split; [reflexivity|]. split; vm_compute; reflexivity.
Qed.

(** With a single slot the two lines of [freeNativeMemory] cover the pool:
    nothing of [init 4 1 16] is left. *)
Lemma destroy_single_slot :
  exists os', (h <- init 4 1 16 ;; freeNativeMemory h) os0 = Ret tt os' /\
              heap os' = ∅ /\ fds os' = fds os0.
Proof. eexists. split; [vm_compute; reflexivity|]. split; vm_compute; reflexivity. Qed.

(** With no slot at all they read slot 0 of an empty vector. *)
Lemma destroy_no_slot :
  (h <- init 4 0 16 ;; freeNativeMemory h) os0 = Fault OutOfBounds.
Proof. vm_compute. reflexivity. Qed.

(** ** Creation under failure *)

Lemma os_full_wf : os_wf os_full.
Proof.
  constructor; cbn [os_full heap brk fds].
  - lia.
  - intros a _. apply lookup_empty.
  - intros k Hk. rewrite !lookup_insert_ne by lia. apply lookup_empty.
Qed.

(** When the state block cannot be allocated, [init] stores through the
    null pointer. *)
Lemma init_null_state a b c os :
  os_wf os -> mem_avail os < sizeof_epoll_state -> init a b c os = Fault NullDeref.
Proof.
  intros Hwf Hmem. unfold Java_org_jetlang_epoll_EPoll_init.
  rewrite epoll_create1_0.
  assert (Hnull : forall os1 e, heap os1 = heap os ->
                    store_state 0 (set_fd e) os1 = Fault NullDeref).
  { intros os1 e E. assert (H0 : heap os1 !! 0 = None)
      by (rewrite E; apply (wf_fresh _ Hwf); lia).
    unfold store_state, load_state, deref, bind. rewrite H0. reflexivity. }
  destruct (Sys.first_free (fds os) (fd_limit os) 0) as [e|] eqn:He.
  - rewrite (bind_ret _ _ _ _ _ (alloc_fd_some _ _ _ He)).
    rewrite (bind_ret _ _ _ _ _ (printf_ret _ _)).
    erewrite bind_ret; [|apply malloc_null; os_simpl; exact Hmem].
    apply bind_fault. apply Hnull. reflexivity.
  - rewrite (bind_ret _ _ _ _ _ (alloc_fd_none _ _ He)).
    rewrite (bind_ret _ _ _ _ _ (printf_ret _ _)).
    erewrite bind_ret; [|apply malloc_null; os_simpl; exact Hmem].
    apply bind_fault. apply Hnull. reflexivity.
Qed.

(** C3 as the specification words it fails: with no descriptor to be had,
    [init] still returns a live handle and keeps all its blocks. *)
Lemma C3_counterexample : ~ create_unwinds os_full 4 2 16.
Proof.
  intros H.
  destruct (init_spec 4 2 16 os_full os_full_wf)
    as (os' & Ei & _ & _ & _ & _ & _ & _ & _ & _ & Hrest).
  - lia.
  - lia.
  - lia.
  - vm_compute. discriminate.
  - destruct (H (set_errno EMFILE os_full) _ _ eq_refl Ei) as (Hnone & _).
    change (init_fds (fds os_full) (fd_limit os_full)) with ((-1, -1, fds os_full)) in Hrest.
    destruct Hrest as (_ & _ & Hst). rewrite Hst in Hnone. discriminate.
Qed.

(** C3, as the code has it: [init] checks no result and releases nothing.
    Given memory for its blocks it completes and returns the state handle
    whether or not its descriptors could be created; a descriptor that
    could not is recorded as -1 in the state block, every block [init]
    allocated is live on return, and when no descriptor at all was to be
    had both are -1 and the descriptor table is as before the call. *)
Theorem C3_init_ignores_failure a b c os :
  os_wf os ->
  0 <= a < 2 ^ 31 -> 0 <= b < 2 ^ 31 -> 0 <= c < 2 ^ 31 ->
  init_bytes a b c <= mem_avail os ->
  exists os' e w,
    init a b c os = Ret (brk os) os' /\
    init_fds (fds os) (fd_limit os) = (e, w, fds os') /\
    heap os' !! brk os
      = Some (BState (mk_epoll_state e w (events_addr (brk os)) a wake_event b
                                     (vec_addr (brk os) a))) /\
    mem_avail os' = mem_avail os - init_bytes a b c /\
    heap os' !! events_addr (brk os) = Some (BEvents (replicate (Z.to_nat a) None)) /\
    pool_at (heap os') (brk os) a b c /\
    (forall x, x < brk os -> heap os' !! x = heap os !! x) /\
    (Sys.first_free (fds os) (fd_limit os) 0 = None ->
     e = -1 /\ w = -1 /\ fds os' = fds os).
Proof.
  intros Hwf Ha Hb Hc Hmem.
  destruct (init_spec a b c os Hwf Ha Hb Hc Hmem)
    as (os' & Ei & _ & _ & _ & Hm & Hold & Hev & Hvec & Hslots & Hrest).
  destruct (init_fds (fds os) (fd_limit os)) as [[e w] t] eqn:Efds.
  destruct Hrest as (Hfds & _ & Hst).
  exists os', e, w. split; [exact Ei|]. split; [rewrite Hfds; reflexivity|].
  split; [exact Hst|]. split; [exact Hm|]. split; [exact Hev|].
  split; [apply init_pool; [exact Hslots | exact Hvec | lia]|].
  split; [exact Hold|].
  intros Hnone. unfold init_fds in Efds. rewrite Hnone in Efds.
  injection Efds as <- <- <-. auto.
Qed.

Lemma C3_init_ignores_failure_witness :
  exists os', init 4 2 16 os_full = Ret 4096 os' /\
              heap os' !! 4096
                = Some (BState (mk_epoll_state (-1) (-1) 4144 4 wake_event 2 4192)) /\
              fds os' = fds os_full.
Proof.
  destruct (C3_init_ignores_failure 4 2 16 os_full os_full_wf
              ltac:(lia) ltac:(lia) ltac:(lia) ltac:(vm_compute; discriminate))
    as (os' & e & w & H1 & _ & H3 & _ & _ & _ & _ & H8).
  destruct (H8 eq_refl) as (-> & -> & Hfds).
  exists os'. split; [exact H1|]. split; [exact H3 | exact Hfds].
Defined.

(** ** Registration *)

Lemma epoll_ctl_total epfd op fd ev os :
  exists r os', Sys.epoll_ctl epfd op fd ev os = Ret r os'.
Proof.
  unfold Sys.epoll_ctl, fail.
  destruct (fds os !! epfd) as [e|]; [|eauto].
  destruct (fds os !! fd) as [[| | |]|]; eauto;
    destruct e as [l| | |]; eauto;
    destruct (Sys.apply_ctl op fd ev l); eauto.
Qed.

(** A failing [epoll_ctl] looks at the descriptor table only. *)
Lemma epoll_ctl_fail_frame epfd op fd ev os os2 e :
  fds os2 = fds os ->
  Sys.epoll_ctl epfd op fd ev os = Ret (-1) (set_errno e os) ->
  Sys.epoll_ctl epfd op fd ev os2 = Ret (-1) (set_errno e os2).
Proof.
  intros E. unfold Sys.epoll_ctl, fail. rewrite E.
  assert (Hinj : forall x, Ret (-1) (set_errno x os) = Ret (-1) (set_errno e os) ->
                           @Ret Z (-1) (set_errno x os2) = Ret (-1) (set_errno e os2)).
  { intros x Hx. injection Hx as Hx. rewrite Hx. reflexivity. }
  destruct (fds os !! epfd) as [o|]; [|apply Hinj].
  destruct (fds os !! fd) as [[| | |]|]; try apply Hinj;
    destruct o as [l| | |]; try apply Hinj;
    destruct (Sys.apply_ctl op fd ev l); try apply Hinj; discriminate.
Qed.

(** C2, as the code has it: [ctl] returns the address of the event record
    it allocated for the call, whatever became of the update.  A failed
    update changes nothing in the descriptor table and leaves its error
    code in [errno]; the value [ctl] returns does not depend on it. *)
Theorem C2_ctl_discards_result h st op eventTypes fd idx os :
  os_wf os ->
  heap os !! h = Some (BState st) ->
  sizeof_epoll_event <= mem_avail os ->
  exists os',
    ctl h op eventTypes fd idx os = Ret (brk os) os' /\
    heap os' = <[brk os := BEvent (mk_epoll_event (to_u32 eventTypes) (to_u32 idx))]> (heap os) /\
    (forall e,
       Sys.epoll_ctl (st_fd st) op fd
                     (mk_epoll_event (to_u32 eventTypes) (to_u32 idx)) os
         = Ret (-1) (set_errno e os) ->
       fds os' = fds os /\ errno os' = e).
Proof.
  intros Hwf Hst Hmem.
  pose proof (wf_below _ _ _ Hwf Hst) as Hh.
  unfold Java_org_jetlang_epoll_EPoll_ctl.
  erewrite bind_ret; [|apply malloc_ret; [unfold sizeof_epoll_event, PTRDIFF_MAX; lia | exact Hmem]].
  erewrite bind_ret; [|apply store_event_ret; os_simpl; apply lookup_insert_eq].
  os_simpl.
  erewrite bind_ret; [|apply store_event_ret; os_simpl; apply lookup_insert_eq].
  os_simpl.
  erewrite bind_ret;
    [|apply load_state_ret; os_simpl; rewrite !lookup_insert_ne by lia; exact Hst].
  erewrite bind_ret; [|apply load_event_ret; os_simpl; apply lookup_insert_eq].
  cbn [ev_events ev_data_u32 Libc.fresh_event epoll_event_zero].
  match goal with
  | |- exists os', bind (Sys.epoll_ctl _ _ _ _) _ ?s = _ /\ _ => set (mid := s)
  end.
  assert (Hfds : fds mid = fds os) by reflexivity.
  assert (Hheap : heap mid
                  = <[brk os := BEvent (mk_epoll_event (to_u32 eventTypes) (to_u32 idx))]>
                      (heap os)).
  { subst mid. os_simpl. rewrite !insert_insert_eq. reflexivity. }
  clearbody mid.
  destruct (epoll_ctl_total (st_fd st) op fd
              (mk_epoll_event (to_u32 eventTypes) (to_u32 idx)) mid) as (r & os6 & E6).
  exists os6. rewrite (bind_ret _ _ _ _ _ E6). split; [reflexivity|].
  pose proof E6 as E6'.
  apply epoll_ctl_inv in E6' as [(-> & e & ->)|(-> & l & l' & Hl & Ha & ->)];
    os_simpl; (split; [exact Hheap|]).
  - intros e' He'.
    pose proof (epoll_ctl_fail_frame _ _ _ _ _ mid _ Hfds He') as He2.
    rewrite E6 in He2. injection He2 as He2. split; [exact Hfds | exact He2].
  - intros e' He'.
    pose proof (epoll_ctl_fail_frame _ _ _ _ _ mid _ Hfds He') as He2.
    rewrite E6 in He2. discriminate.
Qed.

Lemma fresh_lifetime : lifetime 4 2 16 [] os_udp = Ret 4096 fresh_end.
Proof. vm_compute. reflexivity. Qed.

Lemma fresh_end_wf : os_wf fresh_end.
Proof.
  destruct (lifetime_pool 4 2 16 [] os_udp 4096 fresh_end os_udp_wf) as (_ & H & _).
  - lia.
  - lia.
  - lia.
  - vm_compute. discriminate.
  - exact fresh_lifetime.
  - exact H.
Qed.

Lemma C2_ctl_discards_result_witness :
  exists os',
    ctl 4096 EPOLL_CTL_ADD EPOLLIN 4 7 fresh_end = Ret 4384 os' /\
    fds os' = fds fresh_end /\ errno os' = EEXIST.
Proof.
  destruct (C2_ctl_discards_result 4096 (mk_epoll_state 3 4 4144 4 wake_event 2 4192)
              EPOLL_CTL_ADD EPOLLIN 4 7 fresh_end fresh_end_wf)
    as (os' & H1 & _ & H3).
  - reflexivity.
  - vm_compute. discriminate.
  - exists os'. split; [exact H1|]. apply H3. reflexivity.
Defined.

(** C2 as the specification words it fails: registering the wake descriptor
    a second time fails in the kernel, registering the socket succeeds, and
    [ctl] returns the same value for both. *)
Lemma C2_counterexample :
  lifetime 4 2 16 [] os_udp = Ret 4096 fresh_end /\
  ~ ctl_reports_failure fresh_end 4096.
Proof.
  split; [vm_compute; reflexivity|].
  intros H.
  refine (H EPOLL_CTL_ADD EPOLLIN 4 7 EPOLL_CTL_ADD EPOLLIN 5 7 4384 4384 _ _ _ _ _ _ eq_refl).
  - reflexivity.
  - reflexivity.
  - vm_compute. reflexivity.
  - vm_compute. reflexivity.
Qed.

(** ** Receiving from an idle or failed socket *)




(** ** Waiting *)

Lemma select_spec h st l cells timeout os :
  heap os !! h = Some (BState st) ->
  fds os !! st_fd st = Some (KEpoll l) ->
  heap os !! st_events st = Some (BEvents cells) ->
  Z.of_nat (length cells) = st_max_events st ->
  0 < st_max_events st <= Sys.EP_MAX_EVENTS ->
  let rdy := take (Z.to_nat (st_max_events st)) (Sys.ready_events (fds os) l) in
  Z.of_nat (length rdy) <= st_max_events st /\
  select h timeout os =
  match rdy with
  | [] => if timeout <? 0 then Blocks else Ret 0 os
  | _ => Ret (Z.of_nat (length rdy))
             (set_heap (<[st_events st := BEvents ((Some <$> rdy) ++ drop (length rdy) cells)]>
                          (heap os)) os)
  end.
Proof.
  intros Hst Hfd Hev Hlen Hmax rdy.
  assert (Hok : (st_max_events st <=? 0) || (Sys.EP_MAX_EVENTS <? st_max_events st) = false).
  { apply orb_false_iff. split; [apply Z.leb_gt | apply Z.ltb_ge]; lia. }
  assert (Hr : (length rdy <= Z.to_nat (st_max_events st))%nat).
  { subst rdy. rewrite length_take. lia. }
  split; [lia|].
  unfold Java_org_jetlang_epoll_EPoll_select.
  rewrite (bind_ret _ _ _ _ _ (load_state_ret _ _ _ Hst)).
  unfold Sys.epoll_wait, bind.
  rewrite Hok, Hfd. fold rdy.
  destruct rdy as [|ev rdy'] eqn:E.
  - destruct (timeout <? 0); reflexivity.
  - rewrite Hev.
    assert (Hle : (length (ev :: rdy') <=? length cells)%nat = true).
    { apply Nat.leb_le. lia. }
    rewrite Hle. reflexivity.
Qed.

Lemma omap_none {A B} (f : A -> option B) (l : list A) :
  (forall x, In x l -> f x = None) -> omap f l = [].
Proof.
  induction l as [|x l IH]; intros H; [reflexivity|].
  cbn [omap list_omap]. rewrite (H x (or_introl eq_refl)).
  apply IH. intros y Hy. apply H. right. exact Hy.
Qed.




(** ** Signal and clear *)

(** Whatever the uninitialised local holds, [interrupt] returns, leaves the
    heap alone and changes at most the counter of the wake channel. *)
Lemma interrupt_spec h st cnt d os :
  heap os !! h = Some (BState st) ->
  fds os !! st_efd st = Some (KEventfd cnt true) ->
  exists os' cnt',
    interrupt h d os = Ret tt os' /\
    heap os' = heap os /\
    fds os' = <[st_efd st := KEventfd cnt' true]> (fds os) /\
    (0 <= cnt -> to_u64 d < Sys.ULLONG_MAX - cnt -> cnt' = cnt + to_u64 d) /\
    (Sys.ULLONG_MAX - cnt <= to_u64 d -> cnt' = cnt).
Proof.
  intros Hst Hfd. unfold Java_org_jetlang_epoll_EPoll_interrupt.
  rewrite (bind_ret _ _ _ _ _ (load_state_ret _ _ _ Hst)).
  unfold Sys.write, bind, fail. rewrite Hfd. cbn [Z.ltb Z.compare sizeof_uint64_t].
  change (8 <? 8) with false. cbv iota.
  pose proof (to_u64_range d) as Hd.
  destruct (to_u64 d =? Sys.ULLONG_MAX) eqn:E1.
  { apply Z.eqb_eq in E1. exists (set_errno EINVAL os), cnt. unfold ret.
    split; [reflexivity|]. split; [reflexivity|].
    split; [os_simpl; rewrite insert_id by exact Hfd; reflexivity|].
    split; [intros H0 H; lia | intros _; reflexivity]. }
  destruct (to_u64 d <? Sys.ULLONG_MAX - cnt) eqn:E2.
  - apply Z.ltb_lt in E2. eexists _, (cnt + to_u64 d). unfold ret.
    split; [reflexivity|]. split; [reflexivity|]. split; [reflexivity|].
    split; [intros _ _; reflexivity | lia].
  - apply Z.ltb_ge in E2. exists (set_errno EAGAIN os), cnt. unfold ret.
    split; [reflexivity|]. split; [reflexivity|].
    split; [os_simpl; rewrite insert_id by exact Hfd; reflexivity|].
    split; [lia | intros _; reflexivity].
Qed.


Lemma clearInterrupt_spec h st cnt os :
  heap os !! h = Some (BState st) ->
  fds os !! st_efd st = Some (KEventfd cnt true) ->
  exists os',
    clearInterrupt h os = Ret tt os' /\
    heap os' = heap os /\
    fds os' = <[st_efd st := KEventfd 0 true]> (fds os).
Proof.
  intros Hst Hfd. unfold Java_org_jetlang_epoll_EPoll_clearInterrupt.
  rewrite (bind_ret _ _ _ _ _ (load_state_ret _ _ _ Hst)).
  unfold Sys.read, bind, fail. rewrite Hfd.
  change (sizeof_uint64_t <? sizeof_uint64_t) with false. cbv iota.
  destruct (cnt =? 0) eqn:E.
  - apply Z.eqb_eq in E. subst cnt. eexists. unfold ret.
    split; [reflexivity|]. split; [reflexivity|].
    os_simpl. rewrite insert_id by exact Hfd. reflexivity.
  - eexists. unfold ret. split; [reflexivity|]. split; reflexivity.
Qed.



(** ** Receiving a batch *)

Lemma buf_addr_inj B a b c i j :
  buf_addr B a b c i = buf_addr B a b c j -> i = j.
Proof.
  unfold buf_addr, stride, chunk, sizeof_iovec. intros H.
  assert (Hs : 0 < Z.max 1 c + 16) by lia.
  assert (E : (i - j) * (Z.max 1 c + 16) = 0) by lia.
  apply Z.mul_eq_0 in E as [E|E]; lia.
Qed.

(** One datagram delivered into slot [i] of a pool laid out by [init]. *)
Lemma deliver_pool hp B a b c v i m cells dg :
  0 <= c ->
  header_shape <$> v = slot_header B a b c <$> seq 0 (Z.to_nat b) ->
  v !! i = Some m ->
  hp !! io_addr B a b c (Z.of_nat i)
    = Some (BIovec (mk_iovec (buf_addr B a b c (Z.of_nat i)) c)) ->
  hp !! buf_addr B a b c (Z.of_nat i) = Some (BBytes cells) ->
  Z.of_nat (length cells) = c ->
  let n := Z.min (Z.of_nat (length dg)) c in
  Sys.deliver hp m dg =
  Some (<[buf_addr B a b c (Z.of_nat i) := BBytes (overwrite n dg cells)]> hp,
        Sys.received m n (n <? Z.of_nat (length dg))).
Proof.
  intros Hc Ev Hm Hio Hbuf Hlen n.
  destruct (pool_at_header _ _ _ _ _ _ _ Ev Hm) as (_ & Hiov & Hiovlen).
  unfold Sys.deliver. rewrite Hiovlen, Hiov, Hio. cbn [Z.eqb Pos.eqb iov_len iov_base].
  fold n. destruct (n =? 0) eqn:E.
  - apply Z.eqb_eq in E. rewrite E. unfold overwrite. cbn [Z.to_nat take drop fmap list_fmap app].
    rewrite insert_id by exact Hbuf. reflexivity.
  - rewrite Hbuf.
    assert (Hle : (n <=? Z.of_nat (length cells)) = true) by (apply Z.leb_le; lia).
    rewrite Hle. reflexivity.
Qed.

Lemma length_overwrite_cells n dg cells :
  0 <= n <= Z.of_nat (length dg) -> n <= Z.of_nat (length cells) ->
  length (overwrite n dg cells) = length cells.
Proof.
  intros H1 H2. unfold overwrite.
  apply length_overwrite; [|lia].
  rewrite length_fmap, length_take. lia.
Qed.

(** The receive loop on a non-blocking socket whose queue fits the slots
    left: every datagram lands in the next slot, and nothing else moves. *)
Lemma recv_loop_fill B a b c :
  0 <= b -> 0 <= c ->
  forall q i hp v,
    pool_at hp B a b c ->
    hp !! vec_addr B a = Some (BMsgVec v) ->
    (i + length q <= Z.to_nat b)%nat ->
    exists hp' v',
      Sys.recv_loop true (vec_addr B a) b (Z.of_nat i) q hp
        = Sys.RStop (Z.of_nat (i + length q))
                    (if Z.of_nat (i + length q) <? b then Some EAGAIN else None) [] hp' /\
      pool_at hp' B a b c /\
      hp' !! vec_addr B a = Some (BMsgVec v') /\
      (forall k dg, q !! k = Some dg ->
         exists m cells,
           v !! (i + k)%nat = Some m /\
           hp !! buf_addr B a b c (Z.of_nat (i + k)) = Some (BBytes cells) /\
           let n := Z.min (Z.of_nat (length dg)) c in
           v' !! (i + k)%nat = Some (Sys.received m n (n <? Z.of_nat (length dg))) /\
           hp' !! buf_addr B a b c (Z.of_nat (i + k))
             = Some (BBytes (overwrite n dg cells))) /\
      (forall j, ~ (i <= j < i + length q)%nat -> v' !! j = v !! j) /\
      (forall x, x <> vec_addr B a ->
                 (forall k, (k < length q)%nat -> x <> buf_addr B a b c (Z.of_nat (i + k))) ->
                 hp' !! x = hp !! x).
Proof.
  intros Hb Hc. induction q as [|dg q IH]; intros i hp v Hpool Hv Hfit.
  - exists hp, v. cbn [length Sys.recv_loop] in *. rewrite Nat.add_0_r in *.
    pose proof Hpool as [(v0 & Hv0 & Ev) Hio Hbuf]. rewrite Hv in Hv0. injection Hv0 as <-.
    pose proof (pool_at_length _ _ _ _ _ Ev) as Hl.
    split; [|split; [exact Hpool|split; [exact Hv|split; [|split]]]].
    + destruct (b <=? Z.of_nat i) eqn:E1.
      * apply Z.leb_le in E1.
        assert (E2 : (Z.of_nat i <? b) = false) by (apply Z.ltb_ge; lia).
        rewrite E2. reflexivity.
      * apply Z.leb_gt in E1.
        assert (E2 : (Z.of_nat i <? b) = true) by (apply Z.ltb_lt; lia).
        rewrite E2, Hv, Nat2Z.id.
        destruct (lookup_lt_is_Some_2 v i) as [m Hm]; [lia|]. rewrite Hm. reflexivity.
    + intros k dg Hk. rewrite lookup_nil in Hk. discriminate.
    + reflexivity.
    + reflexivity.
  - cbn [length] in Hfit.
    pose proof Hpool as [(v0 & Hv0 & Ev) Hio Hbuf].
    rewrite Hv in Hv0. injection Hv0 as <-.
    pose proof (pool_at_length _ _ _ _ _ Ev) as Hl.
    destruct (lookup_lt_is_Some_2 v i) as [m Hm]; [lia|].
    destruct (Hbuf (Z.of_nat i)) as (cells & Hcells & Hlen); [lia|].
    pose proof (deliver_pool hp B a b c v i m cells dg Hc Ev Hm
                  (Hio (Z.of_nat i) ltac:(lia)) Hcells Hlen) as Hd.
    cbv zeta in Hd.
    set (n := Z.min (Z.of_nat (length dg)) c) in *.
    set (m' := Sys.received m n (n <? Z.of_nat (length dg))) in *.
    set (hp1 := <[buf_addr B a b c (Z.of_nat i) := BBytes (overwrite n dg cells)]> hp) in *.
    set (hp2 := <[vec_addr B a := BMsgVec (<[i := m']> v)]> hp1).
    assert (Hbv : buf_addr B a b c (Z.of_nat i) <> vec_addr B a).
    { intros E. rewrite E, Hv in Hcells. discriminate. }
    assert (Hv1 : hp1 !! vec_addr B a = Some (BMsgVec v)).
    { subst hp1. rewrite lookup_insert_ne by exact Hbv. exact Hv. }
    assert (Hshape : shape hp2 = shape hp).
    { subst hp2. rewrite (shape_insert_same hp1 _ _ _ Hv1).
      - subst hp1. apply (shape_insert_same hp _ _ _ Hcells).
        cbn [block_shape]. f_equal. f_equal.
        apply length_overwrite_cells; subst n; lia.
      - cbn [block_shape]. f_equal.
        rewrite list_fmap_insert. apply list_insert_id.
        rewrite list_lookup_fmap, Hm. reflexivity. }
    assert (Hpool2 : pool_at hp2 B a b c).
    { eapply pool_at_mono; [|exact Hpool]. rewrite Hshape. reflexivity. }
    assert (Hv2 : hp2 !! vec_addr B a = Some (BMsgVec (<[i := m']> v))).
    { subst hp2. apply lookup_insert_eq. }
    destruct (IH (Datatypes.S i) hp2 _ Hpool2 Hv2 ltac:(lia))
      as (hp' & v' & Erun & Hpool' & Hv' & Hin & Hout & Hframe).
    exists hp', v'. cbn [length].
    replace (i + Datatypes.S (length q))%nat with (Datatypes.S i + length q)%nat by lia.
    split; [|split; [exact Hpool'|split; [exact Hv'|split; [|split]]]].
    + cbn [Sys.recv_loop].
      assert (E1 : (b <=? Z.of_nat i) = false) by (apply Z.leb_gt; lia).
      rewrite E1, Hv, Nat2Z.id, Hm, Hd.
      replace (Z.of_nat i + 1) with (Z.of_nat (Datatypes.S i)) by lia.
      exact Erun.
    + intros k dg' Hk. destruct k as [|k].
      * cbn in Hk. injection Hk as <-. rewrite Nat.add_0_r.
        exists m, cells. split; [exact Hm|]. split; [exact Hcells|].
        cbv zeta. fold n. fold m'. split.
        -- rewrite Hout by lia. apply list_lookup_insert_eq. eapply lookup_lt_Some, Hm.
        -- rewrite Hframe.
           ++ subst hp2 hp1. rewrite lookup_insert_ne by congruence. apply lookup_insert_eq.
           ++ exact Hbv.
           ++ intros k Hk E. apply buf_addr_inj in E. lia.
      * cbn [lookup list_lookup] in Hk.
        destruct (Hin k dg' Hk) as (m2 & cells2 & Hm2 & Hc2 & Hrest).
        replace (Datatypes.S i + k)%nat with (i + Datatypes.S k)%nat in * by lia.
        exists m2, cells2.
        split; [rewrite list_lookup_insert_ne in Hm2 by lia; exact Hm2|].
        split; [|exact Hrest].
        subst hp2 hp1.
        rewrite lookup_insert_ne in Hc2.
        -- rewrite lookup_insert_ne in Hc2; [exact Hc2|].
           intros E. apply buf_addr_inj in E. lia.
        -- intros E. rewrite <- E in Hc2. rewrite lookup_insert_eq in Hc2. discriminate.
    + intros j Hj. rewrite Hout by lia. apply list_lookup_insert_ne. lia.
    + intros x Hx Hk. rewrite Hframe.
      * subst hp2 hp1. rewrite lookup_insert_ne by congruence.
        rewrite lookup_insert_ne; [reflexivity|].
        specialize (Hk 0%nat ltac:(cbn; lia)). rewrite Nat.add_0_r in Hk. congruence.
      * exact Hx.
      * intros k Hlt. specialize (Hk (Datatypes.S k) ltac:(cbn; lia)).
        replace (i + Datatypes.S k)%nat with (Datatypes.S i + k)%nat in Hk by lia. exact Hk.
Qed.





(** ** Signalling *)

(** C4 fails on the code: [interrupt] writes an uninitialised local.  When
    that local happens to hold 0 the counter of the wake channel does not
    move, and the next [select] reports nothing. *)
Theorem C4_interrupt_zero_no_wake :
  exists os',
    (h <- init 4 2 16 ;; interrupt h 0 ;;; select h 0) os0 = Ret 0 os' /\
    fds os' !! 4 = Some (KEventfd 0 true) /\
    fds os' !! 3 = Some (KEpoll [(4, wake_event)]) /\
    heap os' !! events_addr 4096 = Some (BEvents [None; None; None; None]).
Proof.
  eexists. split; [vm_compute; reflexivity|].
  split; [reflexivity|]. split; vm_compute; reflexivity.
Qed.

(** When only the wake channel is ready, the ready list is its one event. *)
Lemma ready_only_wake t w l ev :
  wake_once w l ->
  (forall p, In p l -> fst p <> w -> Sys.report t p = None) ->
  Sys.report t (w, wake_event) = Some ev ->
  Sys.ready_events t l = [ev].
Proof.
  unfold wake_once, Sys.ready_events. intros Hw Hidle Hrep.
  induction l as [|[k e] l IH]; [discriminate|].
  cbn [entries_of List.filter fst] in Hw. cbn [omap list_omap].
  destruct (k =? w) eqn:E.
  - apply Z.eqb_eq in E. subst k. injection Hw as -> Hrest.
    rewrite Hrep. f_equal. apply omap_none. intros p Hp. apply Hidle; [right; exact Hp|].
    intros Hk.
    assert (Hin : In p (entries_of w l)).
    { apply filter_In. split; [exact Hp|]. apply Z.eqb_eq. exact Hk. }
    unfold entries_of in Hin. rewrite Hrest in Hin. destruct Hin.
  - apply Z.eqb_neq in E. rewrite (Hidle (k, e) (or_introl eq_refl) E).
    apply IH; [exact Hw|]. intros p Hp. apply Hidle. right. exact Hp.
Qed.

(** When the uninitialised local of [interrupt] holds a value the counter
    can take, the wake-up is recorded: a [select] that follows returns at
    once with the reserved tag in the first record of the event array. *)
Lemma interrupt_wakes h st l cells cnt d timeout os :
  heap os !! h = Some (BState st) ->
  fds os !! st_fd st = Some (KEpoll l) ->
  fds os !! st_efd st = Some (KEventfd cnt true) ->
  heap os !! st_events st = Some (BEvents cells) ->
  Z.of_nat (length cells) = st_max_events st ->
  0 < st_max_events st <= Sys.EP_MAX_EVENTS ->
  wake_once (st_efd st) l ->
  (forall p, In p l -> fst p <> st_efd st -> Sys.report (fds os) p = None) ->
  0 <= cnt -> 0 < to_u64 d < Sys.ULLONG_MAX - cnt ->
  exists os',
    interrupt h d os = Ret tt os' /\
    select h timeout os' =
    Ret 1 (set_heap (<[st_events st := BEvents (Some (mk_epoll_event EPOLLIN 0) :: drop 1 cells)]>
                       (heap os')) os').
Proof.
  intros Hst Hep Hfd Hev Hlen Hmax Hwake Hidle Hcnt Hd.
  destruct (interrupt_spec h st cnt d os Hst Hfd) as (os1 & c1 & E1 & Hh1 & Hf1 & Hc1 & _).
  specialize (Hc1 Hcnt ltac:(lia)). subst c1.
  exists os1. split; [exact E1|].
  assert (Hne : st_fd st <> st_efd st).
  { intros E. rewrite E, Hfd in Hep. discriminate. }
  assert (Hrdy : Sys.ready_events (fds os1) l = [mk_epoll_event EPOLLIN 0]).
  { apply (ready_only_wake _ (st_efd st)); [exact Hwake| |].
    - intros [k e] Hp Hk. specialize (Hidle _ Hp Hk).
      unfold Sys.report in *. cbn [fst snd] in *.
      rewrite Hf1, lookup_insert_ne by congruence. exact Hidle.
    - unfold Sys.report. cbn [fst snd]. rewrite Hf1, lookup_insert_eq.
      cbn [Sys.ready_mask].
      assert (Hpos : (0 <? cnt + to_u64 d) = true) by (apply Z.ltb_lt; lia).
      rewrite Hpos.
      destruct (cnt + to_u64 d <? Sys.ULLONG_MAX - 1); reflexivity. }
  assert (Hst1 : heap os1 !! h = Some (BState st)) by (rewrite Hh1; exact Hst).
  assert (Hep1 : fds os1 !! st_fd st = Some (KEpoll l)).
  { rewrite Hf1, lookup_insert_ne by congruence. exact Hep. }
  assert (Hev1 : heap os1 !! st_events st = Some (BEvents cells)) by (rewrite Hh1; exact Hev).
  destruct (select_spec h st l cells timeout os1 Hst1 Hep1 Hev1 Hlen Hmax) as [_ E].
  rewrite E, Hrdy.
  rewrite take_ge by (cbn [length]; lia).
  reflexivity.
Qed.

(** * Further properties of the binding *)

(** ** The event array *)

(** X1: on a handle made by [init a b c] and used in any way since,
    [getEventArrayAddress] changes nothing and returns the address of the
    array [init] allocated, which is still live and holds [a] records of
    [getEpollEventSize] bytes each. *)
Theorem X1_event_array_address a b c cs os h os' :
  os_wf os ->
  0 <= a < 2 ^ 31 -> 0 <= b < 2 ^ 31 -> 0 <= c < 2 ^ 31 ->
  init_bytes a b c <= mem_avail os ->
  lifetime a b c cs os = Ret h os' ->
  getEventArrayAddress h os' = Ret (events_addr (brk os)) os' /\
  exists cells,
    heap os' !! events_addr (brk os) = Some (BEvents cells) /\
    Z.of_nat (length cells) = a /\
    block_size (BEvents cells) = a * Java_org_jetlang_epoll_EPoll_getEpollEventSize.
Proof.
  intros Hwf Ha Hb Hc Hmem H.
  destruct (lifetime_pool _ _ _ _ _ _ _ Hwf Ha Hb Hc Hmem H)
    as (-> & _ & _ & (cells & Hev & Hlen) & Hst).
  split.
  - unfold Java_org_jetlang_epoll_EPoll_getEventArrayAddress.
    rewrite (bind_ret _ _ _ _ _ (load_state_ret _ _ _ Hst)). reflexivity.
  - exists cells. split; [exact Hev|]. split; [exact Hlen|].
    cbn [block_size]. unfold Java_org_jetlang_epoll_EPoll_getEpollEventSize. lia.
Qed.

Lemma X1_event_array_address_witness :
  getEventArrayAddress 4096 demo_end = Ret 4144 demo_end /\
  exists cells, heap demo_end !! 4144 = Some (BEvents cells) /\
                Z.of_nat (length cells) = 4 /\
                block_size (BEvents cells) = 4 * 12.
Proof.
  apply (X1_event_array_address 4 2 16 demo_calls os_udp 4096 demo_end os_udp_wf);
    [lia | lia | lia | vm_compute; discriminate | exact demo_lifetime].
Defined.

(** ** What the calls on a live handle leave alone *)

Lemma block_size_shape b : block_size (block_shape b) = block_size b.
Proof.
  destruct b; cbn [block_shape block_size];
    rewrite ?length_replicate, ?length_fmap; reflexivity.
Qed.

(** X2: no sequence of calls on a handle, short of [freeNativeMemory],
    frees or resizes a block: every block live before is live after, at its
    size, and state blocks and scatter/gather descriptors (of this handle or
    any other) keep their content. *)
Theorem X2_calls_keep_blocks h cs os os' :
  os_wf os ->
  session h cs os = Ret tt os' ->
  os_wf os' /\
  (forall p st, heap os !! p = Some (BState st) -> heap os' !! p = Some (BState st)) /\
  (forall p io, heap os !! p = Some (BIovec io) -> heap os' !! p = Some (BIovec io)) /\
  (forall p blk, heap os !! p = Some blk ->
     exists blk', heap os' !! p = Some blk' /\ block_size blk' = block_size blk).
Proof.
  intros Hwf H.
  destruct (session_frame _ _ _ _ H Hwf) as (Hwf' & Hshape & _).
  split; [exact Hwf'|]. split; [|split].
  - intros p st Hp. eapply state_mono; eassumption.
  - intros p io Hp. destruct (shape_mono _ _ _ _ Hshape Hp) as (b' & Hb & E).
    destruct b'; cbn in E; try discriminate. rewrite Hb, E. reflexivity.
  - intros p blk Hp. destruct (shape_mono _ _ _ _ Hshape Hp) as (b' & Hb & E).
    exists b'. split; [exact Hb|].
    rewrite <- (block_size_shape b'), E. apply block_size_shape.
Qed.

Lemma X2_calls_keep_blocks_witness :
  os_wf demo_end /\
  (forall p st, heap fresh_end !! p = Some (BState st) -> heap demo_end !! p = Some (BState st)) /\
  (forall p io, heap fresh_end !! p = Some (BIovec io) -> heap demo_end !! p = Some (BIovec io)) /\
  (forall p blk, heap fresh_end !! p = Some blk ->
     exists blk', heap demo_end !! p = Some blk' /\ block_size blk' = block_size blk).
Proof.
  apply (X2_calls_keep_blocks 4096 demo_calls fresh_end demo_end fresh_end_wf).
  vm_compute. reflexivity.
Defined.

(** ** Destruction after use *)

Lemma release_lookup p hp x b : release p hp !! x = Some b -> hp !! x = Some b.
Proof.
  unfold release. destruct (p =? 0); [auto|].
  intros H. apply lookup_delete_Some in H as [_ H]. exact H.
Qed.

Lemma free_inv p os os' :
  Libc.free p os = Ret tt os' ->
  heap os' = release p (heap os) /\ brk os' = brk os /\ fds os' = fds os /\
  stdout os' = stdout os.
Proof.
  unfold Libc.free, release. destruct (p =? 0).
  - intros [= <-]. auto.
  - destruct (heap os !! p); [|discriminate]. intros [= <-]. auto.
Qed.

Lemma close_inv fd os r os' :
  Sys.close fd os = Ret r os' ->
  heap os' = heap os /\ brk os' = brk os /\ stdout os' = stdout os /\
  mem_avail os' = mem_avail os /\
  fds os' !! fd = None /\
  (forall k, fds os !! k = None -> fds os' !! k = None).
Proof.
  unfold Sys.close, fail. destruct (fds os !! fd) as [o|] eqn:E.
  - intros [= <- <-]. os_simpl. repeat (split; [reflexivity|]). split.
    + rewrite lookup_fmap, lookup_delete_eq. reflexivity.
    + intros k Hk. rewrite lookup_fmap.
      destruct (decide (k = fd)) as [->|Hne];
        [rewrite lookup_delete_eq | rewrite lookup_delete_ne, Hk by congruence]; reflexivity.
  - intros [= <- <-]. os_simpl. repeat (split; [reflexivity|]). auto.
Qed.

(** Whenever [freeNativeMemory] returns it has closed the two descriptors
    of the state block and freed five pointers, read in this order: the
    event array, the buffer and the scatter/gather descriptor of slot 0, the
    vector of headers, the state block. *)
Lemma freeNativeMemory_inv h os os' :
  freeNativeMemory h os = Ret tt os' ->
  exists st v m io,
    heap os !! h = Some (BState st) /\
    heap os !! st_udp_rcv st = Some (BMsgVec v) /\
    v !! 0%nat = Some m /\
    heap os !! msg_iov (msg_hdr m) = Some (BIovec io) /\
    heap os' = release h
                 (release (st_udp_rcv st)
                    (release (msg_iov (msg_hdr m))
                       (release (iov_base io)
                          (release (st_events st) (heap os))))) /\
    brk os' = brk os /\ stdout os' = stdout os /\
    fds os' !! st_fd st = None /\ fds os' !! st_efd st = None /\
    (forall k, fds os !! k = None -> fds os' !! k = None).
Proof.
  unfold Java_org_jetlang_epoll_EPoll_freeNativeMemory. intros H.
  apply bind_inv in H as (st & os1 & H1 & H). apply load_state_inv in H1 as [-> Hst].
  apply bind_inv in H as (r1 & os1 & H1 & H).
  apply close_inv in H1 as (Hh1 & Hb1 & Ho1 & _ & Hc1 & Hk1).
  apply bind_inv in H as (st2 & os2 & H2 & H). apply load_state_inv in H2 as [-> Hst2].
  rewrite Hh1, Hst in Hst2. injection Hst2 as <-.
  apply bind_inv in H as (r2 & os2 & H2 & H).
  apply close_inv in H2 as (Hh2 & Hb2 & Ho2 & _ & Hc2 & Hk2).
  apply bind_inv in H as (st3 & os3 & H3 & H). apply load_state_inv in H3 as [-> Hst3].
  rewrite Hh2, Hh1, Hst in Hst3. injection Hst3 as <-.
  apply bind_inv in H as ([] & os3 & H3 & H).
  apply free_inv in H3 as (Hh3 & Hb3 & Hf3 & Ho3). rewrite Hh2, Hh1 in Hh3.
  apply bind_inv in H as (st4 & os4 & H4 & H). apply load_state_inv in H4 as [-> Hst4].
  rewrite Hh3 in Hst4. apply release_lookup in Hst4.
  rewrite Hst in Hst4. injection Hst4 as <-.
  apply bind_inv in H as (m & os4 & H4 & H).
  apply load_mmsghdr_inv in H4 as [-> (v & Hv & _ & Hm)].
  rewrite Hh3 in Hv. pose proof (release_lookup _ _ _ _ Hv) as Hv0.
  apply bind_inv in H as (io & os4 & H4 & H). apply load_iovec_inv in H4 as [-> Hio].
  rewrite Hh3 in Hio. pose proof (release_lookup _ _ _ _ Hio) as Hio0.
  apply bind_inv in H as ([] & os4 & H4 & H).
  apply free_inv in H4 as (Hh4 & Hb4 & Hf4 & Ho4). rewrite Hh3 in Hh4.
  apply bind_inv in H as (st5 & os5 & H5 & H). apply load_state_inv in H5 as [-> Hst5].
  rewrite Hh4 in Hst5. do 2 apply release_lookup in Hst5.
  rewrite Hst in Hst5. injection Hst5 as <-.
  apply bind_inv in H as (m5 & os5 & H5 & H).
  apply load_mmsghdr_inv in H5 as [-> (v5 & Hv5 & _ & Hm5)].
  rewrite Hh4 in Hv5. do 2 apply release_lookup in Hv5.
  rewrite Hv0 in Hv5. injection Hv5 as <-.
  rewrite Hm in Hm5. injection Hm5 as <-.
  apply bind_inv in H as ([] & os5 & H5 & H).
  apply free_inv in H5 as (Hh5 & Hb5 & Hf5 & Ho5). rewrite Hh4 in Hh5.
  apply bind_inv in H as (st6 & os6 & H6 & H). apply load_state_inv in H6 as [-> Hst6].
  rewrite Hh5 in Hst6. do 3 apply release_lookup in Hst6.
  rewrite Hst in Hst6. injection Hst6 as <-.
  apply bind_inv in H as ([] & os6 & H6 & H).
  apply free_inv in H6 as (Hh6 & Hb6 & Hf6 & Ho6). rewrite Hh5 in Hh6.
  apply free_inv in H as (Hh7 & Hb7 & Hf7 & Ho7). rewrite Hh6 in Hh7.
  exists st, v, m, io.
  split; [exact Hst|]. split; [exact Hv0|]. split; [exact Hm|]. split; [exact Hio0|].
  split; [exact Hh7|]. split; [congruence|]. split; [congruence|].
  rewrite Hf7, Hf6, Hf5, Hf4, Hf3.
  split; [apply Hk2, Hc1|]. split; [exact Hc2|].
  intros k Hk. apply Hk2, Hk1, Hk.
Qed.

(** X3: destroying a handle that was made by [init a b c] with at least
    one slot, after any use.  [freeNativeMemory] returns; both descriptors
    of the state block are closed; exactly five blocks are freed: the event
    array, the buffer and the scatter/gather descriptor of slot 0, the
    vector of headers and the state block.  Whatever else was allocated, the
    other slots of the pool and every record a [ctl] call returned, stays
    allocated: of the bytes [init] took, [(b - 1) * (c + 16)] are not given
    back. *)
Theorem X3_destroy_after_use a b c cs os h os1 :
  os_wf os ->
  0 <= a < 2 ^ 31 -> 1 <= b < 2 ^ 31 -> 0 <= c < 2 ^ 31 ->
  init_bytes a b c <= mem_avail os ->
  lifetime a b c cs os = Ret h os1 ->
  exists os' st,
    freeNativeMemory h os1 = Ret tt os' /\
    heap os1 !! h = Some (BState st) /\
    fds os' !! st_fd st = None /\ fds os' !! st_efd st = None /\
    heap os' = delete h
                 (delete (vec_addr (brk os) a)
                    (delete (io_addr (brk os) a b c 0)
                       (delete (buf_addr (brk os) a b c 0)
                          (delete (events_addr (brk os)) (heap os1))))) /\
    (forall i, 1 <= i < b ->
       is_Some (heap os' !! buf_addr (brk os) a b c i) /\
       is_Some (heap os' !! io_addr (brk os) a b c i)) /\
    (forall p e, heap os1 !! p = Some (BEvent e) -> heap os' !! p = Some (BEvent e)) /\
    mem_avail os' = mem_avail os1 + init_bytes a b c - (b - 1) * (c + sizeof_iovec).
Proof.
  intros Hwf Ha Hb Hc Hmem H.
  assert (Hb0 : 0 <= b < 2 ^ 31) by lia.
  destruct (lifetime_pool _ _ _ _ _ _ _ Hwf Ha Hb0 Hc Hmem H)
    as (-> & Hwf1 & Hpool & (cells & Hev & Hlev) & Hst).
  destruct (init_fds (fds os) (fd_limit os)) as [[e w] t]. cbn [fst snd] in Hst.
  destruct Hpool as [(v & Hv & Ev) Hio Hbuf].
  pose proof (wf_brk _ Hwf) as Hbrk.
  assert (Hz : 0 <= 0 < b) by lia.
  pose proof (Hio 0 Hz) as Hio0.
  destruct (Hbuf 0 Hz) as (cells0 & Hbuf0 & Hlb0).
  pose proof (pool_at_length _ _ _ _ _ Ev) as Hl.
  assert (Hlt : (0 < length v)%nat) by lia.
  destruct (lookup_lt_is_Some_2 v 0%nat Hlt) as [m Hm].
  destruct (pool_at_header _ _ _ _ _ _ _ Ev Hm) as (_ & Hiov & _).
  change (Z.of_nat 0) with 0 in Hiov.
  destruct (layout_order (brk os) a b c) as (O1 & O2 & O3 & O4 & O5).
  assert (Hrun : exists os',
            freeNativeMemory (brk os) os1 = Ret tt os' /\
            heap os' = delete (brk os)
                 (delete (vec_addr (brk os) a)
                    (delete (io_addr (brk os) a b c 0)
                       (delete (buf_addr (brk os) a b c 0)
                          (delete (events_addr (brk os)) (heap os1))))) /\
            mem_avail os'
            = mem_avail os1 + block_size (BEvents cells) + block_size (BBytes cells0)
              + sizeof_iovec + block_size (BMsgVec v) + sizeof_epoll_state).
  { unfold Java_org_jetlang_epoll_EPoll_freeNativeMemory.
    rewrite (bind_ret _ _ _ _ _ (load_state_ret _ _ _ Hst)). cbn [st_fd].
    destruct (close_total e os1) as (r1 & os2 & E2 & Hh2). rewrite (bind_ret _ _ _ _ _ E2).
    erewrite bind_ret; [|apply load_state_ret; rewrite Hh2; exact Hst]. cbn [st_efd].
    destruct (close_total w os2) as (r2 & os3 & E3 & Hh3). rewrite (bind_ret _ _ _ _ _ E3).
    rewrite Hh2 in Hh3.
    apply close_inv in E2 as (_ & _ & _ & Hm2 & _).
    apply close_inv in E3 as (_ & _ & _ & Hm3 & _). rewrite Hm2 in Hm3.
    erewrite bind_ret; [|apply load_state_ret; rewrite Hh3; exact Hst]. cbn [st_events].
    erewrite bind_ret; [|apply free_ret; [rewrite Hh3; exact Hev | lia]].
    erewrite bind_ret;
      [|apply load_state_ret; os_simpl; rewrite Hh3, lookup_delete_ne by lia; exact Hst].
    cbn [st_udp_rcv].
    erewrite bind_ret;
      [|eapply load_mmsghdr_ret;
        [os_simpl; rewrite Hh3, lookup_delete_ne by lia; exact Hv | lia | exact Hm]].
    rewrite Hiov.
    erewrite bind_ret;
      [|apply load_iovec_ret; os_simpl; rewrite Hh3, lookup_delete_ne by lia; exact Hio0].
    cbn [iov_base].
    erewrite bind_ret;
      [|apply free_ret; os_simpl; [rewrite Hh3, lookup_delete_ne by lia; exact Hbuf0 | lia]].
    erewrite bind_ret;
      [|apply load_state_ret; os_simpl; rewrite Hh3, !lookup_delete_ne by lia; exact Hst].
    cbn [st_udp_rcv].
    erewrite bind_ret;
      [|eapply load_mmsghdr_ret;
        [os_simpl; rewrite Hh3, !lookup_delete_ne by lia; exact Hv | lia | exact Hm]].
    rewrite Hiov.
    erewrite bind_ret;
      [|apply free_ret; os_simpl; [rewrite Hh3, !lookup_delete_ne by lia; exact Hio0 | lia]].
    erewrite bind_ret;
      [|apply load_state_ret; os_simpl; rewrite Hh3, !lookup_delete_ne by lia; exact Hst].
    cbn [st_udp_rcv].
    erewrite bind_ret;
      [|apply free_ret; os_simpl; [rewrite Hh3, !lookup_delete_ne by lia; exact Hv | lia]].
    erewrite free_ret;
      [|os_simpl; rewrite Hh3, !lookup_delete_ne by lia; exact Hst | lia].
    eexists. split; [reflexivity|]. os_simpl. rewrite Hh3, Hm3. split; reflexivity. }
  destruct Hrun as (os' & Erun & Hheap & Hmem').
  destruct (freeNativeMemory_inv _ _ _ Erun)
    as (st & v' & m' & io' & Hst' & _ & _ & _ & _ & _ & _ & Hc1 & Hc2 & _).
  exists os', st. split; [exact Erun|]. split; [exact Hst'|].
  split; [exact Hc1|]. split; [exact Hc2|]. split; [exact Hheap|]. split.
  - intros i Hi. assert (Hi1 : 1 <= i) by lia. assert (Hi0 : 0 <= i < b) by lia.
    destruct (O5 i Hi1) as [O6 O7].
    destruct (Hbuf i Hi0) as (ci & Hbi & _).
    rewrite Hheap, !lookup_delete_ne by lia. rewrite Hbi, (Hio i) by lia.
    split; eexists; reflexivity.
  - split.
    + intros p ev Hlive. rewrite Hheap.
      rewrite !lookup_delete_ne by (intros <-; congruence). exact Hlive.
    + rewrite Hmem'. cbn [block_size]. rewrite Hl, Z2Nat.id by lia.
      unfold init_bytes, sizeof_epoll_state, sizeof_epoll_event, sizeof_mmsghdr, sizeof_iovec.
      lia.
Qed.

Lemma X3_destroy_after_use_witness :
  exists os',
    freeNativeMemory 4096 demo_end = Ret tt os' /\
    fds os' !! 3 = None /\ fds os' !! 4 = None /\
    heap os' !! 4384 = Some (BEvent (mk_epoll_event 1 7)).
Proof.
  destruct (X3_destroy_after_use 4 2 16 demo_calls os_udp 4096 demo_end os_udp_wf)
    as (os' & st & E & Hst & F1 & F2 & _ & _ & Hev & _);
    [lia | lia | lia | vm_compute; discriminate | exact demo_lifetime |].
  exists os'. split; [exact E|].
  assert (Est : st = mk_epoll_state 3 4 4144 4 wake_event 2 4192).
  { assert (Hd : heap demo_end !! 4096
                 = Some (BState (mk_epoll_state 3 4 4144 4 wake_event 2 4192)))
      by (vm_compute; reflexivity).
    congruence. }
  subst st. split; [exact F1|]. split; [exact F2|].
  apply Hev. vm_compute. reflexivity.
Defined.

(** X4: nothing marks a handle as destroyed.  Once [freeNativeMemory] has
    returned the state block is gone, and every function of the binding
    called with the stale handle, [freeNativeMemory] included, reads through
    the dangling pointer; [ctl] first allocates its record (or stores
    through the null pointer when it cannot). *)
Theorem X4_use_after_destroy h os os' :
  os_wf os ->
  freeNativeMemory h os = Ret tt os' ->
  heap os' !! h = None /\
  (forall timeout, select h timeout os' = Fault BadPointer) /\
  getEventArrayAddress h os' = Fault BadPointer /\
  (forall idx, getReadBufferAddress h idx os' = Fault BadPointer) /\
  (forall fd, recvmmsg h fd os' = Fault BadPointer) /\
  (forall d, interrupt h d os' = Fault BadPointer) /\
  clearInterrupt h os' = Fault BadPointer /\
  freeNativeMemory h os' = Fault BadPointer /\
  (forall op eventTypes fd idx,
     ctl h op eventTypes fd idx os'
     = Fault (if sizeof_epoll_event <=? mem_avail os' then BadPointer else NullDeref)).
Proof.
  intros Hwf H.
  destruct (freeNativeMemory_inv _ _ _ H)
    as (st & v & m & io & Hst & _ & _ & _ & Hh & Hbrk & _).
  destruct (wf_below _ _ _ Hwf Hst) as [Hpos Hlt].
  assert (Hsub : forall x b, heap os' !! x = Some b -> heap os !! x = Some b).
  { intros x b Hx. rewrite Hh in Hx. do 5 apply release_lookup in Hx. exact Hx. }
  assert (Hgone : heap os' !! h = None).
  { rewrite Hh. unfold release at 1.
    assert (E : (h =? 0) = false) by (apply Z.eqb_neq; lia).
    rewrite E. apply lookup_delete_eq. }
  assert (Hload : forall os2, heap os2 !! h = None -> load_state h os2 = Fault BadPointer).
  { intros os2 E. unfold load_state, deref, bind. rewrite E.
    assert (E0 : (h =? 0) = false) by (apply Z.eqb_neq; lia).
    rewrite E0. reflexivity. }
  split; [exact Hgone|].
  repeat split; intros; try (apply bind_fault, Hload, Hgone).
  unfold Java_org_jetlang_epoll_EPoll_ctl.
  destruct (sizeof_epoll_event <=? mem_avail os') eqn:Em.
  - apply Z.leb_le in Em.
    erewrite bind_ret; [|apply malloc_ret; [unfold sizeof_epoll_event, PTRDIFF_MAX; lia | exact Em]].
    erewrite bind_ret; [|apply store_event_ret; os_simpl; apply lookup_insert_eq].
    erewrite bind_ret; [|apply store_event_ret; os_simpl; apply lookup_insert_eq].
    apply bind_fault, Hload. os_simpl.
    rewrite !lookup_insert_ne by lia. exact Hgone.
  - apply Z.leb_gt in Em.
    erewrite bind_ret; [|apply malloc_null; exact Em].
    apply bind_fault. unfold store_event. apply bind_fault.
    unfold load_event. apply bind_fault. unfold deref. os_simpl.
    destruct (heap os' !! 0) as [b0|] eqn:E0; [|reflexivity].
    apply Hsub in E0. rewrite (wf_fresh _ Hwf) in E0 by lia. discriminate.
Qed.

Lemma X4_use_after_destroy_witness :
  select 4096 0 destroyed_end = Fault BadPointer /\
  freeNativeMemory 4096 destroyed_end = Fault BadPointer /\
  ctl 4096 EPOLL_CTL_ADD EPOLLIN 5 7 destroyed_end = Fault BadPointer.
Proof.
  destruct (X4_use_after_destroy 4096 fresh_end destroyed_end fresh_end_wf)
    as (_ & H1 & _ & _ & _ & _ & _ & H2 & H3); [vm_compute; reflexivity|].
  split; [apply H1|]. split; [exact H2|]. apply (H3 EPOLL_CTL_ADD EPOLLIN 5 7).
Defined.

(** ** The diagnostic line of [recvmmsg] *)

Lemma recvmmsg_sys_stdout sockfd vecp vlen os r os' :
  Sys.recvmmsg sockfd vecp vlen os = Ret r os' -> stdout os' = stdout os.
Proof.
  unfold Sys.recvmmsg, fail.
  destruct (fds os !! sockfd) as [[|c nb|nb [e|] q|]|]; try (intros [= <- <-]; reflexivity).
  destruct (Sys.recv_loop nb vecp (to_u32 vlen) 0 q (heap os)) as [n [e|] q' h'|];
    [| |discriminate].
  - destruct (n =? 0); intros [= <- <-]; reflexivity.
  - intros [= <- <-]. reflexivity.
Qed.

(** X5: [recvmmsg] prints one line, with the result, [errno] as the system
    call left it and the descriptor, on every return whose result is not 1,
    a batch of two or more datagrams included, and prints nothing when
    exactly one datagram was received. *)
Theorem X5_recvmmsg_prints h fd os r os' :
  recvmmsg h fd os = Ret r os' ->
  stdout os' = if r =? 1 then stdout os
               else stdout os ++ [OutResult r (errno os') fd].
Proof.
  unfold Java_org_jetlang_epoll_EPoll_recvmmsg. intros H.
  apply bind_inv in H as (st & os1 & H1 & H). apply load_state_inv in H1 as [-> Hst].
  apply bind_inv in H as (res & os1 & H1 & H).
  apply recvmmsg_sys_stdout in H1.
  apply bind_inv in H as ([] & os2 & H2 & H). injection H as <- <-.
  destruct (res =? 1).
  - injection H2 as <-. exact H1.
  - unfold get_errno, Libc.printf, bind in H2. injection H2 as <-. os_simpl.
    rewrite H1. reflexivity.
Qed.

Lemma X5_recvmmsg_prints_witness :
  exists os', recvmmsg 4096 5 fresh_end = Ret 2 os' /\
              stdout os' = stdout fresh_end ++ [OutResult 2 0 5].
Proof.
  destruct (recvmmsg 4096 5 fresh_end) as [r os'| |] eqn:E; try (vm_compute in E; discriminate).
  assert (Hr : r = 2) by (vm_compute in E; congruence). subst r.
  exists os'. split; [reflexivity|].
  rewrite (X5_recvmmsg_prints 4096 5 fresh_end 2 os' E).
  assert (He : errno os' = 0) by (vm_compute in E; injection E as <-; reflexivity).
  rewrite He. reflexivity.
Defined.

(** ** The wake channel is level-triggered *)

Lemma select_idle h st l timeout os :
  heap os !! h = Some (BState st) ->
  fds os !! st_fd st = Some (KEpoll l) ->
  0 < st_max_events st <= Sys.EP_MAX_EVENTS ->
  Sys.ready_events (fds os) l = [] ->
  select h timeout os = if timeout <? 0 then Blocks else Ret 0 os.
Proof.
  intros Hst Hep Hmax Hnone.
  unfold Java_org_jetlang_epoll_EPoll_select.
  rewrite (bind_ret _ _ _ _ _ (load_state_ret _ _ _ Hst)).
  unfold Sys.epoll_wait, bind.
  assert (Hok : (st_max_events st <=? 0) || (Sys.EP_MAX_EVENTS <? st_max_events st) = false).
  { apply orb_false_iff. split; [apply Z.leb_gt | apply Z.ltb_ge]; lia. }
  rewrite Hok, Hep, Hnone, take_nil.
  destruct (timeout <? 0); reflexivity.
Qed.

(** Changing the counter of the wake channel changes no other report. *)
Lemma report_other_counter t w c nb p :
  fst p <> w -> Sys.report (<[w := KEventfd c nb]> t) p = Sys.report t p.
Proof.
  intros Hne. unfold Sys.report. rewrite lookup_insert_ne by congruence. reflexivity.
Qed.

Lemma wake_ready t w l c :
  wake_once w l ->
  (forall p, In p l -> fst p <> w -> Sys.report t p = None) ->
  Sys.ready_events (<[w := KEventfd c true]> t) l
  = if 0 <? c then [mk_epoll_event EPOLLIN 0] else [].
Proof.
  intros Hw Hidle.
  assert (Hidle' : forall p, In p l -> fst p <> w ->
                     Sys.report (<[w := KEventfd c true]> t) p = None).
  { intros p Hp Hne. rewrite report_other_counter by exact Hne. apply Hidle; assumption. }
  destruct (0 <? c) eqn:Ec.
  - apply (ready_only_wake _ w); [exact Hw | exact Hidle' |].
    unfold Sys.report. cbn [fst snd]. rewrite lookup_insert_eq.
    cbn [Sys.ready_mask]. rewrite Ec.
    destruct (c <? Sys.ULLONG_MAX - 1); reflexivity.
  - apply omap_none. intros [k ev] Hp.
    destruct (decide (k = w)) as [->|Hk]; [|apply Hidle'; [exact Hp | exact Hk]].
    assert (Hin : In (w, ev) (entries_of w l)).
    { apply filter_In. split; [exact Hp|]. cbn [fst]. apply Z.eqb_refl. }
    rewrite Hw in Hin. destruct Hin as [Hin|[]]. injection Hin as <-.
    unfold Sys.report. cbn [fst snd]. rewrite lookup_insert_eq.
    cbn [Sys.ready_mask]. rewrite Ec.
    destruct (c <? Sys.ULLONG_MAX - 1); reflexivity.
Qed.

(** X6: a recorded wake-up stays pending until it is cleared.  After an
    [interrupt] that moved the counter, with no other registered descriptor
    ready, [select] returns 1 with the reserved tag in record 0 of the event
    array; a second [select] returns the same and changes nothing; only
    [clearInterrupt] ends it, after which [select] reports nothing. *)
Theorem X6_wake_stays_until_cleared h st l cells cnt d timeout os :
  heap os !! h = Some (BState st) ->
  fds os !! st_fd st = Some (KEpoll l) ->
  fds os !! st_efd st = Some (KEventfd cnt true) ->
  heap os !! st_events st = Some (BEvents cells) ->
  Z.of_nat (length cells) = st_max_events st ->
  0 < st_max_events st <= Sys.EP_MAX_EVENTS ->
  wake_once (st_efd st) l ->
  (forall p, In p l -> fst p <> st_efd st -> Sys.report (fds os) p = None) ->
  0 <= cnt -> 0 < to_u64 d < Sys.ULLONG_MAX - cnt ->
  exists os1 os2 os3,
    interrupt h d os = Ret tt os1 /\
    select h timeout os1 = Ret 1 os2 /\
    heap os2 !! st_events st
      = Some (BEvents (Some (mk_epoll_event EPOLLIN 0) :: drop 1 cells)) /\
    select h timeout os2 = Ret 1 os2 /\
    clearInterrupt h os2 = Ret tt os3 /\
    select h timeout os3 = if timeout <? 0 then Blocks else Ret 0 os3.
Proof.
  intros Hst Hep Hfd Hev Hlen Hmax Hwake Hidle Hcnt Hd.
  destruct (interrupt_spec h st cnt d os Hst Hfd) as (os1 & c1 & E1 & Hh1 & Hf1 & Hc1 & _).
  assert (Hdlt : to_u64 d < Sys.ULLONG_MAX - cnt) by lia.
  specialize (Hc1 Hcnt Hdlt). subst c1.
  assert (Hne : st_fd st <> st_efd st).
  { intros E. rewrite E, Hfd in Hep. discriminate. }
  assert (Hpos : (0 <? cnt + to_u64 d) = true) by (apply Z.ltb_lt; lia).
  pose proof (wake_ready (fds os) (st_efd st) l (cnt + to_u64 d) Hwake Hidle) as Hrdy.
  rewrite Hpos in Hrdy.
  set (cells' := Some (mk_epoll_event EPOLLIN 0) :: drop 1 cells).
  set (os2 := set_heap (<[st_events st := BEvents cells']> (heap os1)) os1).
  assert (Hsel : forall cs o,
            heap o !! h = Some (BState st) ->
            fds o = fds os1 ->
            heap o !! st_events st = Some (BEvents cs) ->
            length cs = length cells ->
            select h timeout o
            = Ret 1 (set_heap (<[st_events st :=
                                   BEvents (Some (mk_epoll_event EPOLLIN 0) :: drop 1 cs)]>
                                 (heap o)) o)).
  { intros cs o Hso Hfo Heo Hlo.
    assert (Hepo : fds o !! st_fd st = Some (KEpoll l)).
    { rewrite Hfo, Hf1, lookup_insert_ne by congruence. exact Hep. }
    assert (Hleno : Z.of_nat (length cs) = st_max_events st) by lia.
    destruct (select_spec h st l cs timeout o Hso Hepo Heo Hleno Hmax) as [_ E].
    rewrite E, Hfo, Hf1, Hrdy.
    rewrite take_ge by (cbn [length]; lia). reflexivity. }
  assert (Hst1 : heap os1 !! h = Some (BState st)) by (rewrite Hh1; exact Hst).
  assert (Hev1 : heap os1 !! st_events st = Some (BEvents cells)) by (rewrite Hh1; exact Hev).
  assert (Hhe : h <> st_events st).
  { intros E. rewrite E, Hev in Hst. discriminate. }
  assert (Hst2 : heap os2 !! h = Some (BState st)).
  { subst os2. os_simpl. rewrite lookup_insert_ne by congruence. exact Hst1. }
  assert (Hev2 : heap os2 !! st_events st = Some (BEvents cells')).
  { subst os2. os_simpl. apply lookup_insert_eq. }
  assert (Hlen2 : length cells' = length cells).
  { subst cells'. cbn [length]. rewrite length_drop. lia. }
  destruct (clearInterrupt_spec h st (cnt + to_u64 d) os2 Hst2) as (os3 & E3 & Hh3 & Hf3).
  { subst os2. os_simpl. rewrite Hf1. apply lookup_insert_eq. }
  exists os1, os2, os3.
  split; [exact E1|].
  split; [apply (Hsel cells os1 Hst1 eq_refl Hev1 eq_refl)|].
  split; [exact Hev2|].
  split.
  - rewrite (Hsel cells' os2 Hst2 eq_refl Hev2 Hlen2).
    f_equal. subst os2 cells'. unfold set_heap. os_simpl.
    cbn [drop]. rewrite drop_0, insert_insert_eq. reflexivity.
  - split; [exact E3|].
    apply (select_idle h st l timeout os3).
    + rewrite Hh3. exact Hst2.
    + rewrite Hf3. subst os2. os_simpl.
      rewrite Hf1, !lookup_insert_ne by congruence. exact Hep.
    + exact Hmax.
    + rewrite Hf3. subst os2. os_simpl. rewrite Hf1, insert_insert_eq.
      rewrite (wake_ready (fds os) (st_efd st) l 0 Hwake Hidle). reflexivity.
Qed.

Lemma X6_wake_stays_until_cleared_witness :
  exists os1 os2 os3,
    interrupt 4096 1 fresh_end = Ret tt os1 /\
    select 4096 0 os1 = Ret 1 os2 /\
    heap os2 !! 4144 = Some (BEvents [Some (mk_epoll_event EPOLLIN 0); None; None; None]) /\
    select 4096 0 os2 = Ret 1 os2 /\
    clearInterrupt 4096 os2 = Ret tt os3 /\
    select 4096 0 os3 = Ret 0 os3.
Proof.
  apply (X6_wake_stays_until_cleared 4096 (mk_epoll_state 3 4 4144 4 wake_event 2 4192)
           [(4, wake_event)] [None; None; None; None] 0 1 0 fresh_end).
  - reflexivity.
  - reflexivity.
  - reflexivity.
  - reflexivity.
  - reflexivity.
  - vm_compute. split; [reflexivity | discriminate].
  - reflexivity.
  - intros p [<-|[]] Hne. cbn in Hne. lia.
  - lia.
  - vm_compute. split; reflexivity.
Defined.

(** ** Registering a socket *)

Lemma ctl_run h st op eventTypes fd idx os :
  os_wf os ->
  heap os !! h = Some (BState st) ->
  sizeof_epoll_event <= mem_avail os ->
  ctl h op eventTypes fd idx os
  = (Sys.epoll_ctl (st_fd st) op fd (mk_epoll_event (to_u32 eventTypes) (to_u32 idx)) ;;;
     ret (brk os)) (ctl_mid eventTypes idx os).
Proof.
  intros Hwf Hst Hmem.
  pose proof (wf_below _ _ _ Hwf Hst) as Hh.
  unfold Java_org_jetlang_epoll_EPoll_ctl.
  erewrite bind_ret; [|apply malloc_ret; [unfold sizeof_epoll_event, PTRDIFF_MAX; lia | exact Hmem]].
  erewrite bind_ret; [|apply store_event_ret; os_simpl; apply lookup_insert_eq].
  os_simpl.
  erewrite bind_ret; [|apply store_event_ret; os_simpl; apply lookup_insert_eq].
  os_simpl.
  erewrite bind_ret;
    [|apply load_state_ret; os_simpl; rewrite !lookup_insert_ne by lia; exact Hst].
  erewrite bind_ret; [|apply load_event_ret; os_simpl; apply lookup_insert_eq].
  cbn [ev_events ev_data_u32 Libc.fresh_event epoll_event_zero].
  unfold ctl_mid. rewrite !insert_insert_eq. reflexivity.
Qed.

(** A change to an interest list changes no report: an epoll instance is
    never ready in this model. *)
Lemma report_other_interest t e l l' p :
  t !! e = Some (KEpoll l) ->
  Sys.report (<[e := KEpoll l']> t) p = Sys.report t p.
Proof.
  intros He. unfold Sys.report.
  destruct (decide (fst p = e)) as [->|Hne].
  - rewrite lookup_insert_eq, He. cbn [Sys.ready_mask]. rewrite !Z.land_0_r. reflexivity.
  - rewrite lookup_insert_ne by congruence. reflexivity.
Qed.

Lemma ready_other_interest t e l l' l0 :
  t !! e = Some (KEpoll l) ->
  Sys.ready_events (<[e := KEpoll l']> t) l0 = Sys.ready_events t l0.
Proof.
  intros He. unfold Sys.ready_events.
  induction l0 as [|p l0 IH]; [reflexivity|].
  cbn [omap list_omap]. rewrite (report_other_interest _ _ _ _ _ He), IH. reflexivity.
Qed.

(** X7: what [ctl] registers is what [select] reports.  After
    [ctl(ADD, EPOLLIN, fd, idx)] for a socket not yet registered that has a
    datagram waiting, the ready list is the one before followed by an event
    [EPOLLIN] that carries [idx] as a [u32]; with nothing else ready
    [select] returns 1 and that event is record 0 of the event array. *)
Theorem X7_registered_tag_reported h st l cells fd idx nb dg q timeout os :
  os_wf os ->
  heap os !! h = Some (BState st) ->
  sizeof_epoll_event <= mem_avail os ->
  fds os !! st_fd st = Some (KEpoll l) ->
  Sys.registered fd l = false ->
  fds os !! fd = Some (KUdp nb None (dg :: q)) ->
  heap os !! st_events st = Some (BEvents cells) ->
  Z.of_nat (length cells) = st_max_events st ->
  0 < st_max_events st <= Sys.EP_MAX_EVENTS ->
  exists os1 l1,
    ctl h EPOLL_CTL_ADD EPOLLIN fd idx os = Ret (brk os) os1 /\
    fds os1 !! st_fd st = Some (KEpoll l1) /\
    Sys.ready_events (fds os1) l1
    = Sys.ready_events (fds os) l ++ [mk_epoll_event EPOLLIN (to_u32 idx)] /\
    (Sys.ready_events (fds os) l = [] ->
     select h timeout os1
     = Ret 1 (set_heap (<[st_events st :=
                            BEvents (Some (mk_epoll_event EPOLLIN (to_u32 idx))
                                       :: drop 1 cells)]> (heap os1)) os1)).
Proof.
  intros Hwf Hst Hmem Hep Hreg Hfd Hev Hlen Hmax.
  pose proof (wf_below _ _ _ Hwf Hst) as Hh.
  pose proof (wf_below _ _ _ Hwf Hev) as He.
  assert (Hne : fd <> st_fd st).
  { intros E. rewrite E, Hep in Hfd. discriminate. }
  set (ev := mk_epoll_event (to_u32 EPOLLIN) (to_u32 idx)).
  set (l1 := l ++ [(fd, Sys.stored_event ev)]).
  set (os1 := set_fds (<[st_fd st := KEpoll l1]> (fds os)) (ctl_mid EPOLLIN idx os)).
  assert (Erun : ctl h EPOLL_CTL_ADD EPOLLIN fd idx os = Ret (brk os) os1).
  { rewrite (ctl_run h st _ _ _ _ os Hwf Hst Hmem).
    unfold Sys.epoll_ctl, bind. cbn [ctl_mid fds]. rewrite Hep, Hfd.
    unfold Sys.apply_ctl. rewrite Z.eqb_refl, Hreg. reflexivity. }
  assert (Hep1 : fds os1 !! st_fd st = Some (KEpoll l1)).
  { subst os1. os_simpl. cbn [ctl_mid fds]. apply lookup_insert_eq. }
  assert (Hrdy : Sys.ready_events (fds os1) l1
                 = Sys.ready_events (fds os) l ++ [mk_epoll_event EPOLLIN (to_u32 idx)]).
  { subst os1. os_simpl. cbn [ctl_mid fds].
    rewrite (ready_other_interest _ _ _ _ _ Hep).
    subst l1. unfold Sys.ready_events. rewrite omap_app. f_equal.
    cbn [omap list_omap]. unfold Sys.report. cbn [fst snd]. rewrite Hfd.
    destruct q; reflexivity. }
  exists os1, l1. split; [exact Erun|]. split; [exact Hep1|]. split; [exact Hrdy|].
  intros Hidle.
  assert (Hst1 : heap os1 !! h = Some (BState st)).
  { subst os1. os_simpl. cbn [ctl_mid heap]. rewrite lookup_insert_ne by lia. exact Hst. }
  assert (Hev1 : heap os1 !! st_events st = Some (BEvents cells)).
  { subst os1. os_simpl. cbn [ctl_mid heap]. rewrite lookup_insert_ne by lia. exact Hev. }
  destruct (select_spec h st l1 cells timeout os1 Hst1 Hep1 Hev1 Hlen Hmax) as [_ E].
  rewrite E, Hrdy, Hidle. cbn [app].
  rewrite take_ge by (cbn [length]; lia). reflexivity.
Qed.

Lemma X7_registered_tag_reported_witness :
  exists os1,
    ctl 4096 EPOLL_CTL_ADD EPOLLIN 5 (-1) fresh_end = Ret 4384 os1 /\
    select 4096 0 os1
    = Ret 1 (set_heap (<[4144 := BEvents [Some (mk_epoll_event EPOLLIN (2 ^ 32 - 1));
                                          None; None; None]]> (heap os1)) os1).
Proof.
  destruct (X7_registered_tag_reported 4096 (mk_epoll_state 3 4 4144 4 wake_event 2 4192)
              [(4, wake_event)] [None; None; None; None] 5 (-1) true [10; 11; 12] [[20; 21]]
              0 fresh_end fresh_end_wf)
    as (os1 & l1 & E & _ & _ & Hsel);
    try reflexivity.
  - vm_compute. discriminate.
  - vm_compute. split; [reflexivity | discriminate].
  - exists os1. split; [exact E|]. apply Hsel. reflexivity.
Defined.

Lemma filter_unregistered fd (l : list (Z * epoll_event)) :
  Sys.registered fd l = false ->
  List.filter (fun p => negb (fst p =? fd)) l = l.
Proof.
  unfold Sys.registered. induction l as [|p l IH]; [reflexivity|].
  cbn [existsb List.filter]. intros H. apply orb_false_iff in H as [H1 H2].
  rewrite H1. cbn [negb]. f_equal. apply IH, H2.
Qed.

(** X8: [ctl(ADD)] followed by [ctl(DEL)] for the same socket leaves the
    descriptor table, the interest list with it, as it was before the two
    calls (the event type and tag passed to the removal play no part), but
    not the heap: each call returned its own record and both stay
    allocated. *)
Theorem X8_add_then_del h st l fd eventTypes idx eventTypes' idx' nb err q os :
  os_wf os ->
  heap os !! h = Some (BState st) ->
  2 * sizeof_epoll_event <= mem_avail os ->
  fds os !! st_fd st = Some (KEpoll l) ->
  Sys.registered fd l = false ->
  fds os !! fd = Some (KUdp nb err q) ->
  exists os1 os2,
    ctl h EPOLL_CTL_ADD eventTypes fd idx os = Ret (brk os) os1 /\
    fds os1 !! st_fd st
      = Some (KEpoll (l ++ [(fd, Sys.stored_event
                                   (mk_epoll_event (to_u32 eventTypes) (to_u32 idx)))])) /\
    ctl h EPOLL_CTL_DEL eventTypes' fd idx' os1 = Ret (brk os + sizeof_epoll_event) os2 /\
    fds os2 = fds os /\
    mem_avail os2 = mem_avail os - 2 * sizeof_epoll_event /\
    heap os2
    = <[brk os + sizeof_epoll_event :=
          BEvent (mk_epoll_event (to_u32 eventTypes') (to_u32 idx'))]>
        (<[brk os := BEvent (mk_epoll_event (to_u32 eventTypes) (to_u32 idx))]> (heap os)).
Proof.
  intros Hwf Hst Hmem Hep Hreg Hfd.
  pose proof (wf_below _ _ _ Hwf Hst) as Hh.
  assert (Hne : fd <> st_fd st).
  { intros E. rewrite E, Hep in Hfd. discriminate. }
  assert (Hefd : 0 <= st_fd st).
  { destruct (Z.le_gt_cases 0 (st_fd st)) as [|Hn]; [assumption|].
    rewrite (wf_fds _ Hwf) in Hep by lia. discriminate. }
  set (ev := mk_epoll_event (to_u32 eventTypes) (to_u32 idx)).
  set (l1 := l ++ [(fd, Sys.stored_event ev)]).
  set (os1 := set_fds (<[st_fd st := KEpoll l1]> (fds os)) (ctl_mid eventTypes idx os)).
  assert (E1 : ctl h EPOLL_CTL_ADD eventTypes fd idx os = Ret (brk os) os1).
  { rewrite (ctl_run h st _ _ _ _ os Hwf Hst) by (unfold sizeof_epoll_event in *; lia).
    unfold Sys.epoll_ctl, bind. cbn [ctl_mid fds]. rewrite Hep, Hfd.
    unfold Sys.apply_ctl. rewrite Z.eqb_refl, Hreg. reflexivity. }
  assert (Hwf1 : os_wf os1).
  { destruct Hwf as [Hb Hf Hd]. subst os1.
    constructor; cbn [ctl_mid set_fds heap brk fds]; unfold sizeof_epoll_event.
    - lia.
    - intros x Hx. rewrite lookup_insert_ne by lia. apply Hf. lia.
    - intros k Hk. rewrite lookup_insert_ne by lia. apply Hd, Hk. }
  assert (Hst1 : heap os1 !! h = Some (BState st)).
  { subst os1. cbn [ctl_mid set_fds heap]. rewrite lookup_insert_ne by lia. exact Hst. }
  assert (Hep1 : fds os1 !! st_fd st = Some (KEpoll l1)).
  { subst os1. cbn [ctl_mid set_fds fds]. apply lookup_insert_eq. }
  assert (Hfd1 : fds os1 !! fd = Some (KUdp nb err q)).
  { subst os1. cbn [ctl_mid set_fds fds]. rewrite lookup_insert_ne by congruence. exact Hfd. }
  assert (Hreg1 : Sys.registered fd l1 = true).
  { subst l1. unfold Sys.registered. rewrite existsb_app. cbn [existsb fst].
    rewrite Z.eqb_refl. apply orb_true_iff. right. reflexivity. }
  assert (Hdel : List.filter (fun p => negb (fst p =? fd)) l1 = l).
  { subst l1. rewrite List.filter_app, (filter_unregistered _ _ Hreg).
    cbn [List.filter fst]. rewrite Z.eqb_refl. cbn [negb]. apply app_nil_r. }
  exists os1. eexists. split; [exact E1|]. split; [exact Hep1|].
  rewrite (ctl_run h st _ _ _ _ os1 Hwf1 Hst1)
    by (subst os1; cbn [ctl_mid set_fds mem_avail]; unfold sizeof_epoll_event in *; lia).
  unfold Sys.epoll_ctl, bind. cbn [ctl_mid fds]. rewrite Hep1, Hfd1.
  unfold Sys.apply_ctl.
  change (EPOLL_CTL_DEL =? EPOLL_CTL_ADD) with false.
  change (EPOLL_CTL_DEL =? EPOLL_CTL_MOD) with false.
  change (EPOLL_CTL_DEL =? EPOLL_CTL_DEL) with true. cbv iota.
  rewrite Hreg1, Hdel. unfold ret.
  split; [subst os1; reflexivity|].
  subst os1. cbn [ctl_mid set_fds fds mem_avail heap brk].
  split; [rewrite insert_insert_eq; apply insert_id; exact Hep|].
  split; [unfold sizeof_epoll_event; lia | reflexivity].
Qed.

Lemma X8_add_then_del_witness :
  exists os1 os2,
    ctl 4096 EPOLL_CTL_ADD EPOLLIN 5 7 fresh_end = Ret 4384 os1 /\
    ctl 4096 EPOLL_CTL_DEL 0 5 0 os1 = Ret 4396 os2 /\
    fds os2 = fds fresh_end /\
    mem_avail os2 = mem_avail fresh_end - 24.
Proof.
  destruct (X8_add_then_del 4096 (mk_epoll_state 3 4 4144 4 wake_event 2 4192)
              [(4, wake_event)] 5 EPOLLIN 7 0 0 true None [[10; 11; 12]; [20; 21]]
              fresh_end fresh_end_wf)
    as (os1 & os2 & E1 & _ & E2 & Hf & Hm & _);
    try reflexivity.
  - vm_compute. discriminate.
  - exists os1, os2. split; [exact E1|]. split; [exact E2|]. split; [exact Hf | exact Hm].
Defined.

(** ** Exhausted memory *)

Lemma store_event_null f os :
  os_wf os -> store_event 0 f os = Fault NullDeref.
Proof.
  intros Hwf. unfold store_event, load_event, deref, bind.
  rewrite (wf_fresh _ Hwf) by lia. reflexivity.
Qed.

(** X9: no function tests what [malloc] returned.  When the record of
    [ctl] cannot be allocated the call stores through the null pointer, and
    so does [init] when its state block cannot be. *)
Theorem X9_allocation_failure os :
  os_wf os ->
  (mem_avail os < sizeof_epoll_event ->
   forall h op eventTypes fd idx, ctl h op eventTypes fd idx os = Fault NullDeref) /\
  (mem_avail os < sizeof_epoll_state ->
   forall a b c, init a b c os = Fault NullDeref).
Proof.
  intros Hwf. split.
  - intros Hmem h op eventTypes fd idx.
    unfold Java_org_jetlang_epoll_EPoll_ctl.
    erewrite bind_ret; [|apply malloc_null; exact Hmem].
    apply bind_fault. apply store_event_null.
    destruct Hwf as [Hb Hf Hd]. constructor; assumption.
  - intros Hmem a b c. apply init_null_state; assumption.
Qed.

Lemma os_tight_wf : os_wf os_tight.
Proof.
  constructor; cbn [os_tight heap brk fds].
  - lia.
  - intros a _. apply lookup_empty.
  - intros k Hk. rewrite !lookup_insert_ne by lia. apply lookup_empty.
Qed.

Lemma X9_allocation_failure_witness :
  ctl 4096 EPOLL_CTL_ADD EPOLLIN 5 7 os_tight = Fault NullDeref /\
  init 4 2 16 os_tight = Fault NullDeref.
Proof.
  destruct (X9_allocation_failure os_tight os_tight_wf) as [H1 H2].
  split; [apply H1 | apply H2]; vm_compute; reflexivity.
Defined.

(** ** A handle without slots *)

(** X10: a handle made with [maxDatagramsPerRead = 0] cannot be
    destroyed.  [freeNativeMemory] reads the header of slot 0
    unconditionally, and the vector of such a handle has no element: after
    any use of the handle the call closes the descriptors, frees the event
    array and then reads outside the vector. *)
Theorem X10_destroy_without_slots a c cs os h os1 :
  os_wf os ->
  0 <= a < 2 ^ 31 -> 0 <= c < 2 ^ 31 ->
  init_bytes a 0 c <= mem_avail os ->
  lifetime a 0 c cs os = Ret h os1 ->
  heap os1 !! vec_addr (brk os) a = Some (BMsgVec []) /\
  freeNativeMemory h os1 = Fault OutOfBounds.
Proof.
  intros Hwf Ha Hc Hmem H.
  assert (Hb0 : 0 <= 0 < 2 ^ 31) by lia.
  destruct (lifetime_pool _ _ _ _ _ _ _ Hwf Ha Hb0 Hc Hmem H)
    as (-> & Hwf1 & Hpool & (cells & Hev & _) & Hst).
  destruct (init_fds (fds os) (fd_limit os)) as [[e w] t]. cbn [fst snd] in Hst.
  destruct Hpool as [(v & Hv & Ev) _ _].
  pose proof (pool_at_length _ _ _ _ _ Ev) as Hl.
  destruct v as [|m v]; [|discriminate]. clear Ev Hl.
  split; [exact Hv|].
  pose proof (wf_brk _ Hwf) as Hbrk.
  destruct (layout_order (brk os) a 0 c) as (O1 & O2 & _).
  unfold Java_org_jetlang_epoll_EPoll_freeNativeMemory.
  rewrite (bind_ret _ _ _ _ _ (load_state_ret _ _ _ Hst)). cbn [st_fd].
  destruct (close_total e os1) as (r1 & os2 & E2 & Hh2). rewrite (bind_ret _ _ _ _ _ E2).
  erewrite bind_ret; [|apply load_state_ret; rewrite Hh2; exact Hst]. cbn [st_efd].
  destruct (close_total w os2) as (r2 & os3 & E3 & Hh3). rewrite (bind_ret _ _ _ _ _ E3).
  rewrite Hh2 in Hh3.
  erewrite bind_ret; [|apply load_state_ret; rewrite Hh3; exact Hst]. cbn [st_events].
  erewrite bind_ret; [|apply free_ret; [rewrite Hh3; exact Hev | lia]].
  erewrite bind_ret;
    [|apply load_state_ret; os_simpl; rewrite Hh3, lookup_delete_ne by lia; exact Hst].
  cbn [st_udp_rcv].
  apply bind_fault. apply (load_mmsghdr_oob _ _ []).
  - os_simpl. rewrite Hh3, lookup_delete_ne by lia. exact Hv.
  - cbn [length]. lia.
Qed.

Lemma os0_wf : os_wf os0.
Proof.
  constructor; cbn [os0 heap brk fds].
  - lia.
  - intros x _. apply lookup_empty.
  - intros k Hk. rewrite !lookup_insert_ne by lia. apply lookup_empty.
Qed.

Lemma X10_destroy_without_slots_witness :
  heap slotless_end !! 4192 = Some (BMsgVec []) /\
  freeNativeMemory 4096 slotless_end = Fault OutOfBounds.
Proof.
  apply (X10_destroy_without_slots 4 16 [Select 0; Interrupt 1] os0 4096 slotless_end os0_wf);
    [lia | lia | vm_compute; discriminate | vm_compute; reflexivity].
Defined.

(** ** Signals add up *)

(** X11: [interrupt] never blocks and never cancels a wake-up.  Whatever
    the uninitialised local holds on each of any number of calls, every
    call returns, the heap is untouched, and the counter of the wake channel
    does not decrease nor pass [ULLONG_MAX - 1]: a pending wake-up stays
    pending. *)
Theorem X11_interrupts_keep_pending h st ds :
  forall cnt os,
    heap os !! h = Some (BState st) ->
    fds os !! st_efd st = Some (KEventfd cnt true) ->
    0 <= cnt <= Sys.ULLONG_MAX - 1 ->
    exists os' cnt',
      for_each ds (interrupt h) os = Ret tt os' /\
      heap os' = heap os /\
      fds os' = <[st_efd st := KEventfd cnt' true]> (fds os) /\
      cnt <= cnt' <= Sys.ULLONG_MAX - 1.
Proof.
  induction ds as [|d ds IH]; intros cnt os Hst Hfd Hcnt; cbn [for_each].
  - exists os, cnt. unfold ret. split; [reflexivity|]. split; [reflexivity|].
    split; [rewrite insert_id by exact Hfd; reflexivity | lia].
  - destruct (interrupt_spec h st cnt d os Hst Hfd)
      as (os1 & c1 & E1 & Hh1 & Hf1 & Hadd & Hkeep).
    pose proof (to_u64_range d) as Hd.
    assert (Hc1 : cnt <= c1 <= Sys.ULLONG_MAX - 1).
    { destruct (Z.lt_ge_cases (to_u64 d) (Sys.ULLONG_MAX - cnt)) as [Hlt|Hge].
      - rewrite (Hadd (proj1 Hcnt) Hlt). lia.
      - rewrite (Hkeep Hge). lia. }
    destruct (IH c1 os1) as (os2 & c2 & E2 & Hh2 & Hf2 & Hc2).
    + rewrite Hh1. exact Hst.
    + rewrite Hf1. apply lookup_insert_eq.
    + lia.
    + exists os2, c2. rewrite (bind_ret _ _ _ _ _ E1).
      split; [exact E2|]. split; [congruence|].
      split; [rewrite Hf2, Hf1; apply insert_insert_eq | lia].
Qed.

Lemma X11_interrupts_keep_pending_witness :
  exists os' cnt',
    for_each [2 ^ 64 - 1; 0; 2 ^ 64 - 2; 3] (interrupt 4096) signalled_end = Ret tt os' /\
    fds os' = <[4 := KEventfd cnt' true]> (fds signalled_end) /\
    12 <= cnt'.
Proof.
  destruct (X11_interrupts_keep_pending 4096
              (mk_epoll_state 3 4 4144 4 wake_event 2 4192)
              [2 ^ 64 - 1; 0; 2 ^ 64 - 2; 3] 12 signalled_end eq_refl eq_refl)
    as (os' & cnt' & E & _ & Hf & Hc).
  - vm_compute. split; discriminate.
  - exists os', cnt'. split; [exact E|]. split; [exact Hf | lia].
Defined.

(** ** Arguments are not validated *)

Lemma inv_bind {A B} (I : OS -> Prop) (m : M A) (k : A -> M B) os f :
  I os ->
  (forall o, I o -> exists a o', m o = Ret a o' /\ I o') ->
  (forall a o', I o' -> k a o' = Fault f) ->
  bind m k os = Fault f.
Proof.
  intros HI Hm Hk. destruct (Hm os HI) as (a & o' & E & HI').
  rewrite (bind_ret _ _ _ _ _ E). apply Hk, HI'.
Qed.

Lemma wf_alloc_fd o os :
  os_wf os -> exists k os', Sys.alloc_fd o os = Ret k os' /\ os_wf os' /\ heap os' = heap os.
Proof.
  intros Hwf. unfold Sys.alloc_fd, fail.
  destruct (Sys.first_free (fds os) (fd_limit os) 0) as [k|] eqn:E.
  - apply first_free_spec in E as [_ Hk].
    eexists _, _. split; [reflexivity|]. split; [|reflexivity].
    destruct Hwf as [Hb Hf Hd]. constructor; os_simpl; [assumption | assumption |].
    intros j Hj. rewrite lookup_insert_ne by lia. apply Hd, Hj.
  - eexists _, _. split; [reflexivity|]. split; [|reflexivity].
    destruct Hwf as [Hb Hf Hd]. constructor; assumption.
Qed.

Lemma live_alloc_fd S o os :
  state_live S os -> exists k os', Sys.alloc_fd o os = Ret k os' /\ state_live S os'.
Proof.
  intros [Hwf (s & Hs)].
  destruct (wf_alloc_fd o os Hwf) as (k & os' & E & Hwf' & Hh).
  exists k, os'. split; [exact E|]. split; [exact Hwf'|]. exists s. rewrite Hh. exact Hs.
Qed.

Lemma live_store S f os :
  state_live S os ->
  exists os',
    store_state S f os = Ret tt os' /\ state_live S os' /\
    forall s, heap os !! S = Some (BState s) -> heap os' !! S = Some (BState (f s)).
Proof.
  intros [Hwf (s & Hs)].
  exists (set_heap (<[S := BState (f s)]> (heap os)) os).
  split; [apply store_state_ret, Hs|]. split.
  - split.
    + pose proof (wf_below _ _ _ Hwf Hs) as HS.
      destruct Hwf as [Hb Hf Hd]. constructor; os_simpl; [assumption | | assumption].
      intros a Ha. rewrite lookup_insert_ne by lia. apply Hf, Ha.
    + exists (f s). os_simpl. apply lookup_insert_eq.
  - intros s' Hs'. os_simpl. rewrite Hs in Hs'. injection Hs' as <-. apply lookup_insert_eq.
Qed.

Lemma live_store_any S f os :
  state_live S os -> exists u os', store_state S f os = Ret u os' /\ state_live S os'.
Proof.
  intros H. destruct (live_store S f os H) as (os' & E & H' & _). eauto.
Qed.

Lemma live_load S os :
  state_live S os -> exists s os', load_state S os = Ret s os' /\ state_live S os'.
Proof.
  intros [Hwf (s & Hs)]. exists s, os. split; [apply load_state_ret, Hs|].
  split; [exact Hwf | eauto].
Qed.

Lemma live_steps S os os' : steps_to os os' -> state_live S os -> state_live S os'.
Proof.
  intros Hstep [Hwf (s & Hs)]. destruct (Hstep Hwf) as (Hwf' & Hshape & _).
  split; [exact Hwf'|]. exists s. eapply state_mono; eassumption.
Qed.

Lemma live_malloc S size view os :
  state_live S os -> exists p os', Libc.malloc size view os = Ret p os' /\ state_live S os'.
Proof.
  intros H. destruct (Libc.malloc size view os) as [p os'| |] eqn:E.
  - exists p, os'. split; [reflexivity|]. eapply live_steps; [eapply steps_malloc, E | exact H].
  - unfold Libc.malloc in E. destruct (_ && _); discriminate.
  - unfold Libc.malloc in E. destruct (_ && _); discriminate.
Qed.

Lemma live_epoll_ctl S epfd op fd ev os :
  state_live S os ->
  exists r os', Sys.epoll_ctl epfd op fd ev os = Ret r os' /\ state_live S os'.
Proof.
  intros H. destruct (epoll_ctl_total epfd op fd ev os) as (r & os' & E).
  exists r, os'. split; [exact E|]. eapply live_steps; [eapply epoll_ctl_frame, E | exact H].
Qed.

Lemma malloc_huge size view os :
  PTRDIFF_MAX < size -> Libc.malloc size view os = Ret 0 (set_errno ENOMEM os).
Proof.
  intros H. unfold Libc.malloc. apply Z.leb_gt in H. rewrite H. reflexivity.
Qed.

Lemma to_size_t_negative z : - 2 ^ 63 < z < 0 -> to_size_t z = 2 ^ 64 + z.
Proof.
  intros H. unfold to_size_t. symmetry. apply (Z.mod_unique _ _ (-1)); lia.
Qed.

(** X12: [init] does not look at its arguments.  With a negative
    [maxDatagramsPerRead] the size of the vector of headers, computed in
    [size_t], is beyond anything [malloc] grants; the null pointer that
    comes back is stored in the state block and handed to [memset]: the
    call ends in a store through the null pointer whatever the other two
    arguments are and however much memory there is. *)
Theorem X12_init_negative_slots a b c os :
  os_wf os -> - 2 ^ 31 <= b < 0 -> init a b c os = Fault NullDeref.
Proof.
  intros Hwf Hb. unfold Java_org_jetlang_epoll_EPoll_init.
  rewrite epoll_create1_0, eventfd_nonblock.
  apply (inv_bind os_wf); [exact Hwf | |].
  { intros o Ho. destruct (wf_alloc_fd (KEpoll []) o Ho) as (k & o' & E & Ho' & _). eauto. }
  intros epoll_fd os1 Hwf1.
  rewrite (bind_ret _ _ _ _ _ (printf_ret _ _)).
  match goal with |- bind _ _ ?o = _ => set (os2 := o) end.
  assert (Hwf2 : os_wf os2).
  { destruct Hwf1 as [H1 H2 H3]. constructor; assumption. }
  clearbody os2. clear os1 Hwf1 os Hwf.
  destruct (Z.lt_ge_cases (mem_avail os2) sizeof_epoll_state) as [Hmem|Hmem].
  { erewrite bind_ret; [|apply malloc_null; exact Hmem].
    apply bind_fault. unfold store_state, load_state, deref, bind. os_simpl.
    rewrite (wf_fresh _ Hwf2) by lia. reflexivity. }
  erewrite bind_ret;
    [|apply malloc_ret; [unfold sizeof_epoll_state, PTRDIFF_MAX; lia | exact Hmem]].
  set (S := brk os2).
  match goal with |- bind _ _ ?o = _ => set (os3 := o) end.
  assert (HJ : state_live S os3).
  { split; [apply malloc_wf, Hwf2|]. eexists. subst os3 S. os_simpl. apply lookup_insert_eq. }
  clearbody os3 S. clear Hwf2 Hmem os2.
  apply (inv_bind (state_live S)); [exact HJ | apply live_store_any |]. clear HJ os3.
  intros _ os3 HJ.
  apply (inv_bind (state_live S)); [exact HJ | apply live_malloc |]. clear HJ os3.
  intros events os3 HJ.
  apply (inv_bind (state_live S)); [exact HJ | apply live_store_any |]. clear HJ os3.
  intros _ os3 HJ.
  apply (inv_bind (state_live S)); [exact HJ | apply live_store_any |]. clear HJ os3.
  intros _ os3 HJ.
  apply (inv_bind (state_live S)); [exact HJ | apply live_alloc_fd |]. clear HJ os3.
  intros efd os3 HJ.
  apply (inv_bind (state_live S)); [exact HJ | apply live_store_any |]. clear HJ os3.
  intros _ os3 HJ.
  apply (inv_bind (state_live S)); [exact HJ | apply live_store_any |]. clear HJ os3.
  intros _ os3 HJ.
  apply (inv_bind (state_live S)); [exact HJ | apply live_store_any |]. clear HJ os3.
  intros _ os3 HJ.
  apply (inv_bind (state_live S)); [exact HJ | apply live_load |]. clear HJ os3.
  intros s os3 HJ.
  apply (inv_bind (state_live S)); [exact HJ | apply live_epoll_ctl |]. clear HJ os3.
  intros _ os3 HJ.
  apply (inv_bind (state_live S)); [exact HJ | apply live_store_any |]. clear HJ os3.
  intros _ os3 HJ.
  assert (Hsize : to_size_t (b * sizeof_mmsghdr) = 2 ^ 64 + b * 64).
  { unfold sizeof_mmsghdr. apply to_size_t_negative. lia. }
  rewrite Hsize.
  erewrite bind_ret; [|apply malloc_huge; unfold PTRDIFF_MAX; lia].
  assert (HJ' : state_live S (set_errno ENOMEM os3)).
  { eapply live_steps; [apply steps_set_errno | exact HJ]. }
  destruct HJ' as [Hwf' (s' & Hs')].
  destruct (live_store S (set_udp_rcv 0) _ (conj Hwf' (ex_intro _ s' Hs')))
    as (os4 & E4 & [Hwf4 _] & Hs4).
  rewrite (bind_ret _ _ _ _ _ E4).
  rewrite (bind_ret _ _ _ _ _ (load_state_ret _ _ _ (Hs4 _ Hs'))).
  cbn [st_udp_rcv set_udp_rcv].
  apply bind_fault. unfold Libc.memset_zero.
  assert (Hnz : (2 ^ 64 + b * 64 =? 0) = false) by (apply Z.eqb_neq; lia).
  rewrite Hnz, (wf_fresh _ Hwf4) by lia. reflexivity.
Qed.

Lemma X12_init_negative_slots_witness : init 4 (-1) 16 os0 = Fault NullDeref.
Proof. apply (X12_init_negative_slots 4 (-1) 16 os0 os0_wf). lia. Defined.

(** ** Batches and the queue of the socket *)

(** When the loop stopped because every slot was filled, what was queued
    behind the datagrams it took stays queued, blocking socket or not. *)
Lemma recv_loop_app nb vecp vlen q2 :
  forall q1 i hp n hp',
    Sys.recv_loop true vecp vlen i q1 hp = Sys.RStop n None [] hp' ->
    Sys.recv_loop nb vecp vlen i (q1 ++ q2) hp = Sys.RStop n None q2 hp'.
Proof.
  induction q1 as [|dg q1 IH]; intros i hp n hp' H.
  - cbn [app]. destruct q2 as [|dg2 q2]; cbn [Sys.recv_loop] in *;
      destruct (vlen <=? i).
    + exact H.
    + destruct (hp !! vecp) as [[| | |v| |]|]; try discriminate.
      destruct (v !! Z.to_nat i); discriminate.
    + injection H as <- <-. reflexivity.
    + destruct (hp !! vecp) as [[| | |v| |]|]; try discriminate.
      destruct (v !! Z.to_nat i); discriminate.
  - cbn [app Sys.recv_loop] in *.
    destruct (vlen <=? i); [discriminate|].
    destruct (hp !! vecp) as [[| | |v| |]|]; try discriminate.
    destruct (v !! Z.to_nat i) as [m|]; [|discriminate].
    destruct (Sys.deliver hp m dg) as [[h1 m1]|]; [|discriminate].
    apply IH, H.
Qed.

(** Where a non-blocking socket stops with [EAGAIN], a blocking one
    sleeps. *)
Lemma recv_loop_sleeps vecp vlen :
  forall q i hp n q' hp',
    Sys.recv_loop true vecp vlen i q hp = Sys.RStop n (Some EAGAIN) q' hp' ->
    Sys.recv_loop false vecp vlen i q hp = Sys.RBlock.
Proof.
  induction q as [|dg q IH]; intros i hp n q' hp' H; cbn [Sys.recv_loop] in *.
  - destruct (vlen <=? i); [discriminate|].
    destruct (hp !! vecp) as [[| | |v| |]|]; try discriminate.
    destruct (v !! Z.to_nat i); [reflexivity | discriminate].
  - destruct (vlen <=? i); [discriminate|].
    destruct (hp !! vecp) as [[| | |v| |]|]; try discriminate.
    destruct (v !! Z.to_nat i) as [m|]; [|discriminate].
    destruct (Sys.deliver hp m dg) as [[h1 m1]|]; [|discriminate].
    eapply IH, H.
Qed.

(** X13: a batch never exceeds the slots.  On a socket, blocking or not,
    that holds at least [maxDatagrams] datagrams, [recvmmsg] returns
    [maxDatagrams]; the first [maxDatagrams] datagrams are in the buffers of
    the slots in queue order, each cut to the buffer capacity, and the
    others stay queued in order. *)
Theorem X13_batch_capped a b c cs os0 h os fd nb q :
  os_wf os0 ->
  0 <= a < 2 ^ 31 -> 1 <= b < 2 ^ 31 -> 0 <= c < 2 ^ 31 ->
  init_bytes a b c <= mem_avail os0 ->
  lifetime a b c cs os0 = Ret h os ->
  fds os !! fd = Some (KUdp nb None q) ->
  b <= Z.of_nat (length q) ->
  exists os',
    recvmmsg h fd os = Ret b os' /\
    fds os' !! fd = Some (KUdp nb None (drop (Z.to_nat b) q)) /\
    (forall k dg, (k < Z.to_nat b)%nat -> q !! k = Some dg ->
       exists cells,
         heap os !! buf_addr (brk os0) a b c (Z.of_nat k) = Some (BBytes cells) /\
         heap os' !! buf_addr (brk os0) a b c (Z.of_nat k)
         = Some (BBytes (overwrite (Z.min (Z.of_nat (length dg)) c) dg cells))).
Proof.
  intros Hwf Ha Hb Hc Hmem Hlife Hfd Hq.
  assert (Hb0 : 0 <= b < 2 ^ 31) by lia.
  destruct (lifetime_pool _ _ _ _ _ _ _ Hwf Ha Hb0 Hc Hmem Hlife)
    as (-> & _ & Hpool & _ & Hst).
  pose proof Hpool as [(v & Hv & Ev) _ _].
  set (q1 := take (Z.to_nat b) q).
  assert (Hl1 : length q1 = Z.to_nat b) by (subst q1; rewrite length_take; lia).
  assert (Hfit : (0 + length q1 <= Z.to_nat b)%nat) by lia.
  destruct (recv_loop_fill (brk os0) a b c (proj1 Hb0) (proj1 Hc) q1 0%nat (heap os) v
              Hpool Hv Hfit)
    as (hp' & v' & Erun & _ & _ & Hin & _).
  cbn [Nat.add] in Erun. change (Z.of_nat 0) with 0 in Erun.
  rewrite Hl1, Z2Nat.id, Z.ltb_irrefl in Erun by lia.
  apply (recv_loop_app nb _ _ (drop (Z.to_nat b) q)) in Erun.
  unfold q1 in Erun. rewrite take_drop in Erun.
  unfold Java_org_jetlang_epoll_EPoll_recvmmsg.
  rewrite (bind_ret _ _ _ _ _ (load_state_ret _ _ _ Hst)).
  cbn [st_udp_rcv st_udp_rcv_len].
  assert (Hsys : Sys.recvmmsg fd (vec_addr (brk os0) a) b os
                 = Ret b (set_heap hp'
                            (set_fds (<[fd := KUdp nb None (drop (Z.to_nat b) q)]> (fds os)) os))).
  { unfold Sys.recvmmsg. rewrite Hfd, to_u32_small by lia. rewrite Erun. reflexivity. }
  rewrite (bind_ret _ _ _ _ _ Hsys).
  assert (Hcontent : forall k dg, (k < Z.to_nat b)%nat -> q !! k = Some dg ->
            exists cells,
              heap os !! buf_addr (brk os0) a b c (Z.of_nat k) = Some (BBytes cells) /\
              hp' !! buf_addr (brk os0) a b c (Z.of_nat k)
              = Some (BBytes (overwrite (Z.min (Z.of_nat (length dg)) c) dg cells))).
  { intros k dg Hk Hdg.
    assert (Hdg1 : q1 !! k = Some dg) by (subst q1; rewrite lookup_take_lt by lia; exact Hdg).
    destruct (Hin k dg Hdg1) as (m & cells & _ & Hcells & _ & Hnew).
    exists cells. split; [exact Hcells | exact Hnew]. }
  destruct (b =? 1); unfold get_errno, Libc.printf, bind, ret; os_simpl;
    (eexists; split; [reflexivity|]; os_simpl;
     split; [apply lookup_insert_eq | exact Hcontent]).
Qed.

Lemma X13_batch_capped_witness :
  exists os',
    recvmmsg 4096 5 narrow_udp_end = Ret 1 os' /\
    fds os' !! 5 = Some (KUdp true None [[20; 21]]) /\
    heap os' !! 4209 = Some (BBytes [Some 10; Some 11]).
Proof.
  destruct (X13_batch_capped 0 1 2 [] os_udp 4096 narrow_udp_end 5 true
              [[10; 11; 12]; [20; 21]] os_udp_wf)
    as (os' & E & Hq & Hc);
    [lia | lia | lia | vm_compute; discriminate | vm_compute; reflexivity
    | reflexivity | cbn; lia |].
  exists os'. split; [exact E|]. split; [exact Hq|].
  destruct (Hc 0%nat [10; 11; 12]) as (cells & Hold & Hnew); [lia | reflexivity |].
  vm_compute in Hold. injection Hold as <-. exact Hnew.
Defined.

(** X14: a blocking socket fills every slot or does not return.  On a
    handle with more slots than the socket has datagrams, [recvmmsg] on a
    blocking socket waits for the rest: in a sequential execution the call
    never returns, although datagrams were waiting. *)
Theorem X14_blocking_socket_waits a b c cs os0 h os fd q :
  os_wf os0 ->
  0 <= a < 2 ^ 31 -> 0 <= b < 2 ^ 31 -> 0 <= c < 2 ^ 31 ->
  init_bytes a b c <= mem_avail os0 ->
  lifetime a b c cs os0 = Ret h os ->
  fds os !! fd = Some (KUdp false None q) ->
  Z.of_nat (length q) < b ->
  recvmmsg h fd os = Blocks.
Proof.
  intros Hwf Ha Hb Hc Hmem Hlife Hfd Hq.
  destruct (lifetime_pool _ _ _ _ _ _ _ Hwf Ha Hb Hc Hmem Hlife)
    as (-> & _ & Hpool & _ & Hst).
  pose proof Hpool as [(v & Hv & Ev) _ _].
  assert (Hfit : (0 + length q <= Z.to_nat b)%nat) by lia.
  destruct (recv_loop_fill (brk os0) a b c (proj1 Hb) (proj1 Hc) q 0%nat (heap os) v
              Hpool Hv Hfit)
    as (hp' & v' & Erun & _).
  cbn [Nat.add] in Erun. change (Z.of_nat 0) with 0 in Erun.
  assert (Elt : (Z.of_nat (length q) <? b) = true) by (apply Z.ltb_lt; lia).
  rewrite Elt in Erun. apply recv_loop_sleeps in Erun.
  unfold Java_org_jetlang_epoll_EPoll_recvmmsg.
  rewrite (bind_ret _ _ _ _ _ (load_state_ret _ _ _ Hst)).
  cbn [st_udp_rcv st_udp_rcv_len].
  apply bind_blocks. unfold Sys.recvmmsg. rewrite Hfd, to_u32_small by lia.
  rewrite Erun. reflexivity.
Qed.

Lemma X14_blocking_socket_waits_witness : recvmmsg 4096 5 blocking_end = Blocks.
Proof.
  apply (X14_blocking_socket_waits 4 2 16 [] os_blocking 4096 blocking_end 5 [[10; 11; 12]]);
    [ constructor; cbn [os_blocking heap brk fds];
      [ lia | intros x _; apply lookup_empty
      | intros k Hk; rewrite !lookup_insert_ne by lia; apply lookup_empty ]
    | lia | lia | lia | vm_compute; discriminate | vm_compute; reflexivity
    | reflexivity | cbn; lia ].
Defined.

(** ** A capacity [epoll_wait] refuses *)

(** X15: [init] accepts any capacity, [select] does not.  On a handle made
    with [maxSelectedEvents] 0, or above what [epoll_wait] takes, every
    [select] returns -1 at once with [EINVAL], whatever the timeout and
    whatever is ready, and changes nothing else. *)
Theorem X15_select_needs_capacity a b c cs os h os' timeout :
  os_wf os ->
  0 <= a < 2 ^ 31 -> 0 <= b < 2 ^ 31 -> 0 <= c < 2 ^ 31 ->
  init_bytes a b c <= mem_avail os ->
  lifetime a b c cs os = Ret h os' ->
  a = 0 \/ Sys.EP_MAX_EVENTS < a ->
  select h timeout os' = Ret (-1) (set_errno EINVAL os').
Proof.
  intros Hwf Ha Hb Hc Hmem H Hcap.
  destruct (lifetime_pool _ _ _ _ _ _ _ Hwf Ha Hb Hc Hmem H) as (-> & _ & _ & _ & Hst).
  unfold Java_org_jetlang_epoll_EPoll_select.
  rewrite (bind_ret _ _ _ _ _ (load_state_ret _ _ _ Hst)). cbn [st_max_events].
  unfold Sys.epoll_wait, bind, fail.
  assert (E : (a <=? 0) || (Sys.EP_MAX_EVENTS <? a) = true).
  { apply orb_true_iff. destruct Hcap as [->|Hbig]; [left; reflexivity|].
    right. apply Z.ltb_lt. exact Hbig. }
  rewrite E. reflexivity.
Qed.

Lemma X15_select_needs_capacity_witness :
  select 4096 (-1) narrow_end = Ret (-1) (set_errno EINVAL narrow_end).
Proof.
  apply (X15_select_needs_capacity 0 1 16 [] os0 4096 narrow_end (-1) os0_wf);
    [lia | lia | lia | vm_compute; discriminate | vm_compute; reflexivity | left; reflexivity].
Defined.

(** ** The line [init] prints *)

(** X16: every [init] that has memory for its blocks prints exactly one
    line on standard output, the number of the interest descriptor it
    stored in the state block, -1 when the descriptor could not be
    created. *)
Theorem X16_init_prints a b c os :
  os_wf os ->
  0 <= a < 2 ^ 31 -> 0 <= b < 2 ^ 31 -> 0 <= c < 2 ^ 31 ->
  init_bytes a b c <= mem_avail os ->
  exists os' st,
    init a b c os = Ret (brk os) os' /\
    heap os' !! brk os = Some (BState st) /\
    stdout os' = stdout os ++ [OutEpollFd (st_fd st)] /\
    (Sys.first_free (fds os) (fd_limit os) 0 = None -> st_fd st = -1).
Proof.
  intros Hwf Ha Hb Hc Hmem.
  destruct (init_spec a b c os Hwf Ha Hb Hc Hmem)
    as (os' & Ei & _ & _ & _ & _ & _ & _ & _ & _ & Hrest).
  destruct (init_fds (fds os) (fd_limit os)) as [[e w] t] eqn:Efds.
  destruct Hrest as (_ & Hout & Hst).
  eexists os', _. split; [exact Ei|]. split; [exact Hst|]. split; [exact Hout|].
  cbn [st_fd]. intros Hnone. unfold init_fds in Efds. rewrite Hnone in Efds. congruence.
Qed.

Lemma X16_init_prints_witness :
  exists os', init 4 2 16 os_full = Ret 4096 os' /\ stdout os' = [OutEpollFd (-1)].
Proof.
  destruct (X16_init_prints 4 2 16 os_full os_full_wf)
    as (os' & st & E & _ & Hout & Hneg);
    [lia | lia | lia | vm_compute; discriminate |].
  exists os'. split; [exact E|]. rewrite Hout, (Hneg eq_refl). reflexivity.
Defined.
